(** * Contract parsing and feature derivation (python_solution/parse_data.ipynb)

    A shallow embedding of the notebook's pipeline

      read_csv -> parse_contracts -> convert_data_types
               -> calculate_tot_claim_cnt_l180d
                  calculate_disb_bank_loan_wo_tbc
                  calculate_day_sinlastloan        -> merge on id

    and the properties its specification states about it.

    Conventions.
    - A DataFrame is the list of its rows, in index order; a column is the
      list of one field over the rows.
    - A Python exception that leaves a function is the [Raise] result.
    - float64 values are IEEE-754 binary64 values ([spec_float] at
      precision 53); NaN is the missing value of a float64 column.
    - A Timestamp is a number of nanoseconds since 1970-01-01 held in an
      int64, NaT is [None], and a Timedelta is a number of nanoseconds
      held in an int64; a subtraction whose result does not fit raises
      ([ts_sub_timedelta], [ts_sub]).
    - A str is the list of the bytes of its UTF-8 encoding; the order of
      two strings by bytes is their order by code points.
    - The calls into json and pandas that read text (json.loads,
      pd.to_numeric and pd.to_datetime on strings) are the members of the
      class [PyLib]; every definition and theorem is parametric in them.
    - Scope of the input: the id column of the CSV holds integers, the
      application_date and contracts columns hold text or are empty
      (read_csv gives NaN for an empty cell), an application date is
      written without a UTC offset, and the attributes of a decoded
      contract object are JSON strings or null. *)

From Stdlib Require Import ZArith List String Ascii Bool Lia.
From Stdlib Require Import Sorting.Permutation Sorting.Sorted.
From Stdlib Require Import Floats.SpecFloat.
Import ListNotations.
Local Open Scope Z_scope.
Set Warnings "-register-all".

(** ** Exceptions *)

Inductive exn : Set :=
| TypeError
| AttributeError
| KeyError
| IndexError
| OutOfBoundsDatetime
| AssertionError.

Inductive result (A : Type) : Type :=
| Ok (a : A)
| Raise (e : exn).

Arguments Ok {A} a.
Arguments Raise {A} e.

Definition bind {A B : Type} (m : result A) (k : A -> result B) : result B :=
  match m with
  | Ok a => k a
  | Raise e => Raise e
  end.

Notation "x <- m ;; k" := (bind m (fun x => k))
  (at level 61, m at next level, right associativity).

(** [for x in l: out.extend(f(x))], stopping at the first exception. *)
Fixpoint concat_mapM {A B : Type} (f : A -> result (list B)) (l : list A)
  : result (list B) :=
  match l with
  | [] => Ok []
  | x :: rest =>
      ys <- f x ;;
      zs <- concat_mapM f rest ;;
      Ok (ys ++ zs)
  end.

Fixpoint mapM {A B : Type} (f : A -> result B) (l : list A) : result (list B) :=
  match l with
  | [] => Ok []
  | x :: rest =>
      y <- f x ;;
      ys <- mapM f rest ;;
      Ok (y :: ys)
  end.

(** ** Numbers: Python int, numpy int64 / uint64, and float64 *)

Definition float : Set := spec_float.

Definition nan : float := S754_nan.
Definition fzero : float := S754_zero false.
Definition float_of_Z (z : Z) : float := binary_normalize 53 1024 z 0 false.
Definition fadd : float -> float -> float := SFadd 53 1024.

Definition is_nan (f : float) : bool :=
  match f with
  | S754_nan => true
  | _ => false
  end.

Inductive num : Set :=
| VInt (z : Z)
| VFloat (f : float).

Definition is_int (n : num) : bool :=
  match n with
  | VInt _ => true
  | VFloat _ => false
  end.

Definition is_float (n : num) : bool := negb (is_int n).

Definition to_float (n : num) : float :=
  match n with
  | VInt z => float_of_Z z
  | VFloat f => f
  end.

Definition int_val (n : num) : Z :=
  match n with
  | VInt z => z
  | VFloat _ => 0
  end.

(** [pd.notna] on a numeric value. *)
Definition num_notna (n : num) : bool :=
  match n with
  | VInt _ => true
  | VFloat f => negb (is_nan f)
  end.

(** [n > 0]; false on NaN. *)
Definition num_gt0 (n : num) : bool :=
  match n with
  | VInt z => 0 <? z
  | VFloat f => SFltb fzero f
  end.

(** [n <= 0]; false on NaN. *)
Definition num_le0 (n : num) : bool :=
  match n with
  | VInt z => z <=? 0
  | VFloat f => SFleb f fzero
  end.

(** The int64 and uint64 ranges. *)
Definition int64_min : Z := -9223372036854775808.
Definition int64_max : Z := 9223372036854775807.
Definition uint64_max : Z := 18446744073709551615.

Definition in_int64 (n : num) : bool :=
  match n with
  | VInt z => (int64_min <=? z) && (z <=? int64_max)
  | VFloat _ => false
  end.

Definition in_uint64 (n : num) : bool :=
  match n with
  | VInt z => (0 <=? z) && (z <=? uint64_max)
  | VFloat _ => false
  end.

(** Two's complement wrap-around of int64 arithmetic. *)
Definition wrap64 (z : Z) : Z := (z + 2 ^ 63) mod 2 ^ 64 - 2 ^ 63.

(** A column built from the values a function returned has one dtype:
    integers when every value is an integer, float64 otherwise (integers
    are then stored as floats). *)
Definition upcast (col : list num) (n : num) : num :=
  if forallb is_int col then n else VFloat (to_float n).

(** The dtype [pd.to_numeric] gives a column of parsed values: int64 when
    every value is an integer that fits int64, uint64 when every value
    is an integer between 0 and 2^64 - 1, and float64 otherwise, that is
    when a value is a float or NaN, when an integer lies outside both
    ranges, or when a negative integer meets one above the int64 range. *)
Definition integer_dtype (col : list num) : bool :=
  forallb in_int64 col || forallb in_uint64 col.

Definition to_numeric_cast (col : list num) (n : num) : num :=
  if integer_dtype col then n else VFloat (to_float n).

(** The exact sum of an integer column. *)
Definition int_sum (col : list num) : Z := fold_left Z.add (map int_val col) 0.

(** numpy's sum of a float64 array ([pairwise_sum] of the add loop).
    Fewer than 8 elements are added in order; up to 128 elements are
    added into 8 accumulators, element [i] into accumulator [i mod 8],
    which are then added in pairs, and the elements after the last full
    block of 8 are added in order; a longer array is split in two at a
    multiple of 8 and the sums of the halves are added. *)
Definition add8 (r chunk : list float) : list float :=
  map (fun p => fadd (fst p) (snd p)) (combine r chunk).

Fixpoint unrolled (blocks : nat) (r a : list float) : list float * list float :=
  match blocks with
  | O => (r, a)
  | S blocks' => unrolled blocks' (add8 r (firstn 8 a)) (skipn 8 a)
  end.

Definition block_sum (a : list float) : float :=
  let (r, rest) :=
    unrolled (List.length a / 8 - 1)%nat (firstn 8 a) (skipn 8 a) in
  let x i := nth i r fzero in
  fold_left fadd rest
    (fadd (fadd (fadd (x 0%nat) (x 1%nat)) (fadd (x 2%nat) (x 3%nat)))
          (fadd (fadd (x 4%nat) (x 5%nat)) (fadd (x 6%nat) (x 7%nat)))).

(** [fuel] bounds the depth of the splitting; the length of the array is
    always enough ([pairwise_sum_fuel]). *)
Fixpoint pairwise_sum (fuel : nat) (a : list float) : float :=
  let n := List.length a in
  if (n <? 8)%nat then fold_left fadd a fzero
  else if (n <=? 128)%nat then block_sum a
  else
    match fuel with
    | O => fzero
    | S fuel' =>
        let n2 := (n / 2 - (n / 2) mod 8)%nat in
        fadd (pairwise_sum fuel' (firstn n2 a)) (pairwise_sum fuel' (skipn n2 a))
    end.

(** [Series.sum()] of a float64 column (nansum): every NaN is replaced
    by 0.0 and the array is summed by numpy. The sign of a zero total
    depends on the numpy version; the notebook only tests [total > 0]. *)
Definition nan_to_zero (f : float) : float := if is_nan f then fzero else f.

Definition float_sum (col : list float) : float :=
  pairwise_sum (List.length col) (map nan_to_zero col).

(** [Series.sum()]: an int64 column adds with wrap-around, a uint64
    column modulo 2^64, a float64 column as [float_sum]. The dtype is
    read off the values that are summed; the rows of a group taken from
    a uint64 column whose own amounts all fit int64 are summed here as
    int64, which differs from pandas only when that sum passes 2^63. *)
Definition series_sum (col : list num) : num :=
  if forallb is_int col
  then if forallb in_int64 col
       then VInt (wrap64 (int_sum col))
       else VInt (int_sum col mod 2 ^ 64)
  else VFloat (float_sum (map to_float col)).

(** ** Timestamps *)

Definition ns_per_day : Z := 86400 * 1000000000.

(** [timedelta(days=d)] *)
Definition timedelta_days (d : Z) : Z := d * ns_per_day.

(** Day number of a proleptic Gregorian date, 1970-01-01 being day 0. *)
Definition days_from_civil (y m d : Z) : Z :=
  let y' := if m <=? 2 then y - 1 else y in
  let era := y' / 400 in
  let yoe := y' - era * 400 in
  let mp := (m + 9) mod 12 in
  let doy := (153 * mp + 2) / 5 + d - 1 in
  let doe := yoe * 365 + yoe / 4 - yoe / 100 + doy in
  era * 146097 + doe - 719468.

(** The Timestamp of midnight on a calendar date. *)
Definition Timestamp (y m d : Z) : Z := days_from_civil y m d * ns_per_day.

(** [a - td] for a Timestamp and a timedelta. Timestamp.min is
    [int64_min + 1], Timestamp.max is [int64_max], and [int64_min] is
    the bit pattern of NaT: the int64 values are subtracted with an
    overflow check that raises OutOfBoundsDatetime, and the Timestamp
    built from the NaT pattern is NaT; NaT propagates. *)
Definition ts_sub_timedelta (a : option Z) (td : Z) : result (option Z) :=
  match a with
  | None => Ok None
  | Some x =>
      let v := x - td in
      if (v <? int64_min) || (int64_max <? v) then Raise OutOfBoundsDatetime
      else if v =? int64_min then Ok None
      else Ok (Some v)
  end.

(** [a - b] on Timestamps, a Timedelta: the int64 values are subtracted
    with an overflow check that raises OutOfBoundsDatetime ("Result is
    too large for pandas.Timedelta"); the Timedelta constructor asserts
    that the value is not the NaT pattern; NaT propagates. *)
Definition ts_sub (a b : option Z) : result (option Z) :=
  match a, b with
  | Some x, Some y =>
      let d := x - y in
      if (d <? int64_min) || (int64_max <? d) then Raise OutOfBoundsDatetime
      else if d =? int64_min then Raise AssertionError
      else Ok (Some d)
  | _, _ => Ok None
  end.

(** [.days] of a Timedelta: the floor of the day count; NaT.days is nan. *)
Definition days (td : option Z) : num :=
  match td with
  | Some d => VInt (d / ns_per_day)
  | None => VFloat nan
  end.

(** [Series.max()] of a datetime column: NaT is skipped, and the maximum
    of no date at all is NaT. *)
Definition ts_later (acc c : option Z) : option Z :=
  match acc, c with
  | Some a, Some b => Some (Z.max a b)
  | None, c' => c'
  | acc', None => acc'
  end.

Definition ts_max (col : list (option Z)) : option Z :=
  fold_left ts_later col None.

(** ** JSON values, as json.loads returns them *)

Inductive json : Type :=
| JNull
| JBool (b : bool)
| JNumber (n : Z)
| JString (s : string)
| JArray (items : list json)
| JObject (members : list (string * option string)).

(** [contract.get(key)]: the value of the member, None when the member is
    absent or null. *)
Fixpoint dict_get (key : string) (members : list (string * option string))
  : option string :=
  match members with
  | [] => None
  | (k, v) :: rest => if String.eqb k key then v else dict_get key rest
  end.

(** ** The library calls the notebook makes on text *)

Class PyLib : Type := {
  (** [json.loads(s)]; [None] is JSONDecodeError. *)
  json_loads : string -> option json;
  (** The value [pd.to_numeric(.., errors='coerce')] reads in a string
      element: an integer of any size, a float, or NaN when it is not a
      number. *)
  to_numeric_str : string -> num;
  (** The value [pd.to_datetime(.., format='%d.%m.%Y', errors='coerce')]
      gives a string element; [None] is NaT. *)
  strptime_dmy : string -> option Z;
  (** The value [pd.to_datetime(col, errors='coerce')] gives a string
      element of the column [col] (pandas guesses one format for the
      column); [None] is NaT. *)
  to_datetime_infer : list (option string) -> string -> option Z
}.

(** ** The input table *)

Module Raw.
(** A row of [pd.read_csv('data.csv')]; [None] is an empty cell (NaN). *)
Record t : Type := mk {
  id : Z;
  application_date : option string;
  contracts : option string
}.
End Raw.

(** ** Rows of the DataFrame that parse_contracts builds and
       convert_data_types retypes column by column *)

(** A cell of a date column. In application_date the missing value of an
    object cell is the NaN read_csv gives an empty cell; in claim_date
    and contract_date it is the None that [.get] returns. *)
Inductive date_cell : Type :=
| DObj (o : option string)   (* object dtype: str, or the missing value *)
| DTime (t : option Z).      (* datetime64[ns]: Timestamp or NaT *)

Inductive num_cell : Type :=
| NObj (o : option string)   (* object dtype: str or None *)
| NVal (n : num).            (* int64 or float64 *)

Module Frame.
Record row : Type := mk {
  id : Z;
  application_date : date_cell;
  contract_id : option string;
  bank : option string;
  summa : num_cell;
  loan_summa : num_cell;
  claim_date : date_cell;
  claim_id : option string;
  contract_date : date_cell
}.
End Frame.

(** ** Rows of the typed table the feature functions read *)

Module Row.
Record t : Type := mk {
  id : Z;
  application_date : option Z;
  contract_id : option string;
  bank : option string;
  summa : num;
  loan_summa : num;
  claim_date : option Z;
  claim_id : option string;
  contract_date : option Z
}.
End Row.

(** ** Normalizer: parse_contracts *)

(** Order of a text column under [sort_values]: strings by code units,
    missing values last. *)
Definition cell_compare (a b : option string) : comparison :=
  match a, b with
  | Some x, Some y => String.compare x y
  | Some _, None => Lt
  | None, Some _ => Gt
  | None, None => Eq
  end.

(** The sort key [by=['id', 'application_date', 'contracts']]. *)
Definition key_compare (r1 r2 : Raw.t) : comparison :=
  match Z.compare (Raw.id r1) (Raw.id r2) with
  | Eq =>
      match cell_compare (Raw.application_date r1) (Raw.application_date r2) with
      | Eq => cell_compare (Raw.contracts r1) (Raw.contracts r2)
      | c => c
      end
  | c => c
  end.

Definition key_leb (r1 r2 : Raw.t) : bool :=
  match key_compare r1 r2 with
  | Gt => false
  | _ => true
  end.

Definition key_le (r1 r2 : Raw.t) : Prop := key_leb r1 r2 = true.

Fixpoint insert_sorted (r : Raw.t) (l : list Raw.t) : list Raw.t :=
  match l with
  | [] => [r]
  | x :: rest => if key_leb r x then r :: l else x :: insert_sorted r rest
  end.

(** [data.sort_values(by=['id', 'application_date', 'contracts'])]: a
    stable ascending sort. *)
Fixpoint sort_values (data : list Raw.t) : list Raw.t :=
  match data with
  | [] => []
  | r :: rest => insert_sorted r (sort_values rest)
  end.

(** Equality of two cells of the contracts column for [drop_duplicates]:
    equal text, or both missing. *)
Definition same_contracts (r1 r2 : Raw.t) : bool :=
  match Raw.contracts r1, Raw.contracts r2 with
  | Some x, Some y => String.eqb x y
  | None, None => true
  | _, _ => false
  end.

(** [.drop_duplicates(subset=['contracts'], keep='last')] *)
Fixpoint drop_duplicates (data : list Raw.t) : list Raw.t :=
  match data with
  | [] => []
  | r :: rest =>
      if existsb (same_contracts r) rest
      then drop_duplicates rest
      else r :: drop_duplicates rest
  end.

(** The dict appended to [rows] for one contract; [contract.get] exists
    on a dict only. *)
Definition contract_row (id_value : Z) (application_date : option string)
    (contract : json) : result Frame.row :=
  match contract with
  | JObject d =>
      Ok {| Frame.id := id_value;
            Frame.application_date := DObj application_date;
            Frame.contract_id := dict_get "contract_id" d;
            Frame.bank := dict_get "bank" d;
            Frame.summa := NObj (dict_get "summa" d);
            Frame.loan_summa := NObj (dict_get "loan_summa" d);
            Frame.claim_date := DObj (dict_get "claim_date" d);
            Frame.claim_id := dict_get "claim_id" d;
            Frame.contract_date := DObj (dict_get "contract_date" d) |}
  | _ => Raise AttributeError
  end.

(** What [for contract in contracts] iterates over, after a dict has been
    wrapped in a list: the items of a list, the characters of a string;
    None, a bool and a number are not iterable. *)
Definition contracts_items (contracts : json) : result (list json) :=
  match contracts with
  | JObject d => Ok [JObject d]
  | JArray items => Ok items
  | JString s =>
      Ok (map (fun c => JString (String c EmptyString)) (list_ascii_of_string s))
  | JNull | JBool _ | JNumber _ => Raise TypeError
  end.

Section Pipeline.

Context {lib : PyLib}.

(** The body of the loop of parse_contracts for one record: the rows it
    appends, or the exception that leaves the function. *)
Definition record_rows (row : Raw.t) : result (list Frame.row) :=
  let id_value := Raw.id row in
  let application_date := Raw.application_date row in
  match Raw.contracts row with
  | None => Ok []
  | Some contracts_str =>
      if String.eqb contracts_str "" then Ok []
      else
        match json_loads contracts_str with
        | None => Ok []
        | Some contracts =>
            items <- contracts_items contracts ;;
            mapM (contract_row id_value application_date) items
        end
  end.

Definition parse_contracts (data : list Raw.t) : result (list Frame.row) :=
  let data := drop_duplicates (sort_values data) in
  concat_mapM record_rows data.

End Pipeline.

(** ** Type Coercer: convert_data_types *)

(** The code points for which Python's [str.isspace] holds; [str.split()]
    splits at these characters. *)
Definition whitespace : list Z :=
  [9; 10; 11; 12; 13; 28; 29; 30; 31; 32; 133; 160; 5760;
   8192; 8193; 8194; 8195; 8196; 8197; 8198; 8199; 8200; 8201; 8202;
   8232; 8233; 8239; 8287; 12288].

Definition byte (n : Z) : ascii := ascii_of_N (Z.to_N n).

(** The UTF-8 encoding of a code point. *)
Definition utf8 (cp : Z) : string :=
  if cp <? 128 then String (byte cp) EmptyString
  else if cp <? 2048 then
    String (byte (192 + cp / 64)) (String (byte (128 + cp mod 64)) EmptyString)
  else if cp <? 65536 then
    String (byte (224 + cp / 4096))
      (String (byte (128 + (cp / 64) mod 64))
         (String (byte (128 + cp mod 64)) EmptyString))
  else
    String (byte (240 + cp / 262144))
      (String (byte (128 + (cp / 4096) mod 64))
         (String (byte (128 + (cp / 64) mod 64))
            (String (byte (128 + cp mod 64)) EmptyString))).

(** [s.startswith(p)] *)
Fixpoint starts_with (p s : string) : bool :=
  match p, s with
  | EmptyString, _ => true
  | String a p', String b s' => Ascii.eqb a b && starts_with p' s'
  | String _ _, EmptyString => false
  end.

(** The number of bytes of the whitespace character the string begins
    with; 0 when it begins with none. *)
Definition space_width (s : string) : nat :=
  match find (fun cp => starts_with (utf8 cp) s) whitespace with
  | Some cp => String.length (utf8 cp)
  | None => O
  end.

(** The string without its leading whitespace; [inside] counts the
    bytes still to skip of the whitespace character being read. *)
Fixpoint skip_spaces_from (inside : nat) (s : string) : string :=
  match s with
  | EmptyString => EmptyString
  | String c rest =>
      match inside with
      | S k => skip_spaces_from k rest
      | O =>
          match space_width s with
          | O => s
          | S k => skip_spaces_from k rest
          end
      end
  end.

Definition skip_spaces (s : string) : string := skip_spaces_from 0 s.

(** The bytes up to the next whitespace character. *)
Fixpoint take_token (s : string) : string :=
  match s with
  | EmptyString => EmptyString
  | String c rest =>
      match space_width s with
      | O => String c (take_token rest)
      | S _ => EmptyString
      end
  end.

(** [s.split()[0]] as [.str.split().str[0]] computes it: the first
    whitespace-delimited token, NaN when there is none. *)
Definition first_token (s : string) : option string :=
  match skip_spaces s with
  | EmptyString => None
  | t => Some (take_token t)
  end.

Definition is_datetime (c : date_cell) : bool :=
  match c with
  | DTime _ => true
  | DObj _ => false
  end.

Definition is_missing_obj (c : date_cell) : bool :=
  match c with
  | DObj None => true
  | _ => false
  end.

(** The [.str] accessor of the application_date column, whose missing
    values are NaN: it exists on an object column that holds a string; a
    datetime64 column has none, and neither has a column that holds
    nothing but NaN (pandas gives it the dtype float64). *)
Definition str_accessor (col : list date_cell) : result unit :=
  if forallb is_datetime col then Raise AttributeError
  else if forallb is_missing_obj col then Raise AttributeError
  else Ok tt.

(** One element of [col.str.split().str[0]]. *)
Definition str_split_first (c : date_cell) : option string :=
  match c with
  | DObj (Some s) => first_token s
  | _ => None
  end.

Definition set_application_date (r : Frame.row) (c : date_cell) : Frame.row :=
  {| Frame.id := Frame.id r;
     Frame.application_date := c;
     Frame.contract_id := Frame.contract_id r;
     Frame.bank := Frame.bank r;
     Frame.summa := Frame.summa r;
     Frame.loan_summa := Frame.loan_summa r;
     Frame.claim_date := Frame.claim_date r;
     Frame.claim_id := Frame.claim_id r;
     Frame.contract_date := Frame.contract_date r |}.

Definition set_claim_date (r : Frame.row) (c : date_cell) : Frame.row :=
  {| Frame.id := Frame.id r;
     Frame.application_date := Frame.application_date r;
     Frame.contract_id := Frame.contract_id r;
     Frame.bank := Frame.bank r;
     Frame.summa := Frame.summa r;
     Frame.loan_summa := Frame.loan_summa r;
     Frame.claim_date := c;
     Frame.claim_id := Frame.claim_id r;
     Frame.contract_date := Frame.contract_date r |}.

Definition set_contract_date (r : Frame.row) (c : date_cell) : Frame.row :=
  {| Frame.id := Frame.id r;
     Frame.application_date := Frame.application_date r;
     Frame.contract_id := Frame.contract_id r;
     Frame.bank := Frame.bank r;
     Frame.summa := Frame.summa r;
     Frame.loan_summa := Frame.loan_summa r;
     Frame.claim_date := Frame.claim_date r;
     Frame.claim_id := Frame.claim_id r;
     Frame.contract_date := c |}.

Definition set_summa (r : Frame.row) (c : num_cell) : Frame.row :=
  {| Frame.id := Frame.id r;
     Frame.application_date := Frame.application_date r;
     Frame.contract_id := Frame.contract_id r;
     Frame.bank := Frame.bank r;
     Frame.summa := c;
     Frame.loan_summa := Frame.loan_summa r;
     Frame.claim_date := Frame.claim_date r;
     Frame.claim_id := Frame.claim_id r;
     Frame.contract_date := Frame.contract_date r |}.

Definition set_loan_summa (r : Frame.row) (c : num_cell) : Frame.row :=
  {| Frame.id := Frame.id r;
     Frame.application_date := Frame.application_date r;
     Frame.contract_id := Frame.contract_id r;
     Frame.bank := Frame.bank r;
     Frame.summa := Frame.summa r;
     Frame.loan_summa := c;
     Frame.claim_date := Frame.claim_date r;
     Frame.claim_id := Frame.claim_id r;
     Frame.contract_date := Frame.contract_date r |}.

Section Coercer.

Context {lib : PyLib}.

(** One element of [pd.to_datetime(tokens, errors='coerce')]. *)
Definition to_datetime (tokens : list (option string)) (tok : option string)
  : date_cell :=
  match tok with
  | Some s => DTime (to_datetime_infer tokens s)
  | None => DTime None
  end.

(** One element of [pd.to_datetime(col, format='%d.%m.%Y',
    errors='coerce')]; a datetime64 column is returned as it is. *)
Definition to_datetime_dmy (c : date_cell) : date_cell :=
  match c with
  | DTime t => DTime t
  | DObj None => DTime None
  | DObj (Some s) => DTime (strptime_dmy s)
  end.

Definition to_numeric_value (c : num_cell) : num :=
  match c with
  | NVal n => n
  | NObj None => VFloat nan
  | NObj (Some s) => to_numeric_str s
  end.

(** One element of [pd.to_numeric(col, errors='coerce')]; the column
    comes back in the dtype of [integer_dtype]. *)
Definition to_numeric (col : list num_cell) (c : num_cell) : num_cell :=
  NVal (to_numeric_cast (map to_numeric_value col) (to_numeric_value c)).

(** A DataFrame built from no row has no column, so [df['id']] (or
    [df['claim_date']]) is a KeyError. [astype('Int64')] changes nothing
    on an integer id. *)
Definition convert_data_types (df : list Frame.row) (by_explode : bool)
  : result (list Frame.row) :=
  match df with
  | [] => Raise KeyError
  | _ =>
      df <- (if negb by_explode then
               _ <- str_accessor (map Frame.application_date df) ;;
               let tokens :=
                 map (fun r => str_split_first (Frame.application_date r)) df in
               Ok (map (fun r =>
                          set_application_date r
                            (to_datetime tokens
                               (str_split_first (Frame.application_date r)))) df)
             else Ok df) ;;
      let df :=
        map (fun r => set_claim_date r (to_datetime_dmy (Frame.claim_date r))) df in
      let df :=
        map (fun r => set_contract_date r (to_datetime_dmy (Frame.contract_date r))) df in
      let summa := map Frame.summa df in
      let df := map (fun r => set_summa r (to_numeric summa (Frame.summa r))) df in
      let loan_summa := map Frame.loan_summa df in
      let df :=
        map (fun r => set_loan_summa r (to_numeric loan_summa (Frame.loan_summa r))) df in
      Ok df
  end.

End Coercer.

(** The table as the feature functions read it: every date column is
    datetime64 and every amount column numeric. *)
Definition typed_row (r : Frame.row) : option Row.t :=
  match Frame.application_date r, Frame.summa r, Frame.loan_summa r,
        Frame.claim_date r, Frame.contract_date r with
  | DTime a, NVal s, NVal l, DTime c, DTime k =>
      Some {| Row.id := Frame.id r;
              Row.application_date := a;
              Row.contract_id := Frame.contract_id r;
              Row.bank := Frame.bank r;
              Row.summa := s;
              Row.loan_summa := l;
              Row.claim_date := c;
              Row.claim_id := Frame.claim_id r;
              Row.contract_date := k |}
  | _, _, _, _, _ => None
  end.

Fixpoint typed (df : list Frame.row) : option (list Row.t) :=
  match df with
  | [] => Some []
  | r :: rest =>
      match typed_row r, typed rest with
      | Some r', Some rest' => Some (r' :: rest')
      | _, _ => None
      end
  end.

(** ** Feature Aggregators *)

(** [a >= b] and [a <= b] on Timestamps; a comparison with NaT is False. *)
Definition ts_geb (a b : option Z) : bool :=
  match a, b with
  | Some x, Some y => y <=? x
  | _, _ => false
  end.

Definition ts_leb (a b : option Z) : bool :=
  match a, b with
  | Some x, Some y => x <=? y
  | _, _ => false
  end.

(** [col.iloc[0]] *)
Definition iloc0 {A : Type} (col : list A) : result A :=
  match col with
  | [] => Raise IndexError
  | x :: _ => Ok x
  end.

(** [len(df)] *)
Definition len {A : Type} (df : list A) : Z := Z.of_nat (List.length df).

Definition claims_in_last_180_days (sub_df : list Row.t) : result num :=
  app_date <- iloc0 (map Row.application_date sub_df) ;;
  last_180_days <- ts_sub_timedelta app_date (timedelta_days 180) ;;
  let valid_claims :=
    filter (fun r => ts_geb (Row.claim_date r) last_180_days
                     && ts_leb (Row.claim_date r) app_date) sub_df in
  Ok (if 0 <? len valid_claims then VInt (len valid_claims) else VInt (-3)).

Definition excluded_banks : list (option string) :=
  [Some "LIZ"; Some "LOM"; Some "MKO"; Some "SUG"; None]%string.

Definition bank_eqb (a b : option string) : bool :=
  match a, b with
  | Some x, Some y => String.eqb x y
  | None, None => true
  | _, _ => false
  end.

(** [.isin(values)] on one element. *)
Definition isin (b : option string) (values : list (option string)) : bool :=
  existsb (bank_eqb b) values.

(** [.notna()] on one element. *)
Definition notna {A : Type} (c : option A) : bool :=
  match c with
  | Some _ => true
  | None => false
  end.

Definition sum_loans_wo_tbc (sub_df : list Row.t) : num :=
  let valid_loans :=
    filter (fun r => notna (Row.bank r)
                     && negb (isin (Row.bank r) excluded_banks)
                     && notna (Row.contract_date r)) sub_df in
  let total_sum := series_sum (map Row.loan_summa valid_loans) in
  if len valid_loans =? 0 then VInt (-1)
  else if num_gt0 total_sum then total_sum else VInt (-3).

Definition days_since_last_loan (sub_df : list Row.t) : result num :=
  let valid_loans :=
    filter (fun r => num_notna (Row.summa r) && num_gt0 (Row.summa r)) sub_df in
  match valid_loans with
  | [] => Ok (VInt (-1))
  | _ =>
      let last_loan_date := ts_max (map Row.contract_date valid_loans) in
      app_date <- iloc0 (map Row.application_date sub_df) ;;
      td <- ts_sub app_date last_loan_date ;;
      let days_diff := days td in
      Ok (if num_gt0 days_diff then days_diff else VInt (-3))
  end.

(** The group keys of [df.groupby('id')]: the distinct ids, ascending. *)
Fixpoint insert_key (k : Z) (keys : list Z) : list Z :=
  match keys with
  | [] => [k]
  | x :: rest =>
      if k <? x then k :: keys
      else if k =? x then keys
      else x :: insert_key k rest
  end.

Definition group_keys (df : list Row.t) : list Z :=
  fold_right insert_key [] (map Row.id df).

(** The sub-frame of one key, rows in their original order. *)
Definition get_group (df : list Row.t) (k : Z) : list Row.t :=
  filter (fun r => Row.id r =? k) df.

(** [df.groupby('id').apply(f, include_groups=False).reset_index(name=..)]:
    one (id, value) row per group; the values form one column, so they
    share one dtype. On a table without rows there is no group, [apply]
    returns an empty DataFrame instead of a Series, and [reset_index] of
    a DataFrame has no [name] argument: TypeError. *)
Definition groupby_apply (f : list Row.t -> result num) (df : list Row.t)
  : result (list (Z * num)) :=
  match df with
  | [] => Raise TypeError
  | _ :: _ =>
      let keys := group_keys df in
      values <- mapM (fun k => f (get_group df k)) keys ;;
      Ok (combine keys (map (upcast values) values))
  end.

Definition calculate_tot_claim_cnt_l180d (df : list Row.t)
  : result (list (Z * num)) :=
  groupby_apply claims_in_last_180_days df.

Definition calculate_disb_bank_loan_wo_tbc (df : list Row.t)
  : result (list (Z * num)) :=
  groupby_apply (fun sub_df => Ok (sum_loans_wo_tbc sub_df)) df.

Definition calculate_day_sinlastloan (df : list Row.t)
  : result (list (Z * num)) :=
  groupby_apply days_since_last_loan df.

(** ** Assembler *)

Definition pair_eqb (p q : Z * option Z) : bool :=
  (fst p =? fst q) &&
  match snd p, snd q with
  | Some a, Some b => a =? b
  | None, None => true
  | _, _ => false
  end.

(** [data[['id', 'application_date']].drop_duplicates()]: the first
    occurrence of every pair, in order. *)
Fixpoint drop_duplicate_pairs (seen : list (Z * option Z))
    (l : list (Z * option Z)) : list (Z * option Z) :=
  match l with
  | [] => []
  | p :: rest =>
      if existsb (pair_eqb p) seen then drop_duplicate_pairs seen rest
      else p :: drop_duplicate_pairs (p :: seen) rest
  end.

(** [left.merge(right, on='id')]: the inner join, in the order of the
    left keys. *)
Definition merge {A B : Type} (left : list (Z * A)) (right : list (Z * B))
  : list (Z * (A * B)) :=
  flat_map (fun l =>
              map (fun r => (fst l, (snd l, snd r)))
                  (filter (fun r => fst r =? fst l) right)) left.

Module Features.
(** A row of features_df, columns in [columns_order]. *)
Record t : Type := mk {
  id : Z;
  application_date : option Z;
  tot_claim_cnt_l180d : num;
  disb_bank_loan_wo_tbc : num;
  day_sinlastloan : num
}.
End Features.

Definition features_df (data : list Row.t) : result (list Features.t) :=
  let application_dates :=
    drop_duplicate_pairs []
      (map (fun r => (Row.id r, Row.application_date r)) data) in
  tot_claim_cnt_l180d <- calculate_tot_claim_cnt_l180d data ;;
  disb_bank_loan_wo_tbc <- calculate_disb_bank_loan_wo_tbc data ;;
  day_sinlastloan <- calculate_day_sinlastloan data ;;
  Ok (map (fun x =>
             match x with
             | (i, (((tot, disb), day), app)) =>
                 {| Features.id := i;
                    Features.application_date := app;
                    Features.tot_claim_cnt_l180d := tot;
                    Features.disb_bank_loan_wo_tbc := disb;
                    Features.day_sinlastloan := day |}
             end)
          (merge (merge (merge tot_claim_cnt_l180d disb_bank_loan_wo_tbc)
                        day_sinlastloan)
                 application_dates)).

Section Run.

Context {lib : PyLib}.

(** The notebook from [pd.read_csv] to features_df. The feature functions
    compare and subtract Timestamps and add numbers, so they need the
    typed columns that convert_data_types leaves ([typed_after_convert]
    shows the TypeError branch is never taken). *)
Definition pipeline (data : list Raw.t) : result (list Features.t) :=
  data <- parse_contracts data ;;
  data <- convert_data_types data false ;;
  match typed data with
  | Some data => features_df data
  | None => Raise TypeError
  end.

End Run.

(** ** An instance of the library calls, for running the scenarios

    It reads the texts the scenarios are made of: dates written
    day.month.year or year-month-day (NaT outside the Timestamp range),
    unsigned decimal integers, and the contracts payloads listed in
    [payloads]. *)

Module Scenario.

Definition digit (c : ascii) : option Z :=
  let n := nat_of_ascii c in
  if ((48 <=? n) && (n <=? 57))%nat then Some (Z.of_nat n - 48) else None.

Fixpoint digits (acc : Z) (s : string) : option Z :=
  match s with
  | EmptyString => Some acc
  | String c rest =>
      match digit c with
      | Some d => digits (10 * acc + d) rest
      | None => None
      end
  end.

Definition decimal (s : string) : option Z :=
  match s with
  | EmptyString => None
  | _ => digits 0 s
  end.

Definition days_in_month (y m : Z) : Z :=
  if m =? 2 then
    if ((y mod 4 =? 0) && negb (y mod 100 =? 0) || (y mod 400 =? 0))%bool
    then 29 else 28
  else if ((m =? 4) || (m =? 6) || (m =? 9) || (m =? 11))%bool then 30
  else 31.

Definition date (y m d : option Z) : option Z :=
  match y, m, d with
  | Some y, Some m, Some d =>
      if ((1 <=? m) && (m <=? 12) && (1 <=? d) && (d <=? days_in_month y m)
          && (int64_min <? Timestamp y m d) && (Timestamp y m d <=? int64_max))%bool
      then Some (Timestamp y m d) else None
  | _, _, _ => None
  end.

Local Open Scope string_scope.

Definition quote : string := String (ascii_of_nat 34) EmptyString.

(** A JSON string literal without escapes. *)
Definition q (s : string) : string := quote ++ s ++ quote.

Fixpoint split_on (sep : ascii) (cur : string) (s : string) : list string :=
  match s with
  | EmptyString => [cur]
  | String c rest =>
      if Ascii.eqb c sep then cur :: split_on sep EmptyString rest
      else split_on sep (cur ++ String c EmptyString) rest
  end.

Definition parse_dmy (s : string) : option Z :=
  match split_on "." EmptyString s with
  | [d; m; y] => date (decimal y) (decimal m) (decimal d)
  | _ => None
  end.

Definition parse_ymd (s : string) : option Z :=
  match split_on "-" EmptyString s with
  | [y; m; d] => date (decimal y) (decimal m) (decimal d)
  | _ => None
  end.

Definition parse_number (s : string) : num :=
  match decimal s with
  | Some z => VInt z
  | None => VFloat nan
  end.

(** Scenario A: one contract of bank ALPHA, without a summa member. *)
Definition payload_A : string :=
  "[{" ++ q "bank" ++ ":" ++ q "ALPHA" ++ ","
       ++ q "loan_summa" ++ ":" ++ q "1000" ++ ","
       ++ q "contract_date" ++ ":" ++ q "01.01.2024" ++ ","
       ++ q "claim_date" ++ ":" ++ q "01.01.2024" ++ "}]".

Definition contracts_A : json :=
  JArray [JObject [("bank", Some "ALPHA"); ("loan_summa", Some "1000");
                   ("contract_date", Some "01.01.2024");
                   ("claim_date", Some "01.01.2024")]].

(** Scenario B: one contract of the excluded bank MKO. *)
Definition payload_B : string :=
  "[{" ++ q "bank" ++ ":" ++ q "MKO" ++ ","
       ++ q "loan_summa" ++ ":" ++ q "500" ++ ","
       ++ q "contract_date" ++ ":" ++ q "01.01.2024" ++ "}]".

Definition contracts_B : json :=
  JArray [JObject [("bank", Some "MKO"); ("loan_summa", Some "500");
                   ("contract_date", Some "01.01.2024")]].

(** Scenario E: one contract with a summa and a contract date. *)
Definition payload_E : string :=
  "[{" ++ q "summa" ++ ":" ++ q "750" ++ ","
       ++ q "contract_date" ++ ":" ++ q "01.01.2024" ++ "}]".

Definition contracts_E : json :=
  JArray [JObject [("summa", Some "750"); ("contract_date", Some "01.01.2024")]].

(** One contract with a summa, dated 1 January 1700. *)
Definition payload_old : string :=
  "[{" ++ q "summa" ++ ":" ++ q "750" ++ ","
       ++ q "contract_date" ++ ":" ++ q "01.01.1700" ++ "}]".

Definition contracts_old : json :=
  JArray [JObject [("summa", Some "750"); ("contract_date", Some "01.01.1700")]].

(** The payloads json_loads decodes; the last three are JSON but not a
    list of objects. Any other text is a JSONDecodeError. *)
Definition payloads : list (string * json) :=
  [ (payload_A, contracts_A);
    (payload_B, contracts_B);
    (payload_E, contracts_E);
    (payload_old, contracts_old);
    ("5", JNumber 5);
    ("[1]", JArray [JNumber 1]);
    (q "abc", JString "abc") ].

Fixpoint lookup (s : string) (table : list (string * json)) : option json :=
  match table with
  | [] => None
  | (k, v) :: rest => if String.eqb k s then Some v else lookup s rest
  end.

Definition lib : PyLib :=
  {| json_loads := fun s => lookup s payloads;
     to_numeric_str := parse_number;
     strptime_dmy := parse_dmy;
     to_datetime_infer := fun _ s => parse_ymd s |}.

Definition record (id : Z) (application_date : string) (contracts : option string)
  : Raw.t :=
  {| Raw.id := id;
     Raw.application_date := Some application_date;
     Raw.contracts := contracts |}.

End Scenario.

(** ** The specification's vocabulary *)

(** claim_date lies in the inclusive window [A - 180 days, A]. *)
Definition in_window (A : option Z) (r : Row.t) : bool :=
  match A, Row.claim_date r with
  | Some a, Some c => (a - 180 * ns_per_day <=? c) && (c <=? a)
  | _, _ => false
  end.

(** The start of the window, A - 180 days, lies in the Timestamp range
    (or there is no application date). *)
Definition window_representable (A : option Z) : bool :=
  match A with
  | Some a =>
      (int64_min <? a - 180 * ns_per_day) && (a - 180 * ns_per_day <=? int64_max)
  | None => true
  end.

(** The number of contract rows whose claim_date lies in the window. *)
Fixpoint window_count (A : option Z) (rows : list Row.t) : Z :=
  match rows with
  | [] => 0
  | r :: rest => (if in_window A r then 1 else 0) + window_count A rest
  end.

(** The value of tot_claim_cnt_l180d for the group of key [k]: the count
    when it is at least 1, else -3. *)
Definition tot_claim_value (df : list Row.t) (k : Z) : Z :=
  match get_group df k with
  | [] => -3
  | first :: _ =>
      let n := window_count (Row.application_date first) (get_group df k) in
      if 1 <=? n then n else -3
  end.

(** bank is present and not in {LIZ, LOM, MKO, SUG}, and contract_date is
    present. *)
Definition eligible_loan (r : Row.t) : bool :=
  match Row.bank r, Row.contract_date r with
  | Some b, Some _ =>
      negb (existsb (String.eqb b) ["LIZ"; "LOM"; "MKO"; "SUG"]%string)
  | _, _ => false
  end.

(** summa is present and strictly positive. *)
Definition positive_summa (r : Row.t) : bool :=
  match Row.summa r with
  | VInt z => 0 <? z
  | VFloat f => SFltb fzero f
  end.

(** [m] is the maximum contract_date of [rows]. *)
Definition last_loan_date (rows : list Row.t) (m : Z) : Prop :=
  (exists r, In r rows /\ Row.contract_date r = Some m) /\
  (forall r d, In r rows -> Row.contract_date r = Some d -> d <= m).

(** The contracts text is null, empty, or not JSON. *)
Definition unparseable {lib : PyLib} (r : Raw.t) : bool :=
  match Raw.contracts r with
  | None => true
  | Some s =>
      if String.eqb s "" then true
      else match json_loads s with
           | None => true
           | Some _ => false
           end
  end.

(** The decoded value is a JSON object. *)
Definition is_object (j : json) : bool :=
  match j with
  | JObject _ => true
  | _ => false
  end.

(** [r] is the last of the records of [sorted] that share its contracts
    text. *)
Definition last_with_contracts (sorted : list Raw.t) (r : Raw.t) : Prop :=
  exists before after,
    sorted = before ++ r :: after /\
    forall r', In r' after -> same_contracts r r' = false.

(** The two halves of convert_data_types, row by row: the retyping of
    application_date, done when [by_explode] is False, and the retyping
    of the other date and amount columns, done always
    ([convert_data_types_eq]). *)
Definition coerce_application_date {lib : PyLib} (df : list Frame.row)
  : list Frame.row :=
  let tokens := map (fun r => str_split_first (Frame.application_date r)) df in
  map (fun r =>
         set_application_date r
           (to_datetime tokens (str_split_first (Frame.application_date r)))) df.

Definition coerce_columns {lib : PyLib} (df : list Frame.row) : list Frame.row :=
  let summa := map Frame.summa df in
  let loan_summa := map Frame.loan_summa df in
  map (fun r =>
         {| Frame.id := Frame.id r;
            Frame.application_date := Frame.application_date r;
            Frame.contract_id := Frame.contract_id r;
            Frame.bank := Frame.bank r;
            Frame.summa := to_numeric summa (Frame.summa r);
            Frame.loan_summa := to_numeric loan_summa (Frame.loan_summa r);
            Frame.claim_date := to_datetime_dmy (Frame.claim_date r);
            Frame.claim_id := Frame.claim_id r;
            Frame.contract_date := to_datetime_dmy (Frame.contract_date r) |}) df.

(** ** Vocabulary of the further properties *)

(** The first line of parse_contracts: the sorted table without its
    duplicates. *)
Definition sorted_unique (data : list Raw.t) : list Raw.t :=
  drop_duplicates (sort_values data).

(** The row parse_contracts appends for the contract object of members
    [d] found in the record [r]. *)
Definition row_of (r : Raw.t) (d : list (string * option string)) : Frame.row :=
  {| Frame.id := Raw.id r;
     Frame.application_date := DObj (Raw.application_date r);
     Frame.contract_id := dict_get "contract_id" d;
     Frame.bank := dict_get "bank" d;
     Frame.summa := NObj (dict_get "summa" d);
     Frame.loan_summa := NObj (dict_get "loan_summa" d);
     Frame.claim_date := DObj (dict_get "claim_date" d);
     Frame.claim_id := dict_get "claim_id" d;
     Frame.contract_date := DObj (dict_get "contract_date" d) |}.

(** The string holds no whitespace character: none begins at any of its
    bytes. *)
Fixpoint no_space (s : string) : bool :=
  match s with
  | EmptyString => true
  | String c rest => (space_width s =? 0)%nat && no_space rest
  end.

(** The first byte of a string and the bytes after it. *)
Definition lead_byte (s : string) : option ascii :=
  match s with
  | String c _ => Some c
  | EmptyString => None
  end.

Definition inner_bytes (s : string) : list ascii :=
  match s with
  | String _ rest => list_ascii_of_string rest
  | EmptyString => []
  end.

(** The contracts text is present, not empty, and not JSON. *)
Definition not_json {lib : PyLib} (contracts : option string) : bool :=
  match contracts with
  | None => false
  | Some s =>
      if String.eqb s "" then false
      else match json_loads s with
           | None => true
           | Some _ => false
           end
  end.

(** The contracts cell is one parse_contracts gets through: null, empty,
    not JSON, or JSON that is an object, a list of objects or the empty
    string. *)
Definition well_shaped {lib : PyLib} (contracts : option string) : bool :=
  match contracts with
  | None => true
  | Some s =>
      if String.eqb s "" then true
      else match json_loads s with
           | None => true
           | Some (JObject _) => true
           | Some (JArray items) => forallb is_object items
           | Some (JString t) => String.eqb t ""
           | Some _ => false
           end
  end.

(** [application_dates] of the last cell: the distinct (id,
    application_date) pairs of the table. *)
Definition application_dates (data : list Row.t) : list (Z * option Z) :=
  drop_duplicate_pairs []
    (map (fun r => (Row.id r, Row.application_date r)) data).

(** The values of the three feature columns at the group key [k]. *)
Definition disb_value (data : list Row.t) (k : Z) : num :=
  upcast (map (fun k' => sum_loans_wo_tbc (get_group data k')) (group_keys data))
         (sum_loans_wo_tbc (get_group data k)).

(** The value [f] returns on the group of key [k], and that value in the
    dtype of the column of all groups. *)
Definition value_of (f : list Row.t -> result num) (data : list Row.t) (k : Z)
  : num :=
  match f (get_group data k) with
  | Ok v => v
  | Raise _ => VInt 0
  end.

Definition column_value (f : list Row.t -> result num) (data : list Row.t)
    (k : Z) : num :=
  upcast (map (value_of f data) (group_keys data)) (value_of f data k).

(** The rows of features_df: for every group key, ascending, one row per
    application date the key occurs with. *)
Definition feature_rows (data : list Row.t) : list Features.t :=
  flat_map (fun k =>
              map (fun p =>
                     {| Features.id := k;
                        Features.application_date := snd p;
                        Features.tot_claim_cnt_l180d :=
                          column_value claims_in_last_180_days data k;
                        Features.disb_bank_loan_wo_tbc := disb_value data k;
                        Features.day_sinlastloan :=
                          column_value days_since_last_loan data k |})
                  (filter (fun p => fst p =? k) (application_dates data)))
           (group_keys data).

(** Some row holds an application date. *)
Definition has_application_date (df : list Frame.row) : bool :=
  existsb (fun r => negb (is_missing_obj (Frame.application_date r))) df.

(** ** The second normalization path: parse_contracts_by_explode, up to
       the line that decodes the contracts *)

Inductive explode_exn : Set :=
| PyError (e : exn)
| JSONDecodeError.

Inductive outcome (A : Type) : Type :=
| Done (a : A)
| Failed (e : explode_exn).

Arguments Done {A} a.
Arguments Failed {A} e.

Module Dated.
(** A row of [data] once application_date has been parsed. *)
Record t : Type := mk {
  id : Z;
  application_date : option Z;
  contracts : option string
}.
End Dated.

(** Order of a datetime column under [sort_values]: NaT last. *)
Definition ts_compare (a b : option Z) : comparison :=
  match a, b with
  | Some x, Some y => Z.compare x y
  | Some _, None => Lt
  | None, Some _ => Gt
  | None, None => Eq
  end.

Definition dated_compare (r1 r2 : Dated.t) : comparison :=
  match Z.compare (Dated.id r1) (Dated.id r2) with
  | Eq =>
      match ts_compare (Dated.application_date r1) (Dated.application_date r2) with
      | Eq => cell_compare (Dated.contracts r1) (Dated.contracts r2)
      | c => c
      end
  | c => c
  end.

Definition dated_leb (r1 r2 : Dated.t) : bool :=
  match dated_compare r1 r2 with
  | Gt => false
  | _ => true
  end.

Fixpoint dated_insert (r : Dated.t) (l : list Dated.t) : list Dated.t :=
  match l with
  | [] => [r]
  | x :: rest => if dated_leb r x then r :: l else x :: dated_insert r rest
  end.

Fixpoint dated_sort_values (data : list Dated.t) : list Dated.t :=
  match data with
  | [] => []
  | r :: rest => dated_insert r (dated_sort_values rest)
  end.

Definition dated_same_contracts (r1 r2 : Dated.t) : bool :=
  match Dated.contracts r1, Dated.contracts r2 with
  | Some x, Some y => String.eqb x y
  | None, None => true
  | _, _ => false
  end.

Fixpoint dated_drop_duplicates (data : list Dated.t) : list Dated.t :=
  match data with
  | [] => []
  | r :: rest =>
      if existsb (dated_same_contracts r) rest
      then dated_drop_duplicates rest
      else r :: dated_drop_duplicates rest
  end.

Section ByExplode.

Context {lib : PyLib}.

(** The value [pd.to_datetime(col, errors='coerce', utc=True)] gives a
    string element of the column [col]. *)
Variable to_datetime_utc : list (option string) -> string -> option Z.

(** [json.loads(x) if pd.notnull(x) and x != '' else []] *)
Definition loads_or_empty (x : option string) : outcome json :=
  match x with
  | None => Done (JArray [])
  | Some s =>
      if String.eqb s "" then Done (JArray [])
      else match json_loads s with
           | Some j => Done j
           | None => Failed JSONDecodeError
           end
  end.

(** [data['contracts'].apply(...)], element after element. *)
Fixpoint apply_loads (data : list Dated.t) : outcome (list (Dated.t * json)) :=
  match data with
  | [] => Done []
  | r :: rest =>
      match loads_or_empty (Dated.contracts r) with
      | Failed e => Failed e
      | Done j =>
          match apply_loads rest with
          | Failed e => Failed e
          | Done out => Done ((r, j) :: out)
          end
      end
  end.

(** parse_contracts_by_explode from its first line to the line that
    decodes the contracts column: the table that [explode] receives, or
    the exception that leaves the function before. A table read from a
    file without rows has object columns, on which [.str] exists. *)
Definition parse_contracts_by_explode_loads (data : list Raw.t)
  : outcome (list (Dated.t * json)) :=
  match data with
  | [] => Done []
  | _ =>
      match str_accessor (map (fun r => DObj (Raw.application_date r)) data) with
      | Raise e => Failed (PyError e)
      | Ok _ =>
          let tokens :=
            map (fun r => match Raw.application_date r with
                          | Some s => first_token s
                          | None => None
                          end) data in
          let data :=
            map (fun r =>
                   Dated.mk (Raw.id r)
                     (match Raw.application_date r with
                      | Some s =>
                          match first_token s with
                          | Some tok => to_datetime_utc tokens tok
                          | None => None
                          end
                      | None => None
                      end)
                     (Raw.contracts r)) data in
          let data := dated_drop_duplicates (dated_sort_values data) in
          apply_loads data
      end
  end.

End ByExplode.

(** ** Lemmas on the result monad and on grouping *)

Lemma mapM_ok {A B : Type} (f : A -> result B) (g : A -> B) (l : list A) :
  (forall x, In x l -> f x = Ok (g x)) -> mapM f l = Ok (map g l).
Proof.
  induction l as [|x l IH]; intros Hf; simpl.
  - reflexivity.
  - rewrite (Hf x (or_introl eq_refl)). simpl.
    rewrite IH by (intros y Hy; apply Hf; right; exact Hy).
    reflexivity.
Qed.

Lemma combine_map_self {A B : Type} (h : A -> B) (l : list A) :
  combine l (map h l) = map (fun x => (x, h x)) l.
Proof.
  induction l as [|x l IH]; simpl; [reflexivity|]. now rewrite IH.
Qed.

Lemma insert_key_In (k x : Z) (keys : list Z) :
  In x (insert_key k keys) <-> x = k \/ In x keys.
Proof.
  induction keys as [|y keys IH]; simpl.
  - intuition.
  - destruct (k <? y) eqn:Hlt; simpl.
    + intuition.
    + destruct (k =? y) eqn:Heq; simpl.
      * apply Z.eqb_eq in Heq. subst. intuition.
      * rewrite IH. intuition.
Qed.

Lemma group_keys_In (df : list Row.t) (k : Z) :
  In k (group_keys df) <-> exists r, In r df /\ Row.id r = k.
Proof.
  unfold group_keys. induction df as [|r df IH]; simpl.
  - split; [tauto|]. intros [r [[] _]].
  - rewrite insert_key_In, IH. split.
    + intros [->|[r' [Hin Hid]]]; [exists r|exists r']; auto.
    + intros [r' [[<-|Hin] Hid]]; [left|right; exists r']; auto.
Qed.

Lemma get_group_cons (df : list Row.t) (k : Z) :
  In k (group_keys df) ->
  exists first rest, get_group df k = first :: rest.
Proof.
  intros Hk. apply group_keys_In in Hk. destruct Hk as [r [Hin Hid]].
  assert (Hg : In r (get_group df k)).
  { unfold get_group. apply filter_In. split; [exact Hin|].
    now apply Z.eqb_eq. }
  destruct (get_group df k) as [|first rest]; [destruct Hg|eauto].
Qed.

(** When [f] returns on every group of a table that has rows, so does
    [groupby_apply], with one row per key holding the group's value in
    the column's dtype. *)
Lemma groupby_apply_ok (f : list Row.t -> result num) (g : Z -> num)
    (df : list Row.t) :
  df <> [] ->
  (forall k, In k (group_keys df) -> f (get_group df k) = Ok (g k)) ->
  groupby_apply f df =
    Ok (map (fun k => (k, upcast (map g (group_keys df)) (g k))) (group_keys df)).
Proof.
  intros Hne Hf. unfold groupby_apply.
  destruct df as [|r df]; [congruence|]. cbv zeta.
  rewrite (mapM_ok _ g) by exact Hf. cbn [bind].
  rewrite map_map, combine_map_self. reflexivity.
Qed.

Lemma mapM_inv {A B : Type} (f : A -> result B) (d : B) (l : list A)
    (ys : list B) :
  mapM f l = Ok ys ->
  ys = map (fun x => match f x with Ok y => y | Raise _ => d end) l
  /\ forall x, In x l ->
       f x = Ok (match f x with Ok y => y | Raise _ => d end).
Proof.
  revert ys. induction l as [|x l IH]; intros ys; simpl.
  - intros [= <-]. split; [reflexivity|intros x []].
  - destruct (f x) as [y|e] eqn:Hfx; simpl; [|discriminate].
    destruct (mapM f l) as [zs|e]; simpl; [|discriminate].
    intros [= <-]. destruct (IH zs eq_refl) as [-> Hall]. split.
    + reflexivity.
    + intros x' [<-|Hx']; [now rewrite Hfx|now apply Hall].
Qed.

(** What [groupby_apply] returned, read back: the table had rows, [f]
    returned on every group, and the column holds these values. *)
Lemma groupby_apply_inv (f : list Row.t -> result num) (df : list Row.t)
    (out : list (Z * num)) :
  groupby_apply f df = Ok out ->
  df <> []
  /\ (forall k, In k (group_keys df) ->
        f (get_group df k) = Ok (value_of f df k))
  /\ out = map (fun k => (k, column_value f df k)) (group_keys df).
Proof.
  unfold groupby_apply. destruct df as [|r df]; [discriminate|]. cbv zeta.
  destruct (mapM _ (group_keys (r :: df))) as [values|e] eqn:Hm;
    cbn [bind]; [|discriminate].
  intros [= <-]. apply (mapM_inv _ (VInt 0)) in Hm. destruct Hm as [-> Hall].
  split; [discriminate|]. split; [exact Hall|].
  rewrite map_map, combine_map_self. reflexivity.
Qed.

Lemma groupby_apply_nil (f : list Row.t -> result num) :
  groupby_apply f [] = Raise TypeError.
Proof. reflexivity. Qed.

Lemma upcast_ints (col : list num) (n : num) :
  forallb is_int col = true -> upcast col n = n.
Proof. unfold upcast. now intros ->. Qed.

Lemma forallb_is_int_map (A : Type) (g : A -> Z) (l : list A) :
  forallb is_int (map (fun x => VInt (g x)) l) = true.
Proof. induction l; simpl; auto. Qed.

(** ** tot_claim_cnt_l180d *)

Lemma ts_sub_timedelta_ok (a td : Z) :
  int64_min < a - td <= int64_max ->
  ts_sub_timedelta (Some a) td = Ok (Some (a - td)).
Proof.
  intros [Hlo Hhi]. unfold ts_sub_timedelta. cbv zeta.
  replace (a - td <? int64_min) with false by (symmetry; apply Z.ltb_ge; lia).
  replace (int64_max <? a - td) with false by (symmetry; apply Z.ltb_ge; lia).
  replace (a - td =? int64_min) with false by (symmetry; apply Z.eqb_neq; lia).
  reflexivity.
Qed.

Lemma ts_sub_timedelta_underflow (a td : Z) :
  a - td < int64_min -> ts_sub_timedelta (Some a) td = Raise OutOfBoundsDatetime.
Proof.
  intros H. unfold ts_sub_timedelta. cbv zeta.
  replace (a - td <? int64_min) with true by (symmetry; apply Z.ltb_lt; lia).
  reflexivity.
Qed.

Lemma window_start (A : option Z) :
  window_representable A = true ->
  ts_sub_timedelta A (timedelta_days 180)
  = Ok (match A with
        | Some a => Some (a - 180 * ns_per_day)
        | None => None
        end).
Proof.
  destruct A as [a|]; [|reflexivity]. unfold window_representable, timedelta_days.
  intros H. apply andb_true_iff in H. destruct H as [Hlo Hhi].
  apply Z.ltb_lt in Hlo. apply Z.leb_le in Hhi.
  apply ts_sub_timedelta_ok. lia.
Qed.

Lemma window_filter (A : option Z) (r : Row.t) :
  ts_geb (Row.claim_date r)
         (match A with
          | Some a => Some (a - 180 * ns_per_day)
          | None => None
          end)
  && ts_leb (Row.claim_date r) A = in_window A r.
Proof.
  unfold in_window, ts_geb, ts_leb.
  destruct A as [a|], (Row.claim_date r) as [c|]; reflexivity.
Qed.

Lemma len_filter_le {A : Type} (p : A -> bool) (l : list A) :
  0 <= len (filter p l) <= len l.
Proof.
  unfold len. induction l as [|x l IH]; [simpl; lia|].
  cbn [filter]. destruct (p x); cbn [List.length];
    rewrite ?Nat2Z.inj_succ; lia.
Qed.

Lemma len_valid_claims (A : option Z) (rows : list Row.t) :
  len (filter (fun r =>
                 ts_geb (Row.claim_date r)
                        (match A with
                         | Some a => Some (a - 180 * ns_per_day)
                         | None => None
                         end)
                 && ts_leb (Row.claim_date r) A) rows)
  = window_count A rows.
Proof.
  unfold len. induction rows as [|r rows IH]; [reflexivity|].
  cbn [filter window_count]. rewrite window_filter.
  destruct (in_window A r).
  - cbn [List.length]. rewrite Nat2Z.inj_succ, IH. lia.
  - rewrite IH. lia.
Qed.

Lemma window_count_nonneg (A : option Z) (rows : list Row.t) :
  0 <= window_count A rows.
Proof.
  induction rows as [|r rows IH]; simpl; [lia|].
  destruct (in_window A r); lia.
Qed.

Lemma claims_in_last_180_days_eq (first : Row.t) (rest : list Row.t) :
  let n := window_count (Row.application_date first) (first :: rest) in
  window_representable (Row.application_date first) = true ->
  claims_in_last_180_days (first :: rest) = Ok (VInt (if 1 <=? n then n else -3)).
Proof.
  intros n Hw. unfold claims_in_last_180_days.
  cbn [map iloc0 bind]. rewrite (window_start _ Hw). cbn [bind].
  rewrite len_valid_claims. fold n.
  assert (Hn := window_count_nonneg (Row.application_date first) (first :: rest)).
  fold n in Hn.
  destruct (0 <? n) eqn:H0; destruct (1 <=? n) eqn:H1; try reflexivity;
    [apply Z.ltb_lt in H0; apply Z.leb_gt in H1
    |apply Z.ltb_ge in H0; apply Z.leb_le in H1]; lia.
Qed.

Lemma claims_in_last_180_days_underflow (first : Row.t) (rest : list Row.t)
    (a : Z) :
  Row.application_date first = Some a ->
  a - 180 * ns_per_day < int64_min ->
  claims_in_last_180_days (first :: rest) = Raise OutOfBoundsDatetime.
Proof.
  intros Ha Hlow. unfold claims_in_last_180_days. cbn [map iloc0 bind].
  rewrite Ha, ts_sub_timedelta_underflow; [reflexivity|].
  unfold timedelta_days. exact Hlow.
Qed.

(** Whatever claims_in_last_180_days returns is the integer -3 or a
    count between 1 and the number of rows. *)
Lemma claims_in_last_180_days_range (sub_df : list Row.t) (v : num) :
  claims_in_last_180_days sub_df = Ok v ->
  exists z, v = VInt z /\ (z = -3 \/ 1 <= z <= len sub_df).
Proof.
  unfold claims_in_last_180_days.
  destruct (iloc0 (map Row.application_date sub_df)) as [app_date|e];
    cbn [bind]; [|discriminate].
  destruct (ts_sub_timedelta app_date (timedelta_days 180)) as [start|e];
    cbn [bind]; [|discriminate].
  match goal with
  | |- context [filter ?p sub_df] =>
      assert (Hlen := len_filter_le p sub_df);
      destruct (0 <? len (filter p sub_df)) eqn:Hpos
  end; intros [= <-]; eexists; (split; [reflexivity|]).
  - apply Z.ltb_lt in Hpos. right. lia.
  - left. reflexivity.
Qed.

Lemma claims_in_last_180_days_nonzero (sub_df : list Row.t) :
  claims_in_last_180_days sub_df <> Ok (VInt 0).
Proof.
  intros H. destruct (claims_in_last_180_days_range _ _ H) as [z [[= <-] Hz]].
  lia.
Qed.

Lemma tot_claim_value_nonzero (df : list Row.t) (k : Z) :
  tot_claim_value df k <> 0.
Proof.
  unfold tot_claim_value. destruct (get_group df k) as [|first rest]; [lia|].
  cbv zeta.
  destruct (1 <=? window_count (Row.application_date first) (first :: rest)) eqn:H1;
    [apply Z.leb_le in H1|]; lia.
Qed.

Lemma calculate_tot_claim_cnt_l180d_ok (df : list Row.t) :
  df <> [] ->
  (forall k first rest, get_group df k = first :: rest ->
     window_representable (Row.application_date first) = true) ->
  calculate_tot_claim_cnt_l180d df =
    Ok (map (fun k => (k, VInt (tot_claim_value df k))) (group_keys df)).
Proof.
  intros Hne Hw. unfold calculate_tot_claim_cnt_l180d.
  rewrite (groupby_apply_ok _ (fun k => VInt (tot_claim_value df k))).
  - f_equal. apply map_ext. intros k. f_equal.
    apply upcast_ints. apply forallb_is_int_map.
  - exact Hne.
  - intros k Hk. destruct (get_group_cons df k Hk) as [first [rest Hg]].
    unfold tot_claim_value. rewrite Hg.
    apply claims_in_last_180_days_eq. now apply (Hw k first rest).
Qed.

(** C5, as the claim states it, fails: for an application of 1 December
    1677 (a Timestamp: the range starts on 21 September 1677) with one
    claim a month earlier the claim promises the count 1, but the start
    of the window, 180 days earlier, is not a Timestamp and the
    subtraction raises; no value is output for the group, nor for the
    table, nor by the pipeline run on such a record. *)
Lemma tot_claim_cnt_l180d_window_underflow :
  let row :=
    {| Row.id := 1; Row.application_date := Some (Timestamp 1677 12 1);
       Row.contract_id := None; Row.bank := None;
       Row.summa := VFloat nan; Row.loan_summa := VFloat nan;
       Row.claim_date := Some (Timestamp 1677 11 1); Row.claim_id := None;
       Row.contract_date := None |} in
  int64_min < Timestamp 1677 12 1 <= int64_max
  /\ window_count (Row.application_date row) [row] = 1
  /\ claims_in_last_180_days [row] = Raise OutOfBoundsDatetime
  /\ ~ (exists v, claims_in_last_180_days [row] = Ok v)
  /\ calculate_tot_claim_cnt_l180d [row] = Raise OutOfBoundsDatetime
  /\ pipeline (lib := Scenario.lib)
       [Scenario.record 1 "1677-12-01" (Some Scenario.payload_A)]
     = Raise OutOfBoundsDatetime.
Proof.
  intros row. split; [vm_compute; split; [reflexivity|discriminate]|].
  split; [reflexivity|].
  assert (H : claims_in_last_180_days [row] = Raise OutOfBoundsDatetime)
    by (vm_compute; reflexivity).
  split; [exact H|]. split.
  - intros [v Hv]. rewrite H in Hv. discriminate.
  - split; vm_compute; reflexivity.
Qed.

(** C5, amended. For every application group (a non-empty sub-frame,
    whose application date A is that of its first row) for which the
    start of the window, A - 180 days, lies in the Timestamp range, or
    which has no application date, claims_in_last_180_days returns the
    number [n] of rows whose claim_date lies in the inclusive window
    [A - 180 days, A] when [n >= 1] and -3 when [n = 0]. When A - 180
    days falls below the int64 range the subtraction raises
    OutOfBoundsDatetime. The function never returns 0. On a table that
    has rows and whose groups all have a representable window,
    calculate_tot_claim_cnt_l180d returns one such value per group key;
    on a table without rows it raises TypeError. *)
Theorem tot_claim_cnt_l180d_count_or_sentinel :
  (forall (first : Row.t) (rest : list Row.t),
      let A := Row.application_date first in
      let n := window_count A (first :: rest) in
      window_representable A = true ->
      claims_in_last_180_days (first :: rest)
        = Ok (VInt (if 1 <=? n then n else -3))
      /\ 0 <= n)
  /\
  (forall (first : Row.t) (rest : list Row.t) (a : Z),
      Row.application_date first = Some a ->
      a - 180 * ns_per_day < int64_min ->
      claims_in_last_180_days (first :: rest) = Raise OutOfBoundsDatetime)
  /\
  (forall sub_df : list Row.t, claims_in_last_180_days sub_df <> Ok (VInt 0))
  /\
  (forall df : list Row.t,
      df <> [] ->
      (forall k first rest, get_group df k = first :: rest ->
         window_representable (Row.application_date first) = true) ->
      exists out,
        calculate_tot_claim_cnt_l180d df = Ok out
        /\ map fst out = group_keys df
        /\ forall k v, In (k, v) out ->
             v <> VInt 0 /\
             exists first rest,
               get_group df k = first :: rest /\
               let n := window_count (Row.application_date first) (first :: rest) in
               v = VInt (if 1 <=? n then n else -3))
  /\ calculate_tot_claim_cnt_l180d [] = Raise TypeError.
Proof.
  split; [|split; [|split; [|split]]].
  - intros first rest A n Hw. split.
    + now apply claims_in_last_180_days_eq.
    + apply window_count_nonneg.
  - exact claims_in_last_180_days_underflow.
  - exact claims_in_last_180_days_nonzero.
  - intros df Hne Hw. eexists.
    split; [now apply calculate_tot_claim_cnt_l180d_ok|]. split.
    + rewrite map_map. simpl. apply map_id.
    + intros k v Hin. apply in_map_iff in Hin.
      destruct Hin as [k' [[= -> <-] Hk]]. split.
      * intros [= H]. now apply (tot_claim_value_nonzero df k).
      * destruct (get_group_cons df k Hk) as [first [rest Hg]].
        exists first, rest. split; [exact Hg|].
        unfold tot_claim_value. rewrite Hg. reflexivity.
  - reflexivity.
Qed.

(** The amended C5 read on a group applied for on 2024-03-01: the window
    starts on 2023-09-03, both ends included; a group without a claim in
    the window gets -3. *)
Lemma tot_claim_cnt_l180d_count_or_sentinel_witness :
  let claim date :=
    {| Row.id := 1; Row.application_date := Some (Timestamp 2024 3 1);
       Row.contract_id := None; Row.bank := None;
       Row.summa := VFloat nan; Row.loan_summa := VFloat nan;
       Row.claim_date := date; Row.claim_id := None;
       Row.contract_date := None |} in
  claims_in_last_180_days
    [claim (Some (Timestamp 2023 9 3)); claim (Some (Timestamp 2023 9 2));
     claim (Some (Timestamp 2024 3 1)); claim (Some (Timestamp 2024 3 2));
     claim None] = Ok (VInt 2)
  /\ claims_in_last_180_days [claim (Some (Timestamp 2023 9 2)); claim None]
     = Ok (VInt (-3)).
Proof.
  intros claim.
  destruct tot_claim_cnt_l180d_count_or_sentinel as [H _].
  split.
  - destruct (H (claim (Some (Timestamp 2023 9 3)))
                [claim (Some (Timestamp 2023 9 2));
                 claim (Some (Timestamp 2024 3 1));
                 claim (Some (Timestamp 2024 3 2)); claim None] eq_refl)
      as [E _].
    exact E.
  - destruct (H (claim (Some (Timestamp 2023 9 2))) [claim None] eq_refl)
      as [E _].
    exact E.
Defined.

(** ** disb_bank_loan_wo_tbc *)

Lemma valid_loans_filter (r : Row.t) :
  notna (Row.bank r) && negb (isin (Row.bank r) excluded_banks)
  && notna (Row.contract_date r) = eligible_loan r.
Proof.
  unfold eligible_loan, isin, excluded_banks, notna.
  destruct (Row.bank r) as [b|]; [|reflexivity].
  destruct (Row.contract_date r) as [d|]; cbn [existsb bank_eqb andb].
  - rewrite !orb_false_r, andb_true_r. reflexivity.
  - apply andb_false_r.
Qed.

Lemma float_le0_not_gt0 (f : float) :
  SFleb f fzero = true -> SFltb fzero f = false.
Proof. destruct f as [s|s| |s m e]; try destruct s; cbn; congruence. Qed.

Lemma num_le0_not_gt0 (n : num) : num_le0 n = true -> num_gt0 n = false.
Proof.
  destruct n as [z|f]; simpl.
  - intros H. apply Z.leb_le in H. apply Z.ltb_ge. exact H.
  - apply float_le0_not_gt0.
Qed.


Lemma sum_loans_wo_tbc_eq (sub_df : list Row.t) :
  sum_loans_wo_tbc sub_df =
    let survivors := filter eligible_loan sub_df in
    let total := series_sum (map Row.loan_summa survivors) in
    match survivors with
    | [] => VInt (-1)
    | _ :: _ => if num_gt0 total then total else VInt (-3)
    end.
Proof.
  unfold sum_loans_wo_tbc.
  rewrite (filter_ext _ eligible_loan valid_loans_filter).
  destruct (filter eligible_loan sub_df) as [|r rs]; [reflexivity|].
  cbv zeta. replace (len (r :: rs) =? 0) with false; [reflexivity|].
  symmetry. apply Z.eqb_neq. unfold len. cbn [List.length]. lia.
Qed.





(** ** day_sinlastloan *)

Lemma valid_summa_filter (r : Row.t) :
  num_notna (Row.summa r) && num_gt0 (Row.summa r) = positive_summa r.
Proof.
  unfold positive_summa, num_notna, num_gt0.
  destruct (Row.summa r) as [z|f]; [reflexivity|].
  destruct f; reflexivity.
Qed.

Lemma fold_ts_later_Some (col : list (option Z)) (acc : option Z) (m : Z) :
  acc = Some m \/ In (Some m) col ->
  (forall d, acc = Some d \/ In (Some d) col -> d <= m) ->
  fold_left ts_later col acc = Some m.
Proof.
  revert acc. induction col as [|c col IH]; intros acc Hm Hle; simpl.
  - destruct Hm as [H|[]]. exact H.
  - assert (Hacc : forall a, acc = Some a -> a <= m)
      by (intros a Ha; apply Hle; auto).
    assert (Hc : forall b, c = Some b -> b <= m)
      by (intros b Hb; apply Hle; right; left; exact Hb).
    assert (Hcol : forall d, In (Some d) col -> d <= m)
      by (intros d Hd; apply Hle; right; right; exact Hd).
    apply IH.
    + destruct Hm as [->|[->|Hin]]; [| |right; exact Hin]; left.
      * destruct c as [b|]; simpl; [|reflexivity].
        f_equal. specialize (Hc b eq_refl). lia.
      * destruct acc as [a|]; simpl; [|reflexivity].
        f_equal. specialize (Hacc a eq_refl). lia.
    + intros d [Hd|Hd]; [|now apply Hcol].
      destruct acc as [a|], c as [b|]; simpl in Hd; try discriminate;
        injection Hd as <-.
      * specialize (Hacc a eq_refl). specialize (Hc b eq_refl). lia.
      * now apply Hacc.
      * now apply Hc.
Qed.

Lemma fold_ts_later_None (col : list (option Z)) :
  (forall c, In c col -> c = None) -> fold_left ts_later col None = None.
Proof.
  induction col as [|c col IH]; intros H; simpl; [reflexivity|].
  rewrite (H c (or_introl eq_refl)). simpl. apply IH.
  intros c' Hc'. apply H. right. exact Hc'.
Qed.

Lemma ts_max_last_loan_date (rows : list Row.t) (m : Z) :
  last_loan_date rows m -> ts_max (map Row.contract_date rows) = Some m.
Proof.
  intros [[r [Hin Hr]] Hle]. unfold ts_max. apply fold_ts_later_Some.
  - right. rewrite <- Hr. now apply in_map.
  - intros d [Hd|Hd]; [discriminate|].
    apply in_map_iff in Hd. destruct Hd as [r' [Hr' Hin']]. now apply (Hle r').
Qed.

Lemma ts_sub_ok (x y : Z) :
  int64_min < x - y <= int64_max -> ts_sub (Some x) (Some y) = Ok (Some (x - y)).
Proof.
  intros [Hlo Hhi]. unfold ts_sub. cbv zeta.
  replace (x - y <? int64_min) with false by (symmetry; apply Z.ltb_ge; lia).
  replace (int64_max <? x - y) with false by (symmetry; apply Z.ltb_ge; lia).
  replace (x - y =? int64_min) with false by (symmetry; apply Z.eqb_neq; lia).
  reflexivity.
Qed.

Lemma ts_sub_overflow (x y : Z) :
  x - y < int64_min \/ int64_max < x - y ->
  ts_sub (Some x) (Some y) = Raise OutOfBoundsDatetime.
Proof.
  intros H. unfold ts_sub. cbv zeta.
  replace ((x - y <? int64_min) || (int64_max <? x - y)) with true;
    [reflexivity|].
  symmetry. apply orb_true_iff.
  destruct H as [H|H]; [left|right]; apply Z.ltb_lt; exact H.
Qed.

Lemma ts_sub_range (a b : option Z) (d : Z) :
  ts_sub a b = Ok (Some d) -> int64_min < d <= int64_max.
Proof.
  unfold ts_sub. destruct a as [x|], b as [y|]; try discriminate. cbv zeta.
  destruct (x - y <? int64_min) eqn:Hlo; [discriminate|].
  destruct (int64_max <? x - y) eqn:Hhi; [discriminate|]. cbn [orb].
  destruct (x - y =? int64_min) eqn:Heq; [discriminate|].
  intros [= <-]. apply Z.ltb_ge in Hlo, Hhi. apply Z.eqb_neq in Heq. lia.
Qed.

Lemma ts_sub_raise (a b : option Z) (e : exn) :
  ts_sub a b = Raise e -> e = OutOfBoundsDatetime \/ e = AssertionError.
Proof.
  unfold ts_sub. destruct a as [x|], b as [y|]; try discriminate. cbv zeta.
  destruct ((x - y <? int64_min) || (int64_max <? x - y));
    [intros [= <-]; auto|].
  destruct (x - y =? int64_min); [intros [= <-]; auto|discriminate].
Qed.

Lemma days_since_last_loan_eq (sub_df : list Row.t) :
  days_since_last_loan sub_df =
    match filter positive_summa sub_df with
    | [] => Ok (VInt (-1))
    | survivors =>
        app_date <- iloc0 (map Row.application_date sub_df) ;;
        td <- ts_sub app_date (ts_max (map Row.contract_date survivors)) ;;
        let days_diff := days td in
        Ok (if num_gt0 days_diff then days_diff else VInt (-3))
    end.
Proof.
  unfold days_since_last_loan.
  rewrite (filter_ext _ positive_summa valid_summa_filter).
  destruct (filter positive_summa sub_df); reflexivity.
Qed.

Lemma filter_cons_source {A : Type} (p : A -> bool) (l : list A) (x : A)
    (xs : list A) :
  filter p l = x :: xs -> exists first rest, l = first :: rest.
Proof. destruct l as [|first rest]; [discriminate|eauto]. Qed.

(** Whatever days_since_last_loan returns is the integer -1, -3 or a
    day count between 1 and 106751, the number of whole days in the
    largest Timedelta. *)
Lemma days_since_last_loan_range (sub_df : list Row.t) (v : num) :
  days_since_last_loan sub_df = Ok v ->
  exists z, v = VInt z /\ (z = -1 \/ z = -3 \/ 1 <= z <= 106751).
Proof.
  rewrite days_since_last_loan_eq.
  destruct (filter positive_summa sub_df) as [|s ss] eqn:Hs.
  - intros [= <-]. eauto.
  - destruct (filter_cons_source _ _ _ _ Hs) as [first [rest ->]].
    cbn [map iloc0 bind].
    destruct (ts_sub _ _) as [[td|]|e] eqn:Hts; cbn [bind days num_gt0];
      [| |discriminate].
    + apply ts_sub_range in Hts.
      destruct (0 <? td / ns_per_day) eqn:Hd; intros [= <-]; [|eauto].
      apply Z.ltb_lt in Hd. exists (td / ns_per_day). split; [reflexivity|].
      right. right. split; [lia|].
      apply Z.lt_succ_r. apply Z.div_lt_upper_bound; [reflexivity|].
      unfold int64_max in Hts. unfold ns_per_day. lia.
    + cbn. intros [= <-]. eauto.
Qed.

Lemma days_since_last_loan_raise (sub_df : list Row.t) (e : exn) :
  days_since_last_loan sub_df = Raise e ->
  e = OutOfBoundsDatetime \/ e = AssertionError.
Proof.
  rewrite days_since_last_loan_eq.
  destruct (filter positive_summa sub_df) as [|s ss] eqn:Hs; [discriminate|].
  destruct (filter_cons_source _ _ _ _ Hs) as [first [rest ->]].
  cbn [map iloc0 bind].
  destruct (ts_sub _ _) as [td|e'] eqn:Hts; cbn [bind]; [discriminate|].
  intros [= <-]. now apply ts_sub_raise in Hts.
Qed.

(** *** Tables of one row *)

Lemma upcast_single (v : num) : upcast [v] v = v.
Proof. destruct v; reflexivity. Qed.

Lemma groupby_apply_single (f : list Row.t -> result num) (r : Row.t) :
  groupby_apply f [r] = (v <- f [r] ;; Ok [(Row.id r, v)]).
Proof.
  unfold groupby_apply, group_keys, get_group.
  cbn [map fold_right insert_key mapM filter].
  rewrite Z.eqb_refl. destruct (f [r]) as [v|e]; [|reflexivity].
  cbn. now rewrite upcast_single.
Qed.

Lemma merge_single {A B : Type} (k : Z) (a : A) (b : B) :
  merge [(k, a)] [(k, b)] = [(k, (a, b))].
Proof. unfold merge. cbn. now rewrite Z.eqb_refl. Qed.

Lemma features_df_single (r : Row.t) :
  features_df [r] =
    (tot <- claims_in_last_180_days [r] ;;
     day <- days_since_last_loan [r] ;;
     Ok [{| Features.id := Row.id r;
            Features.application_date := Row.application_date r;
            Features.tot_claim_cnt_l180d := tot;
            Features.disb_bank_loan_wo_tbc := sum_loans_wo_tbc [r];
            Features.day_sinlastloan := day |}]).
Proof.
  unfold features_df, calculate_tot_claim_cnt_l180d,
    calculate_disb_bank_loan_wo_tbc, calculate_day_sinlastloan.
  rewrite !groupby_apply_single.
  destruct (claims_in_last_180_days [r]) as [tot|e]; [|reflexivity].
  destruct (days_since_last_loan [r]) as [day|e]; [|reflexivity].
  cbn [bind map drop_duplicate_pairs existsb]. rewrite !merge_single.
  reflexivity.
Qed.

(** Running the pipeline on one record whose payload json_loads decodes:
    first parse_contracts, then convert_data_types with what the library
    returns on the texts of the row, then features_df on the one row. *)
Ltac parse_single_record Hne Hjson :=
  unfold pipeline, parse_contracts, record_rows;
  cbn [sort_values insert_sorted drop_duplicates existsb concat_mapM
       Scenario.record Raw.contracts Raw.id Raw.application_date];
  apply String.eqb_neq in Hne; rewrite Hne, Hjson;
  cbn -[Timestamp ns_per_day].

Ltac coerce_single_row Hnum Hdmy Hiso :=
  unfold to_datetime, to_numeric, to_numeric_value; cbn [map];
  rewrite Hnum, Hdmy, Hiso;
  cbn -[Timestamp ns_per_day features_df];
  rewrite features_df_single.

Lemma value_of_days_int (df : list Row.t) :
  (forall k, In k (group_keys df) ->
     exists v, days_since_last_loan (get_group df k) = Ok v) ->
  forallb is_int (map (value_of days_since_last_loan df) (group_keys df)) = true.
Proof.
  intros Hall. apply forallb_forall. intros v Hv. apply in_map_iff in Hv.
  destruct Hv as [k [<- Hk]]. unfold value_of.
  destruct (Hall k Hk) as [v Hv]. rewrite Hv.
  destruct (days_since_last_loan_range _ _ Hv) as [z [-> _]]. reflexivity.
Qed.

Lemma calculate_day_sinlastloan_ok (df : list Row.t) :
  df <> [] ->
  (forall k, In k (group_keys df) ->
     exists v, days_since_last_loan (get_group df k) = Ok v) ->
  exists out,
    calculate_day_sinlastloan df = Ok out
    /\ map fst out = group_keys df
    /\ forall k v, In (k, v) out ->
         days_since_last_loan (get_group df k) = Ok v.
Proof.
  intros Hne Hall.
  assert (Hval : forall k, In k (group_keys df) ->
            days_since_last_loan (get_group df k)
            = Ok (value_of days_since_last_loan df k)).
  { intros k Hk. unfold value_of. destruct (Hall k Hk) as [v ->]. reflexivity. }
  eexists. split.
  - unfold calculate_day_sinlastloan.
    apply (groupby_apply_ok _ (value_of days_since_last_loan df)); assumption.
  - split.
    + rewrite map_map. simpl. apply map_id.
    + intros k v Hin. apply in_map_iff in Hin.
      destruct Hin as [k' [[= -> <-] Hk]].
      rewrite upcast_ints by now apply value_of_days_int. now apply Hval.
Qed.

Lemma groupby_apply_group_raises (f : list Row.t -> result num)
    (df : list Row.t) (k : Z) (e : exn) :
  In k (group_keys df) -> f (get_group df k) = Raise e ->
  exists e', groupby_apply f df = Raise e'.
Proof.
  intros Hk He. destruct (groupby_apply f df) as [out|e'] eqn:Hout; [|eauto].
  destruct (groupby_apply_inv _ _ _ Hout) as [_ [Hall _]].
  rewrite (Hall k Hk) in He. discriminate.
Qed.

(** C4, as the claim states it, fails: for an application of 1 March
    2024 whose last loan is dated 1 January 1700 (both are Timestamps)
    the claim promises the day difference 118398, but the difference
    does not fit a Timedelta and the subtraction raises; no value is
    output for the group, nor by the pipeline run on such a record. *)
Lemma day_sinlastloan_old_contract_date_raises :
  let row :=
    {| Row.id := 5; Row.application_date := Some (Timestamp 2024 3 1);
       Row.contract_id := None; Row.bank := None;
       Row.summa := VInt 750; Row.loan_summa := VFloat nan;
       Row.claim_date := None; Row.claim_id := None;
       Row.contract_date := Some (Timestamp 1700 1 1) |} in
  int64_min < Timestamp 1700 1 1 <= int64_max
  /\ filter positive_summa [row] = [row]
  /\ (Timestamp 2024 3 1 - Timestamp 1700 1 1) / ns_per_day = 118398
  /\ days_since_last_loan [row] = Raise OutOfBoundsDatetime
  /\ ~ (exists v, days_since_last_loan [row] = Ok v)
  /\ pipeline (lib := Scenario.lib)
       [Scenario.record 5 "2024-03-01" (Some Scenario.payload_old)]
     = Raise OutOfBoundsDatetime.
Proof.
  intros row. split; [vm_compute; split; [reflexivity|discriminate]|].
  split; [reflexivity|]. split; [reflexivity|].
  assert (H : days_since_last_loan [row] = Raise OutOfBoundsDatetime)
    by (vm_compute; reflexivity).
  split; [exact H|]. split.
  - intros [v Hv]. rewrite H in Hv. discriminate.
  - vm_compute. reflexivity.
Qed.

(** C4, amended. For every application group, with the survivors being
    the rows whose summa is present and strictly positive: no survivor
    gives -1; otherwise, [m] being the maximum contract_date of the
    survivors and [a] the application date, when [a - m] fits a
    Timedelta the output is the integer day difference of [a - m],
    except that a difference <= 0 gives -3, and when [a - m] lies
    outside the int64 range of nanoseconds (more than about 292 years)
    the subtraction raises OutOfBoundsDatetime. On a table that has rows
    and on whose groups the function returns, the column of
    calculate_day_sinlastloan holds that output for every group key; if
    the function raises on a group the column is not built; on a table
    without rows calculate_day_sinlastloan raises TypeError. And
    Scenario E (one contract with summa "750" and contract_date
    "01.01.2024", application_date "2024-02-01") runs through the
    pipeline to day_sinlastloan = 31. *)
Theorem day_sinlastloan_since_last_positive_summa :
  (forall sub_df : list Row.t,
      let survivors := filter positive_summa sub_df in
      (survivors = [] -> days_since_last_loan sub_df = Ok (VInt (-1)))
      /\ (forall first rest a m,
            sub_df = first :: rest ->
            survivors <> [] ->
            Row.application_date first = Some a ->
            last_loan_date survivors m ->
            let d := (a - m) / ns_per_day in
            (int64_min < a - m <= int64_max ->
             (d <= 0 -> days_since_last_loan sub_df = Ok (VInt (-3)))
             /\ (0 < d -> days_since_last_loan sub_df = Ok (VInt d)))
            /\ (a - m < int64_min \/ int64_max < a - m ->
                days_since_last_loan sub_df = Raise OutOfBoundsDatetime)))
  /\
  (forall df : list Row.t,
      df <> [] ->
      (forall k, In k (group_keys df) ->
         exists v, days_since_last_loan (get_group df k) = Ok v) ->
      exists out,
        calculate_day_sinlastloan df = Ok out
        /\ map fst out = group_keys df
        /\ forall k v, In (k, v) out ->
             days_since_last_loan (get_group df k) = Ok v)
  /\
  (forall (df : list Row.t) (k : Z) (e : exn),
      In k (group_keys df) ->
      days_since_last_loan (get_group df k) = Raise e ->
      exists e', calculate_day_sinlastloan df = Raise e')
  /\ calculate_day_sinlastloan [] = Raise TypeError
  /\
  (forall (lib : PyLib) (i : Z) (contracts_str : string),
      contracts_str <> EmptyString ->
      json_loads contracts_str = Some Scenario.contracts_E ->
      to_numeric_str "750" = VInt 750 ->
      strptime_dmy "01.01.2024" = Some (Timestamp 2024 1 1) ->
      to_datetime_infer [Some "2024-02-01"%string] "2024-02-01"
        = Some (Timestamp 2024 2 1) ->
      exists row,
        pipeline [Scenario.record i "2024-02-01" (Some contracts_str)] = Ok [row]
        /\ Features.id row = i
        /\ Features.day_sinlastloan row = VInt 31).
Proof.
  split; [|split; [|split; [|split]]].
  - intros sub_df. cbv zeta. split.
    + intros Hnil. rewrite days_since_last_loan_eq, Hnil. reflexivity.
    + intros first rest a m -> Hne Ha Hmax.
      rewrite days_since_last_loan_eq.
      destruct (filter positive_summa (first :: rest)) as [|s ss] eqn:Hs;
        [congruence|].
      rewrite (ts_max_last_loan_date _ _ Hmax).
      cbn [map iloc0 bind]. rewrite Ha. split.
      * intros Hfit. rewrite (ts_sub_ok _ _ Hfit). cbn [bind days num_gt0].
        split; intros Hd.
        -- apply Z.ltb_ge in Hd. now rewrite Hd.
        -- apply Z.ltb_lt in Hd. now rewrite Hd.
      * intros Hout. now rewrite (ts_sub_overflow _ _ Hout).
  - exact calculate_day_sinlastloan_ok.
  - intros df k e. apply groupby_apply_group_raises.
  - reflexivity.
  - intros lib i contracts_str Hne Hjson Hnum Hdmy Hiso.
    parse_single_record Hne Hjson.
    change (first_token "2024-02-01") with (Some "2024-02-01"%string).
    coerce_single_row Hnum Hdmy Hiso.
    eexists. split; [vm_compute; reflexivity|]. split; reflexivity.
Qed.

(** Scenario E run with the scenario library, and the general rule read
    on a group whose loans date from 2024-01-01 and 2023-12-01. *)
Lemma day_sinlastloan_since_last_positive_summa_witness :
  (exists row,
      pipeline (lib := Scenario.lib)
        [Scenario.record 5 "2024-02-01" (Some Scenario.payload_E)] = Ok [row]
      /\ Features.id row = 5
      /\ Features.day_sinlastloan row = VInt 31)
  /\
  (let loan date :=
     {| Row.id := 5; Row.application_date := Some (Timestamp 2024 2 1);
        Row.contract_id := None; Row.bank := None;
        Row.summa := VInt 750; Row.loan_summa := VFloat nan;
        Row.claim_date := None; Row.claim_id := None;
        Row.contract_date := Some date |} in
   days_since_last_loan
     [loan (Timestamp 2023 12 1); loan (Timestamp 2024 1 1)] = Ok (VInt 31)).
Proof.
  destruct day_sinlastloan_since_last_positive_summa
    as [Hrule [_ [_ [_ Hrun]]]].
  split.
  - apply (Hrun Scenario.lib 5 Scenario.payload_E);
      [discriminate|reflexivity|reflexivity|reflexivity|reflexivity].
  - intros loan.
    destruct (Hrule [loan (Timestamp 2023 12 1); loan (Timestamp 2024 1 1)])
      as [_ H].
    refine (proj2 (proj1 (H _ _ (Timestamp 2024 2 1) (Timestamp 2024 1 1)
                            eq_refl _ eq_refl _) _) _).
    + discriminate.
    + split.
      * exists (loan (Timestamp 2024 1 1)). split; [right; left|]; reflexivity.
      * intros r d [<-|[<-|[]]]; intros [= <-]; vm_compute; discriminate.
    + vm_compute. split; [reflexivity|discriminate].
    + reflexivity.
Defined.

(** C10. For every application group in which some row has summa present
    and strictly positive but every such row has a missing contract_date,
    days_since_last_loan returns -3: the maximum of the missing dates is
    NaT, the day difference is nan, and [nan > 0] is False. *)
Theorem day_sinlastloan_missing_contract_dates :
  forall sub_df : list Row.t,
    let survivors := filter positive_summa sub_df in
    survivors <> [] ->
    (forall r, In r survivors -> Row.contract_date r = None) ->
    days_since_last_loan sub_df = Ok (VInt (-3)).
Proof.
  intros sub_df survivors Hne Hnone. rewrite days_since_last_loan_eq.
  fold survivors. destruct survivors as [|s ss] eqn:Hs; [congruence|].
  destruct (filter_cons_source _ _ _ _ Hs) as [first [rest ->]].
  unfold ts_max. rewrite fold_ts_later_None.
  - cbn [map iloc0 bind].
    destruct (Row.application_date first); reflexivity.
  - intros c Hc. apply in_map_iff in Hc. destruct Hc as [r [<- Hr]].
    now apply Hnone.
Qed.

Lemma day_sinlastloan_missing_contract_dates_witness :
  days_since_last_loan
    [{| Row.id := 7; Row.application_date := Some (Timestamp 2024 2 1);
        Row.contract_id := None; Row.bank := None;
        Row.summa := VInt 750; Row.loan_summa := VFloat nan;
        Row.claim_date := None; Row.claim_id := None;
        Row.contract_date := None |}] = Ok (VInt (-3)).
Proof.
  apply day_sinlastloan_missing_contract_dates.
  - discriminate.
  - intros r [<-|[]]. reflexivity.
Defined.

(** ** The dtype of the disb_bank_loan_wo_tbc column *)





(** ** Scenario A *)

(** C2, as the claim states it, fails: the contract of Scenario A has no
    summa, so no row passes the filter of days_since_last_loan and
    day_sinlastloan is -1, not -3. *)
Lemma scenario_A_day_sinlastloan_is_not_minus_3 :
  pipeline (lib := Scenario.lib)
    [Scenario.record 1 "2024-03-01" (Some Scenario.payload_A)]
  = Ok [{| Features.id := 1;
           Features.application_date := Some (Timestamp 2024 3 1);
           Features.tot_claim_cnt_l180d := VInt 1;
           Features.disb_bank_loan_wo_tbc := VInt 1000;
           Features.day_sinlastloan := VInt (-1) |}]
  /\ ~ (exists row,
          pipeline (lib := Scenario.lib)
            [Scenario.record 1 "2024-03-01" (Some Scenario.payload_A)] = Ok [row]
          /\ Features.tot_claim_cnt_l180d row = VInt 1
          /\ to_float (Features.disb_bank_loan_wo_tbc row) = float_of_Z 1000
          /\ Features.day_sinlastloan row = VInt (-3)).
Proof.
  assert (Hrun :
    pipeline (lib := Scenario.lib)
      [Scenario.record 1 "2024-03-01" (Some Scenario.payload_A)]
    = Ok [{| Features.id := 1;
             Features.application_date := Some (Timestamp 2024 3 1);
             Features.tot_claim_cnt_l180d := VInt 1;
             Features.disb_bank_loan_wo_tbc := VInt 1000;
             Features.day_sinlastloan := VInt (-1) |}])
    by (vm_compute; reflexivity).
  split; [exact Hrun|].
  intros [row [Hrow [_ [_ Hday]]]]. rewrite Hrun in Hrow.
  injection Hrow as <-. discriminate Hday.
Qed.

(** C2, amended. For the single-application input of Scenario A (id 1,
    application_date "2024-03-01", one contract with bank "ALPHA",
    loan_summa "1000", contract_date and claim_date "01.01.2024" and no
    summa) the pipeline outputs tot_claim_cnt_l180d = 1,
    disb_bank_loan_wo_tbc = 1000 (the integer the lone "1000" is read
    as) and day_sinlastloan = -1. *)
Theorem scenario_A_features :
  forall (lib : PyLib) (contracts_str : string),
    contracts_str <> EmptyString ->
    json_loads contracts_str = Some Scenario.contracts_A ->
    to_numeric_str "1000" = VInt 1000 ->
    strptime_dmy "01.01.2024" = Some (Timestamp 2024 1 1) ->
    to_datetime_infer [Some "2024-03-01"%string] "2024-03-01"
      = Some (Timestamp 2024 3 1) ->
    pipeline [Scenario.record 1 "2024-03-01" (Some contracts_str)]
    = Ok [{| Features.id := 1;
             Features.application_date := Some (Timestamp 2024 3 1);
             Features.tot_claim_cnt_l180d := VInt 1;
             Features.disb_bank_loan_wo_tbc := VInt 1000;
             Features.day_sinlastloan := VInt (-1) |}].
Proof.
  intros lib contracts_str Hne Hjson Hnum Hdmy Hiso.
  parse_single_record Hne Hjson.
  change (first_token "2024-03-01") with (Some "2024-03-01"%string).
  coerce_single_row Hnum Hdmy Hiso.
  vm_compute. reflexivity.
Qed.

Lemma scenario_A_features_witness :
  pipeline (lib := Scenario.lib)
    [Scenario.record 1 "2024-03-01" (Some Scenario.payload_A)]
  = Ok [{| Features.id := 1;
           Features.application_date := Some (Timestamp 2024 3 1);
           Features.tot_claim_cnt_l180d := VInt 1;
           Features.disb_bank_loan_wo_tbc := VInt 1000;
           Features.day_sinlastloan := VInt (-1) |}].
Proof.
  apply (scenario_A_features Scenario.lib Scenario.payload_A);
    [discriminate|reflexivity|reflexivity|reflexivity|reflexivity].
Defined.

(** ** convert_data_types *)

Section CoercerFacts.

Context {lib : PyLib}.

Lemma convert_data_types_eq (df : list Frame.row) (by_explode : bool) :
  convert_data_types df by_explode =
    match df with
    | [] => Raise KeyError
    | _ :: _ =>
        if by_explode then Ok (coerce_columns df)
        else
          _ <- str_accessor (map Frame.application_date df) ;;
          Ok (coerce_columns (coerce_application_date df))
    end.
Proof.
  destruct df as [|r df]; [reflexivity|].
  unfold convert_data_types, coerce_columns.
  destruct by_explode; cbn [negb bind].
  - f_equal. rewrite !map_map. apply map_ext. intros x. reflexivity.
  - destruct (str_accessor _); cbn [bind]; [|reflexivity].
    fold (coerce_application_date (r :: df)).
    generalize (coerce_application_date (r :: df)). intros d.
    f_equal. rewrite !map_map. apply map_ext. intros x. reflexivity.
Qed.

End CoercerFacts.

Section CoercerIdempotence.

Context {lib : PyLib}.

Lemma in_int64_is_int (n : num) : in_int64 n = true -> is_int n = true.
Proof. destruct n; [reflexivity|discriminate]. Qed.

Lemma in_uint64_is_int (n : num) : in_uint64 n = true -> is_int n = true.
Proof. destruct n; [reflexivity|discriminate]. Qed.

Lemma to_numeric_cast_ints (col : list num) (n : num) :
  integer_dtype col = true -> to_numeric_cast col n = n.
Proof. unfold to_numeric_cast. now intros ->. Qed.

Lemma integer_dtype_floats (col : list num) (n : num) :
  In n col -> integer_dtype (map (fun x => VFloat (to_float x)) col) = false.
Proof.
  intros Hin. unfold integer_dtype.
  destruct col as [|x col]; [destruct Hin|]. reflexivity.
Qed.

Lemma to_numeric_cast_idem (values : list num) (v : num) :
  to_numeric_cast (map (to_numeric_cast values) values) (to_numeric_cast values v)
  = to_numeric_cast values v.
Proof.
  destruct (integer_dtype values) eqn:Hd.
  - rewrite (map_ext _ (fun n => n))
      by (intros n; now apply to_numeric_cast_ints).
    rewrite map_id. now rewrite !(to_numeric_cast_ints _ _ Hd).
  - assert (Hcast : forall n, to_numeric_cast values n = VFloat (to_float n))
      by (intros n; unfold to_numeric_cast; now rewrite Hd).
    rewrite (map_ext _ _ Hcast), Hcast.
    destruct values as [|x values]; [discriminate Hd|].
    unfold to_numeric_cast at 1.
    rewrite (integer_dtype_floats (x :: values) x (or_introl eq_refl)).
    reflexivity.
Qed.

Lemma to_numeric_idem (col : list num_cell) (c : num_cell) :
  to_numeric (map (to_numeric col) col) (to_numeric col c) = to_numeric col c.
Proof.
  unfold to_numeric. rewrite map_map. cbn [to_numeric_value]. f_equal.
  rewrite <- (map_map to_numeric_value (to_numeric_cast (map to_numeric_value col))).
  apply to_numeric_cast_idem.
Qed.

Lemma to_datetime_dmy_idem (c : date_cell) :
  to_datetime_dmy (to_datetime_dmy c) = to_datetime_dmy c.
Proof. destruct c as [[s|]|t]; reflexivity. Qed.

Lemma coerce_columns_idem (df : list Frame.row) :
  coerce_columns (coerce_columns df) = coerce_columns df.
Proof.
  unfold coerce_columns. rewrite !map_map. cbn [Frame.summa Frame.loan_summa].
  apply map_ext. intros r. cbn.
  rewrite <- (map_map Frame.summa (to_numeric (map Frame.summa df))).
  rewrite <- (map_map Frame.loan_summa (to_numeric (map Frame.loan_summa df))).
  rewrite !to_numeric_idem, !to_datetime_dmy_idem. reflexivity.
Qed.

Lemma coerce_columns_application_date (df : list Frame.row) :
  map Frame.application_date (coerce_columns df) = map Frame.application_date df.
Proof. unfold coerce_columns. rewrite map_map. reflexivity. Qed.

Lemma coerce_application_date_datetime (df : list Frame.row) :
  forallb is_datetime (map Frame.application_date (coerce_application_date df))
  = true.
Proof.
  unfold coerce_application_date. rewrite map_map. apply forallb_forall.
  intros c Hc. apply in_map_iff in Hc. destruct Hc as [r [<- _]].
  cbn. unfold to_datetime.
  destruct (str_split_first (Frame.application_date r)); reflexivity.
Qed.

Lemma coerce_columns_cons (r : Frame.row) (df : list Frame.row) :
  exists r' df', coerce_columns (r :: df) = r' :: df'.
Proof. unfold coerce_columns. cbn [map]. eauto. Qed.

Lemma coerce_application_date_cons (r : Frame.row) (df : list Frame.row) :
  exists r' df', coerce_application_date (r :: df) = r' :: df'.
Proof. unfold coerce_application_date. cbn [map]. eauto. Qed.

(** C7, as the claim states it, fails: the table coerced by
    [convert_data_types(df)] has a datetime64 application_date column, and
    coercing it a second time the same way stops at the [.str] accessor. *)
Lemma convert_data_types_again_raises :
  exists df df',
    parse_contracts (lib := Scenario.lib)
      [Scenario.record 1 "2024-03-01" (Some Scenario.payload_A)] = Ok df
    /\ convert_data_types (lib := Scenario.lib) df false = Ok df'
    /\ convert_data_types (lib := Scenario.lib) df' false = Raise AttributeError
    /\ convert_data_types (lib := Scenario.lib) df' false <> Ok df'.
Proof.
  eexists. eexists. split; [vm_compute; reflexivity|].
  split; [vm_compute; reflexivity|].
  split; [vm_compute; reflexivity|]. vm_compute. discriminate.
Qed.

(** C7, amended. Coercing an already coerced table again with
    by_explode=True (as the notebook does on [data]) returns the same
    table; coercing the result of [convert_data_types(df, False)] again
    with by_explode=False raises AttributeError. *)
Theorem convert_data_types_idempotent_by_explode :
  forall (df df' : list Frame.row) (by_explode : bool),
    convert_data_types df by_explode = Ok df' ->
    convert_data_types df' true = Ok df'
    /\ (by_explode = false ->
        convert_data_types df' false = Raise AttributeError).
Proof.
  intros df df' by_explode H. rewrite convert_data_types_eq in H.
  destruct df as [|r df]; [discriminate|].
  destruct by_explode.
  - injection H as <-. split; [|discriminate].
    rewrite convert_data_types_eq.
    destruct (coerce_columns_cons r df) as [r' [rest E]].
    rewrite E, <- E. now rewrite coerce_columns_idem.
  - destruct (str_accessor _); cbn [bind] in H; [|discriminate].
    injection H as <-.
    destruct (coerce_application_date_cons r df) as [r1 [rest1 E1]].
    rewrite E1.
    destruct (coerce_columns_cons r1 rest1) as [r2 [rest2 E2]].
    split; [|intros _]; rewrite convert_data_types_eq, E2, <- E2.
    + now rewrite coerce_columns_idem.
    + rewrite coerce_columns_application_date, <- E1.
      unfold str_accessor. now rewrite coerce_application_date_datetime.
Qed.

End CoercerIdempotence.

Lemma convert_data_types_idempotent_by_explode_witness :
  let df :=
    [{| Frame.id := 1;
        Frame.application_date := DObj (Some "2024-03-01 10:15:00"%string);
        Frame.contract_id := None; Frame.bank := Some "ALPHA"%string;
        Frame.summa := NObj None; Frame.loan_summa := NObj (Some "1000"%string);
        Frame.claim_date := DObj (Some "01.01.2024"%string);
        Frame.claim_id := None;
        Frame.contract_date := DObj (Some "01.01.2024"%string) |}] in
  let df' :=
    [{| Frame.id := 1;
        Frame.application_date := DTime (Some (Timestamp 2024 3 1));
        Frame.contract_id := None; Frame.bank := Some "ALPHA"%string;
        Frame.summa := NVal (VFloat nan); Frame.loan_summa := NVal (VInt 1000);
        Frame.claim_date := DTime (Some (Timestamp 2024 1 1));
        Frame.claim_id := None;
        Frame.contract_date := DTime (Some (Timestamp 2024 1 1)) |}] in
  convert_data_types (lib := Scenario.lib) df false = Ok df'
  /\ convert_data_types (lib := Scenario.lib) df' true = Ok df'
  /\ convert_data_types (lib := Scenario.lib) df' false = Raise AttributeError.
Proof.
  intros df df'.
  assert (H : convert_data_types (lib := Scenario.lib) df false = Ok df')
    by (vm_compute; reflexivity).
  destruct (convert_data_types_idempotent_by_explode (lib := Scenario.lib)
              df df' false H) as [Htrue Hfalse].
  split; [exact H|]. split; [exact Htrue|]. apply Hfalse. reflexivity.
Defined.

(** ** sort_values and drop_duplicates *)

Lemma cell_compare_antisym (a b : option string) :
  cell_compare b a = CompOpp (cell_compare a b).
Proof.
  destruct a as [x|], b as [y|]; simpl; try reflexivity.
  apply String.compare_antisym.
Qed.

Lemma cell_compare_eq (a b : option string) :
  cell_compare a b = Eq -> a = b.
Proof.
  destruct a as [x|], b as [y|]; simpl; try discriminate; [|reflexivity].
  intros H. f_equal. now apply String.compare_eq_iff.
Qed.

Lemma key_compare_antisym (r1 r2 : Raw.t) :
  key_compare r2 r1 = CompOpp (key_compare r1 r2).
Proof.
  unfold key_compare.
  rewrite (Z.compare_antisym (Raw.id r1) (Raw.id r2)).
  rewrite (cell_compare_antisym (Raw.application_date r1)),
          (cell_compare_antisym (Raw.contracts r1)).
  destruct (Raw.id r1 ?= Raw.id r2); simpl; try reflexivity.
  destruct (cell_compare (Raw.application_date r1) (Raw.application_date r2));
    reflexivity.
Qed.

Lemma key_leb_total (r1 r2 : Raw.t) :
  key_leb r1 r2 = false -> key_le r2 r1.
Proof.
  unfold key_le, key_leb. rewrite (key_compare_antisym r1 r2).
  destruct (key_compare r1 r2); simpl; congruence.
Qed.

Lemma insert_sorted_perm (r : Raw.t) (l : list Raw.t) :
  Permutation (r :: l) (insert_sorted r l).
Proof.
  induction l as [|x l IH]; simpl; [reflexivity|].
  destruct (key_leb r x); [reflexivity|].
  rewrite perm_swap. now apply perm_skip.
Qed.

Lemma sort_values_perm (data : list Raw.t) :
  Permutation data (sort_values data).
Proof.
  induction data as [|r data IH]; simpl; [reflexivity|].
  rewrite <- insert_sorted_perm. now apply perm_skip.
Qed.

Lemma insert_sorted_hd (r y : Raw.t) (l : list Raw.t) :
  key_le y r -> HdRel key_le y l -> HdRel key_le y (insert_sorted r l).
Proof.
  intros Hyr Hhd. destruct l as [|x l]; simpl.
  - now constructor.
  - destruct (key_leb r x); constructor; [exact Hyr|].
    now inversion Hhd.
Qed.

Lemma insert_sorted_sorted (r : Raw.t) (l : list Raw.t) :
  Sorted key_le l -> Sorted key_le (insert_sorted r l).
Proof.
  induction l as [|x l IH]; intros Hs; simpl.
  - repeat constructor.
  - destruct (key_leb r x) eqn:Hrx.
    + constructor; [exact Hs|]. now constructor.
    + inversion Hs as [|? ? Hl Hhd]; subst. constructor.
      * now apply IH.
      * apply insert_sorted_hd; [|exact Hhd]. now apply key_leb_total.
Qed.

Lemma sort_values_sorted (data : list Raw.t) :
  Sorted key_le (sort_values data).
Proof.
  induction data as [|r data IH]; simpl; [constructor|].
  now apply insert_sorted_sorted.
Qed.

Lemma existsb_false {A : Type} (p : A -> bool) (l : list A) :
  existsb p l = false <-> forall x, In x l -> p x = false.
Proof.
  induction l as [|y l IH]; simpl.
  - split; [intros _ x []|reflexivity].
  - rewrite orb_false_iff, IH. split.
    + intros [Hy Hl] x [<-|Hx]; auto.
    + intros H. split; [apply H; auto|]. intros x Hx. apply H. auto.
Qed.

Lemma drop_duplicates_In (l : list Raw.t) (r : Raw.t) :
  In r (drop_duplicates l) <-> last_with_contracts l r.
Proof.
  unfold last_with_contracts. induction l as [|x l IH]; simpl.
  - split; [intros []|]. intros [before [after [H _]]].
    destruct before; discriminate.
  - destruct (existsb (same_contracts x) l) eqn:Hdup.
    + rewrite IH. split.
      * intros [before [after [-> Hlast]]].
        exists (x :: before), after. auto.
      * intros [before [after [Heq Hlast]]].
        destruct before as [|b before]; simpl in Heq; injection Heq as -> ->.
        -- apply existsb_false in Hlast. congruence.
        -- eauto.
    + simpl. rewrite IH. split.
      * intros [<-|[before [after [-> Hlast]]]].
        -- exists [], l. split; [reflexivity|]. now apply existsb_false.
        -- exists (x :: before), after. auto.
      * intros [before [after [Heq Hlast]]].
        destruct before as [|b before]; simpl in Heq; injection Heq as -> ->.
        -- left. reflexivity.
        -- right. eauto.
Qed.

Lemma drop_duplicates_incl (l : list Raw.t) (r : Raw.t) :
  In r (drop_duplicates l) -> In r l.
Proof.
  intros H. apply drop_duplicates_In in H.
  destruct H as [before [after [-> _]]]. apply in_elt.
Qed.

Lemma cell_compare_refl (a : option string) : cell_compare a a = Eq.
Proof.
  assert (H := cell_compare_antisym a a).
  destruct (cell_compare a a); simpl in H; congruence.
Qed.


Lemma ascii_compare_refl (a : ascii) : Ascii.compare a a = Eq.
Proof. unfold Ascii.compare. apply N.compare_refl. Qed.

Lemma ascii_compare_lt_trans (a b c : ascii) :
  Ascii.compare a b = Lt -> Ascii.compare b c = Lt -> Ascii.compare a c = Lt.
Proof.
  unfold Ascii.compare. rewrite !N.compare_lt_iff. apply N.lt_trans.
Qed.

Lemma string_compare_lt_trans (a b c : string) :
  String.compare a b = Lt -> String.compare b c = Lt -> String.compare a c = Lt.
Proof.
  revert b c. induction a as [|x a IH]; intros [|y b] [|z c]; simpl;
    try discriminate; auto.
  destruct (Ascii.compare x y) eqn:Hxy; try discriminate;
    destruct (Ascii.compare y z) eqn:Hyz; try discriminate; intros Hab Hbc.
  - apply Ascii.compare_eq_iff in Hxy. apply Ascii.compare_eq_iff in Hyz.
    subst. rewrite ascii_compare_refl. now apply (IH b c).
  - apply Ascii.compare_eq_iff in Hxy. subst. now rewrite Hyz.
  - apply Ascii.compare_eq_iff in Hyz. subst. now rewrite Hxy.
  - now rewrite (ascii_compare_lt_trans x y z Hxy Hyz).
Qed.

Lemma cell_compare_lt_trans (a b c : option string) :
  cell_compare a b = Lt -> cell_compare b c = Lt -> cell_compare a c = Lt.
Proof.
  destruct a as [x|], b as [y|], c as [z|]; simpl; try discriminate; auto.
  apply string_compare_lt_trans.
Qed.

Lemma cell_compare_le_trans (a b c : option string) :
  cell_compare a b <> Gt -> cell_compare b c <> Gt -> cell_compare a c <> Gt.
Proof.
  intros Hab Hbc.
  destruct (cell_compare a b) eqn:E1; [| |congruence].
  - apply cell_compare_eq in E1. now subst.
  - destruct (cell_compare b c) eqn:E2; [| |congruence].
    + apply cell_compare_eq in E2. subst. rewrite E1. discriminate.
    + rewrite (cell_compare_lt_trans a b c E1 E2). discriminate.
Qed.

(** The sort key as a lexicographic order. *)
Lemma key_le_lex (r1 r2 : Raw.t) :
  key_le r1 r2 <->
  Raw.id r1 < Raw.id r2 \/
  (Raw.id r1 = Raw.id r2 /\
   (cell_compare (Raw.application_date r1) (Raw.application_date r2) = Lt \/
    (Raw.application_date r1 = Raw.application_date r2 /\
     cell_compare (Raw.contracts r1) (Raw.contracts r2) <> Gt))).
Proof.
  unfold key_le, key_leb, key_compare.
  destruct (Z.compare_spec (Raw.id r1) (Raw.id r2)) as [Hid|Hid|Hid].
  - destruct (cell_compare (Raw.application_date r1) (Raw.application_date r2))
      eqn:Hd.
    + apply cell_compare_eq in Hd. split.
      * intros H. right. split; [exact Hid|]. right. split; [exact Hd|].
        destruct (cell_compare (Raw.contracts r1) (Raw.contracts r2));
          congruence.
      * intros [Hlt|[_ [Hlt|[_ Hc]]]]; [lia|discriminate|].
        destruct (cell_compare (Raw.contracts r1) (Raw.contracts r2));
          congruence.
    + split; [|reflexivity]. intros _. right. auto.
    + split; [discriminate|]. intros [Hlt|[_ [Hlt|[He _]]]];
        [lia|discriminate|].
      rewrite He, cell_compare_refl in Hd. discriminate.
  - split; [|reflexivity]. intros _. left. exact Hid.
  - split; [discriminate|]. intros [Hlt|[He _]]; lia.
Qed.

Lemma key_le_refl (r : Raw.t) : key_le r r.
Proof.
  apply key_le_lex. right. split; [reflexivity|]. right.
  split; [reflexivity|]. rewrite cell_compare_refl. discriminate.
Qed.

Lemma key_le_trans (r1 r2 r3 : Raw.t) :
  key_le r1 r2 -> key_le r2 r3 -> key_le r1 r3.
Proof.
  rewrite !key_le_lex.
  intros [H12|[E12 H12]] [H23|[E23 H23]]; try (left; lia).
  right. split; [congruence|].
  destruct H12 as [L12|[D12 C12]], H23 as [L23|[D23 C23]].
  - left. now apply (cell_compare_lt_trans _ _ _ L12 L23).
  - left. now rewrite <- D23.
  - left. now rewrite D12.
  - right. split; [congruence|].
    now apply (cell_compare_le_trans _ _ _ C12 C23).
Qed.

Lemma sort_values_strongly_sorted (data : list Raw.t) :
  StronglySorted key_le (sort_values data).
Proof.
  apply Sorted_StronglySorted; [|apply sort_values_sorted].
  intros r1 r2 r3. apply key_le_trans.
Qed.

Lemma strongly_sorted_before (before after : list Raw.t) (r x : Raw.t) :
  StronglySorted key_le (before ++ r :: after) -> In x before -> key_le x r.
Proof.
  induction before as [|b before IH]; intros Hs Hx; [destruct Hx|].
  simpl in Hs. inversion Hs as [|? ? Hrest Hall]; subst.
  destruct Hx as [<-|Hx].
  - rewrite Forall_forall in Hall. apply Hall. apply in_elt.
  - now apply IH.
Qed.

(** A record kept by drop_duplicates is the greatest, under the sort
    key, of the records that share its contracts text. *)
Lemma drop_duplicates_greatest (data : list Raw.t) (r r' : Raw.t) :
  In r (drop_duplicates (sort_values data)) ->
  In r' data -> same_contracts r r' = true -> key_le r' r.
Proof.
  intros Hr Hr' Hsame. apply drop_duplicates_In in Hr.
  destruct Hr as [before [after [Hsplit Hlast]]].
  apply (Permutation_in _ (sort_values_perm data)) in Hr'.
  assert (Hs := sort_values_strongly_sorted data).
  rewrite Hsplit in Hr', Hs. apply in_app_or in Hr'.
  destruct Hr' as [Hb|[<-|Ha]].
  - now apply (strongly_sorted_before before after).
  - apply key_le_refl.
  - rewrite (Hlast r' Ha) in Hsame. discriminate.
Qed.

Section Normalizer.

Context {lib : PyLib}.


End Normalizer.


(** ** Records that contribute no row, and payloads of a wrong shape *)

Lemma concat_mapM_skip {A B : Type} (f : A -> result (list B)) (bad : A -> bool)
    (l : list A) :
  (forall x, bad x = true -> f x = Ok []) ->
  concat_mapM f l = concat_mapM f (filter (fun x => negb (bad x)) l).
Proof.
  intros Hbad. induction l as [|x l IH]; simpl; [reflexivity|].
  destruct (bad x) eqn:Hx; simpl.
  - rewrite (Hbad x Hx). simpl. rewrite <- IH.
    destruct (concat_mapM f l); reflexivity.
  - now rewrite IH.
Qed.

Lemma filter_none {A : Type} (p : A -> bool) (l : list A) :
  (forall x, In x l -> p x = false) -> filter p l = [].
Proof.
  induction l as [|x l IH]; intros H; simpl; [reflexivity|].
  rewrite (H x (or_introl eq_refl)). apply IH.
  intros y Hy. apply H. right. exact Hy.
Qed.

Lemma concat_mapM_In {A B : Type} (f : A -> result (list B)) (l : list A)
    (out : list B) (y : B) :
  concat_mapM f l = Ok out -> In y out ->
  exists x ys, In x l /\ f x = Ok ys /\ In y ys.
Proof.
  revert out. induction l as [|x l IH]; intros out; simpl.
  - intros [= <-] [].
  - destruct (f x) as [ys|e] eqn:Hfx; simpl; [|discriminate].
    destruct (concat_mapM f l) as [zs|e]; simpl; [|discriminate].
    intros [= <-] Hin. apply in_app_or in Hin. destruct Hin as [Hin|Hin].
    + exists x, ys. auto.
    + destruct (IH zs eq_refl Hin) as [x' [ys' [Hx' H]]].
      exists x', ys'. auto.
Qed.

Lemma mapM_In {A B : Type} (f : A -> result B) (l : list A) (out : list B)
    (y : B) :
  mapM f l = Ok out -> In y out -> exists x, In x l /\ f x = Ok y.
Proof.
  revert out. induction l as [|x l IH]; intros out; simpl.
  - intros [= <-] [].
  - destruct (f x) as [y'|e] eqn:Hfx; simpl; [|discriminate].
    destruct (mapM f l) as [ys|e]; simpl; [|discriminate].
    intros [= <-] [<-|Hin].
    + exists x. auto.
    + destruct (IH ys eq_refl Hin) as [x' [Hx' H]]. exists x'. auto.
Qed.

Lemma mapM_contract_row_raises (i : Z) (d : option string) (items : list json) :
  (exists x, In x items /\ is_object x = false) ->
  mapM (contract_row i d) items = Raise AttributeError.
Proof.
  induction items as [|x items IH]; intros [y [Hin Hy]]; [destruct Hin|].
  simpl. destruct x; try reflexivity.
  simpl. rewrite IH; [reflexivity|].
  destruct Hin as [<-|Hin]; [discriminate|]. exists y. auto.
Qed.

Lemma contract_row_id (i : Z) (d : option string) (j : json) (row : Frame.row) :
  contract_row i d j = Ok row -> Frame.id row = i.
Proof. destruct j; simpl; try discriminate. intros [= <-]. reflexivity. Qed.

Section Unparseable.

Context {lib : PyLib}.

Lemma record_rows_unparseable (r : Raw.t) :
  unparseable r = true -> record_rows r = Ok [].
Proof.
  unfold unparseable, record_rows. destruct (Raw.contracts r) as [s|];
    [|reflexivity].
  destruct (String.eqb s ""); [reflexivity|].
  destruct (json_loads s); [discriminate|reflexivity].
Qed.

Lemma record_rows_In (r : Raw.t) (rows : list Frame.row) (row : Frame.row) :
  record_rows r = Ok rows -> In row rows ->
  unparseable r = false /\ Frame.id row = Raw.id r.
Proof.
  intros Hrows Hin. split.
  - destruct (unparseable r) eqn:Hu; [|reflexivity].
    rewrite (record_rows_unparseable r Hu) in Hrows.
    injection Hrows as <-. destruct Hin.
  - unfold record_rows in Hrows. destruct (Raw.contracts r) as [s|].
    + destruct (String.eqb s "").
      * injection Hrows as <-. destruct Hin.
      * destruct (json_loads s) as [j|].
        -- destruct (contracts_items j) as [items|e]; simpl in Hrows;
             [|discriminate].
           destruct (mapM_In _ _ _ _ Hrows Hin) as [x [_ Hx]].
           now apply contract_row_id in Hx.
        -- injection Hrows as <-. destruct Hin.
    + injection Hrows as <-. destruct Hin.
Qed.

(** C9, as the claim states it, fails: a contracts text that is valid
    JSON but not a list of objects (here the number 5) makes
    [for contract in contracts] raise TypeError, which the
    [except json.JSONDecodeError] does not catch; the whole call is
    aborted, valid records included. *)
Lemma parse_contracts_wrong_shape_raises :
  let data :=
    [Scenario.record 1 "2024-03-01" (Some Scenario.payload_A);
     Scenario.record 3 "2024-03-01" (Some "5"%string)] in
  json_loads (PyLib := Scenario.lib) "5" = Some (JNumber 5)
  /\ parse_contracts (lib := Scenario.lib) data = Raise TypeError
  /\ ~ (exists rows, parse_contracts (lib := Scenario.lib) data = Ok rows)
  /\ parse_contracts (lib := Scenario.lib)
       [Scenario.record 3 "2024-03-01" (Some (Scenario.q "abc"))]
     = Raise AttributeError.
Proof.
  intros data. split; [reflexivity|]. split; [vm_compute; reflexivity|].
  split; [|vm_compute; reflexivity].
  intros [rows H]. vm_compute in H. discriminate H.
Qed.

(** C9, amended. A raw record whose contracts text is null, empty or not
    JSON appends no row and raises nothing, so parse_contracts returns
    what it returns with these records left out, and [Ok []] when every
    record is such. A text that is JSON of a wrong shape is not
    recovered: null, a boolean or a number raises TypeError, a non-empty
    string or a list holding a non-object raises AttributeError. *)
Theorem parse_contracts_skips_unparseable :
  (forall r : Raw.t, unparseable r = true -> record_rows r = Ok [])
  /\ (forall data : list Raw.t,
        parse_contracts data =
          concat_mapM record_rows
            (filter (fun r => negb (unparseable r))
                    (drop_duplicates (sort_values data))))
  /\ (forall data : list Raw.t,
        (forall r, In r data -> unparseable r = true) ->
        parse_contracts data = Ok [])
  /\ (forall (r : Raw.t) (s : string) (j : json),
        Raw.contracts r = Some s -> s <> EmptyString ->
        json_loads s = Some j ->
        match j with
        | JNull | JBool _ | JNumber _ => record_rows r = Raise TypeError
        | JString t => t <> EmptyString -> record_rows r = Raise AttributeError
        | JArray items =>
            (exists x, In x items /\ is_object x = false) ->
            record_rows r = Raise AttributeError
        | JObject _ => exists row, record_rows r = Ok [row]
        end).
Proof.
  assert (Hskip : forall data : list Raw.t,
    parse_contracts data =
      concat_mapM record_rows
        (filter (fun r => negb (unparseable r))
                (drop_duplicates (sort_values data)))).
  { intros data. unfold parse_contracts.
    apply concat_mapM_skip. exact record_rows_unparseable. }
  split; [exact record_rows_unparseable|]. split; [exact Hskip|]. split.
  - intros data Hall. rewrite Hskip.
    replace (filter (fun r => negb (unparseable r))
               (drop_duplicates (sort_values data))) with (@nil Raw.t);
      [reflexivity|].
    symmetry. apply filter_none. intros r Hr.
    apply drop_duplicates_incl in Hr.
    apply (Permutation_in _ (Permutation_sym (sort_values_perm data))) in Hr.
    rewrite (Hall r Hr). reflexivity.
  - intros r s j Hc Hne Hj. unfold record_rows. rewrite Hc.
    apply String.eqb_neq in Hne. rewrite Hne, Hj.
    destruct j as [| b | n | t | items | d]; try reflexivity.
    + intros Ht. destruct t as [|c t]; [congruence|]. reflexivity.
    + intros Hbad. cbn [contracts_items bind].
      now apply mapM_contract_row_raises.
    + eexists. reflexivity.
Qed.

End Unparseable.

Lemma parse_contracts_skips_unparseable_witness :
  let bad1 := Scenario.record 3 "2024-03-01" None in
  let bad2 := Scenario.record 6 "2024-03-01" (Some "{not json"%string) in
  let bad3 := Scenario.record 8 "2024-03-01" (Some ""%string) in
  let good := Scenario.record 4 "2024-03-02" (Some Scenario.payload_E) in
  record_rows (lib := Scenario.lib) bad2 = Ok []
  /\ parse_contracts (lib := Scenario.lib) [bad1; bad2; bad3] = Ok []
  /\ parse_contracts (lib := Scenario.lib) [bad1; good; bad2; bad3]
     = parse_contracts (lib := Scenario.lib) [good]
  /\ record_rows (lib := Scenario.lib)
       (Scenario.record 9 "2024-03-01" (Some "[1]"%string))
     = Raise AttributeError.
Proof.
  intros bad1 bad2 bad3 good.
  destruct (parse_contracts_skips_unparseable (lib := Scenario.lib))
    as [Hrec [Hskip [Hall Hshape]]].
  split; [apply Hrec; reflexivity|]. split.
  - apply Hall. intros r [<-|[<-|[<-|[]]]]; reflexivity.
  - split.
    + rewrite Hskip. reflexivity.
    + refine (Hshape (Scenario.record 9 "2024-03-01" (Some "[1]"%string))
                "[1]"%string (JArray [JNumber 1]) eq_refl _ eq_refl _).
      * discriminate.
      * exists (JNumber 1). split; [left|]; reflexivity.
Defined.

(** ** From the raw records to the output: which ids appear *)

Lemma typed_ids (df : list Frame.row) (rows : list Row.t) :
  typed df = Some rows -> map Row.id rows = map Frame.id df.
Proof.
  revert rows. induction df as [|r df IH]; intros rows; simpl.
  - intros [= <-]. reflexivity.
  - destruct (typed_row r) as [r'|] eqn:Hr; [|discriminate].
    destruct (typed df) as [rest|]; [|discriminate].
    intros [= <-]. simpl. rewrite (IH rest eq_refl). f_equal.
    unfold typed_row in Hr.
    destruct (Frame.application_date r), (Frame.summa r), (Frame.loan_summa r),
      (Frame.claim_date r), (Frame.contract_date r); try discriminate.
    injection Hr as <-. reflexivity.
Qed.

Lemma groupby_apply_keys (f : list Row.t -> result num) (df : list Row.t)
    (out : list (Z * num)) (k : Z) (v : num) :
  groupby_apply f df = Ok out -> In (k, v) out -> In k (group_keys df).
Proof.
  intros Hout Hin. destruct (groupby_apply_inv _ _ _ Hout) as [_ [_ ->]].
  apply in_map_iff in Hin. destruct Hin as [k' [[= -> _] Hk]]. exact Hk.
Qed.

Lemma merge_In_left {A B : Type} (left : list (Z * A)) (right : list (Z * B))
    (k : Z) (x : A * B) :
  In (k, x) (merge left right) -> In (k, fst x) left.
Proof.
  unfold merge. intros Hin. apply in_flat_map in Hin.
  destruct Hin as [[k' a] [Hl Hin]]. apply in_map_iff in Hin.
  destruct Hin as [[k'' b] [[= <- <-] _]]. exact Hl.
Qed.

Lemma features_df_ids (data : list Row.t) (out : list Features.t)
    (o : Features.t) :
  features_df data = Ok out -> In o out ->
  exists r, In r data /\ Row.id r = Features.id o.
Proof.
  unfold features_df.
  destruct (calculate_tot_claim_cnt_l180d data) as [tot|e] eqn:Htot; simpl;
    [|discriminate].
  destruct (calculate_disb_bank_loan_wo_tbc data) as [disb|e]; simpl;
    [|discriminate].
  destruct (calculate_day_sinlastloan data) as [day|e]; simpl; [|discriminate].
  intros [= <-] Hin. apply in_map_iff in Hin.
  destruct Hin as [[k [[[t d] y] app]] [<- Hin]]. cbn [Features.id].
  apply merge_In_left, merge_In_left, merge_In_left in Hin. cbn [fst] in Hin.
  apply (groupby_apply_keys _ _ _ _ _ Htot) in Hin.
  now apply group_keys_In.
Qed.

Section Ids.

Context {lib : PyLib}.

Lemma parse_contracts_ids (data : list Raw.t) (rows : list Frame.row)
    (row : Frame.row) :
  parse_contracts data = Ok rows -> In row rows ->
  exists r, In r data /\ unparseable r = false /\ Raw.id r = Frame.id row.
Proof.
  unfold parse_contracts. intros Hrows Hin.
  destruct (concat_mapM_In _ _ _ _ Hrows Hin) as [r [ys [Hr [Hys Hy]]]].
  destruct (record_rows_In r ys row Hys Hy) as [Hu Hid].
  exists r. split; [|auto].
  apply drop_duplicates_incl in Hr.
  now apply (Permutation_in _ (Permutation_sym (sort_values_perm data))).
Qed.

Lemma convert_data_types_ids (df df' : list Frame.row) (by_explode : bool) :
  convert_data_types df by_explode = Ok df' ->
  map Frame.id df' = map Frame.id df.
Proof.
  rewrite convert_data_types_eq. destruct df as [|r df]; [discriminate|].
  assert (Hcols : forall d, map Frame.id (coerce_columns d) = map Frame.id d)
    by (intros d; unfold coerce_columns; now rewrite map_map).
  destruct by_explode.
  - intros [= <-]. apply Hcols.
  - destruct (str_accessor _); simpl; [|discriminate].
    intros [= <-]. rewrite Hcols. unfold coerce_application_date.
    now rewrite map_map.
Qed.

(** After [convert_data_types(df)] every date column is datetime64 and
    every amount column numeric. *)
Lemma typed_after_convert (df df' : list Frame.row) :
  convert_data_types df false = Ok df' -> exists rows, typed df' = Some rows.
Proof.
  rewrite convert_data_types_eq. destruct df as [|r df]; [discriminate|].
  destruct (str_accessor _); simpl; [|discriminate].
  intros [= <-].
  assert (Happ : Forall (fun x => is_datetime (Frame.application_date x) = true)
                   (coerce_application_date (r :: df))).
  { apply Forall_forall. intros x Hx.
    assert (H := coerce_application_date_datetime (r :: df)).
    rewrite forallb_forall in H. apply H. now apply in_map. }
  revert Happ. generalize (coerce_application_date (r :: df)). intros d Happ.
  unfold coerce_columns.
  generalize (map Frame.summa d), (map Frame.loan_summa d). intros c1 c2.
  induction d as [|x d IH]; [exists []; reflexivity|].
  inversion Happ as [|? ? Hx Hd]; subst.
  destruct (IH Hd) as [rows Hrows]. cbn [map typed]. rewrite Hrows.
  unfold typed_row. cbn.
  destruct (Frame.application_date x) as [o|t]; [discriminate|].
  unfold to_numeric.
  destruct (Frame.claim_date x) as [[s|]|t1];
    destruct (Frame.contract_date x) as [[s'|]|t2]; cbn; eauto.
Qed.

(** C1, as the claim states it, fails: application_dates is taken from
    the table parse_contracts returns, so an application whose contracts
    are null has no row there and none in features_df; and when no
    record at all has a contract, [df['id']] is a KeyError. *)
Lemma application_without_contracts_is_dropped :
  let data :=
    [Scenario.record 1 "2024-03-01" (Some Scenario.payload_A);
     Scenario.record 3 "2024-03-01" None] in
  pipeline (lib := Scenario.lib) data
  = Ok [{| Features.id := 1;
           Features.application_date := Some (Timestamp 2024 3 1);
           Features.tot_claim_cnt_l180d := VInt 1;
           Features.disb_bank_loan_wo_tbc := VInt 1000;
           Features.day_sinlastloan := VInt (-1) |}]
  /\ ~ (exists out row,
          pipeline (lib := Scenario.lib) data = Ok out
          /\ In row out
          /\ Features.id row = 3
          /\ Features.tot_claim_cnt_l180d row = VInt (-3)
          /\ to_float (Features.disb_bank_loan_wo_tbc row) = float_of_Z (-1)
          /\ Features.day_sinlastloan row = VInt (-1))
  /\ pipeline (lib := Scenario.lib) [Scenario.record 3 "2024-03-01" None]
     = Raise KeyError.
Proof.
  intros data.
  assert (Hrun : pipeline (lib := Scenario.lib) data
    = Ok [{| Features.id := 1;
             Features.application_date := Some (Timestamp 2024 3 1);
             Features.tot_claim_cnt_l180d := VInt 1;
             Features.disb_bank_loan_wo_tbc := VInt 1000;
             Features.day_sinlastloan := VInt (-1) |}])
    by (vm_compute; reflexivity).
  split; [exact Hrun|]. split; [|vm_compute; reflexivity].
  intros [out [row [Hout [Hin [Hid _]]]]]. rewrite Hrun in Hout.
  injection Hout as <-. destruct Hin as [<-|[]]. discriminate Hid.
Qed.

(** C1, amended. An application that has no row in the table
    parse_contracts returns has no row in the final output; such is every
    application whose records all have a contracts payload that is null,
    empty or not JSON. Every row of the output carries the id of a record
    whose payload was parsed. *)
Theorem application_without_contract_rows_absent :
  forall (data : list Raw.t) (out : list Features.t),
    pipeline data = Ok out ->
    (forall o, In o out ->
       exists r, In r data /\ Raw.id r = Features.id o /\ unparseable r = false)
    /\ (forall (i : Z) (rows : list Frame.row),
          parse_contracts data = Ok rows ->
          (forall row, In row rows -> Frame.id row <> i) ->
          forall o, In o out -> Features.id o <> i)
    /\ (forall i : Z,
          (forall r, In r data -> Raw.id r = i -> unparseable r = true) ->
          forall o, In o out -> Features.id o <> i).
Proof.
  intros data out Hrun. unfold pipeline in Hrun.
  destruct (parse_contracts data) as [df|e] eqn:Hparse; simpl in Hrun;
    [|discriminate].
  destruct (convert_data_types df false) as [df'|e] eqn:Hconv; simpl in Hrun;
    [|discriminate].
  destruct (typed df') as [rows'|] eqn:Htyped; [|discriminate].
  assert (Hsrc : forall o, In o out ->
            exists row, In row df /\ Frame.id row = Features.id o).
  { intros o Ho.
    destruct (features_df_ids _ _ _ Hrun Ho) as [r [Hr Hid]].
    assert (Hin : In (Features.id o) (map Frame.id df)).
    { rewrite <- (convert_data_types_ids _ _ _ Hconv), <- (typed_ids _ _ Htyped).
      rewrite <- Hid. now apply in_map. }
    apply in_map_iff in Hin. destruct Hin as [row [Hrow Hin]]. eauto. }
  assert (Hrec : forall o, In o out ->
            exists r, In r data /\ Raw.id r = Features.id o
                      /\ unparseable r = false).
  { intros o Ho. destruct (Hsrc o Ho) as [row [Hrow Hid]].
    destruct (parse_contracts_ids _ _ _ Hparse Hrow) as [r [Hr [Hu Hrid]]].
    exists r. split; [exact Hr|]. split; [congruence|exact Hu]. }
  split; [exact Hrec|]. split.
  - intros i rows [= <-] Hnone o Ho Hi.
    destruct (Hsrc o Ho) as [row [Hrow Hid]].
    apply (Hnone row Hrow). congruence.
  - intros i Hall o Ho Hi.
    destruct (Hrec o Ho) as [r [Hr [Hid Hu]]].
    rewrite (Hall r Hr) in Hu; [discriminate|congruence].
Qed.

End Ids.

Lemma application_without_contract_rows_absent_witness :
  let data :=
    [Scenario.record 1 "2024-03-01" (Some Scenario.payload_A);
     Scenario.record 3 "2024-03-01" None] in
  let out :=
    [{| Features.id := 1;
        Features.application_date := Some (Timestamp 2024 3 1);
        Features.tot_claim_cnt_l180d := VInt 1;
        Features.disb_bank_loan_wo_tbc := VInt 1000;
        Features.day_sinlastloan := VInt (-1) |}] in
  pipeline (lib := Scenario.lib) data = Ok out
  /\ forall o, In o out -> Features.id o <> 3.
Proof.
  intros data out.
  assert (Hrun : pipeline (lib := Scenario.lib) data = Ok out)
    by (vm_compute; reflexivity).
  split; [exact Hrun|].
  destruct (application_without_contract_rows_absent (lib := Scenario.lib)
              data out Hrun) as [_ [_ H]].
  apply (H 3). intros r [<-|[<-|[]]]; [discriminate|reflexivity].
Defined.

(** * Further properties of the notebook's code *)

(** ** parse_contracts: the rows of a record, and the first line *)

Lemma mapM_contract_row_objects (r : Raw.t)
    (ds : list (list (string * option string))) :
  mapM (contract_row (Raw.id r) (Raw.application_date r)) (map JObject ds)
  = Ok (map (row_of r) ds).
Proof.
  induction ds as [|d ds IH]; [reflexivity|].
  cbn [map mapM contract_row bind]. rewrite IH. reflexivity.
Qed.

Lemma same_contracts_eq (r1 r2 : Raw.t) :
  same_contracts r1 r2 = true <-> Raw.contracts r1 = Raw.contracts r2.
Proof.
  unfold same_contracts.
  destruct (Raw.contracts r1) as [x|], (Raw.contracts r2) as [y|];
    try (split; [discriminate|discriminate]); [|tauto].
  rewrite String.eqb_eq. split; [intros ->; reflexivity|intros [= ->]; reflexivity].
Qed.

Lemma existsb_same_contracts (r : Raw.t) (l : list Raw.t) :
  existsb (same_contracts r) l = true <->
  In (Raw.contracts r) (map Raw.contracts l).
Proof.
  rewrite existsb_exists, in_map_iff. split.
  - intros [x [Hx Hs]]. exists x. split; [|exact Hx].
    symmetry. now apply same_contracts_eq.
  - intros [x [Hc Hx]]. exists x. split; [exact Hx|].
    apply same_contracts_eq. now symmetry.
Qed.

Lemma drop_duplicates_contracts (l : list Raw.t) (c : option string) :
  In c (map Raw.contracts l) <-> In c (map Raw.contracts (drop_duplicates l)).
Proof.
  induction l as [|x l IH]; simpl; [tauto|].
  destruct (existsb (same_contracts x) l) eqn:Hdup.
  - rewrite <- IH. apply existsb_same_contracts in Hdup.
    split; [intros [<-|H]; auto|auto].
  - simpl. rewrite IH. tauto.
Qed.

Lemma drop_duplicates_nodup (l : list Raw.t) :
  NoDup (map Raw.contracts (drop_duplicates l)).
Proof.
  induction l as [|x l IH]; simpl; [constructor|].
  destruct (existsb (same_contracts x) l) eqn:Hdup; [exact IH|].
  simpl. constructor; [|exact IH].
  intros Hin. apply drop_duplicates_contracts in Hin.
  apply existsb_same_contracts in Hin. congruence.
Qed.

Lemma drop_duplicates_idem (l : list Raw.t) :
  drop_duplicates (drop_duplicates l) = drop_duplicates l.
Proof.
  induction l as [|x l IH]; simpl; [reflexivity|].
  destruct (existsb (same_contracts x) l) eqn:Hdup; [exact IH|].
  simpl. rewrite IH.
  replace (existsb (same_contracts x) (drop_duplicates l)) with false;
    [reflexivity|].
  symmetry. apply not_true_is_false. intros H.
  apply existsb_same_contracts in H. apply drop_duplicates_contracts in H.
  apply existsb_same_contracts in H. congruence.
Qed.

Lemma drop_duplicates_strongly_sorted (l : list Raw.t) :
  StronglySorted key_le l -> StronglySorted key_le (drop_duplicates l).
Proof.
  induction l as [|x l IH]; intros Hs; simpl; [constructor|].
  inversion Hs as [|? ? Hl Hall]; subst.
  destruct (existsb (same_contracts x) l); [now apply IH|].
  constructor; [now apply IH|].
  rewrite Forall_forall in *. intros y Hy. apply Hall.
  now apply drop_duplicates_incl.
Qed.

Lemma sort_values_of_sorted (l : list Raw.t) :
  StronglySorted key_le l -> sort_values l = l.
Proof.
  induction l as [|x l IH]; intros Hs; simpl; [reflexivity|].
  inversion Hs as [|? ? Hl Hall]; subst. rewrite (IH Hl).
  destruct l as [|y l]; [reflexivity|]. simpl.
  inversion Hall as [|? ? Hxy _]; subst. unfold key_le in Hxy. now rewrite Hxy.
Qed.

Lemma sorted_unique_idem (data : list Raw.t) :
  sorted_unique (sorted_unique data) = sorted_unique data.
Proof.
  unfold sorted_unique.
  rewrite sort_values_of_sorted.
  - apply drop_duplicates_idem.
  - apply drop_duplicates_strongly_sorted, sort_values_strongly_sorted.
Qed.

Lemma key_le_antisym (r1 r2 : Raw.t) : key_le r1 r2 -> key_le r2 r1 -> r1 = r2.
Proof.
  rewrite !key_le_lex.
  intros [H12|[E12 H12]] [H21|[E21 H21]]; try lia.
  assert (Hd : Raw.application_date r1 = Raw.application_date r2).
  { destruct H12 as [L12|[D12 _]]; [|exact D12].
    destruct H21 as [L21|[D21 _]]; [|now symmetry].
    rewrite (cell_compare_antisym (Raw.application_date r1)) in L21.
    rewrite L12 in L21. discriminate. }
  assert (Hc : Raw.contracts r1 = Raw.contracts r2).
  { destruct H12 as [L12|[_ C12]];
      [rewrite Hd, cell_compare_refl in L12; discriminate|].
    destruct H21 as [L21|[_ C21]];
      [rewrite Hd, cell_compare_refl in L21; discriminate|].
    rewrite (cell_compare_antisym (Raw.contracts r1)) in C21.
    destruct (cell_compare (Raw.contracts r1) (Raw.contracts r2)) eqn:E;
      [now apply cell_compare_eq|simpl in C21; congruence|congruence]. }
  destruct r1, r2. simpl in *. congruence.
Qed.

Lemma sorted_perm_unique (l1 l2 : list Raw.t) :
  StronglySorted key_le l1 -> StronglySorted key_le l2 ->
  Permutation l1 l2 -> l1 = l2.
Proof.
  revert l2. induction l1 as [|x l1 IH]; intros l2 H1 H2 Hp.
  - apply Permutation_nil in Hp. now subst.
  - destruct l2 as [|y l2];
      [apply Permutation_sym, Permutation_nil in Hp; discriminate|].
    inversion H1 as [|? ? Hs1 Ha1]; subst.
    inversion H2 as [|? ? Hs2 Ha2]; subst.
    rewrite Forall_forall in Ha1, Ha2.
    assert (Hxy : x = y).
    { assert (Hx : In x (y :: l2))
        by (apply (Permutation_in _ Hp); left; reflexivity).
      assert (Hy : In y (x :: l1))
        by (apply (Permutation_in _ (Permutation_sym Hp)); left; reflexivity).
      destruct Hx as [Hx|Hx]; [now symmetry|].
      destruct Hy as [Hy|Hy]; [exact Hy|].
      apply key_le_antisym; [now apply Ha1|now apply Ha2]. }
    subst y. f_equal. apply IH; [exact Hs1|exact Hs2|].
    now apply Permutation_cons_inv in Hp.
Qed.

Lemma sort_values_perm_eq (data data' : list Raw.t) :
  Permutation data data' -> sort_values data = sort_values data'.
Proof.
  intros Hp. apply sorted_perm_unique; try apply sort_values_strongly_sorted.
  rewrite <- (sort_values_perm data), <- (sort_values_perm data'). exact Hp.
Qed.

Section NormalizerFacts.

Context {lib : PyLib}.

Lemma parse_contracts_survivor (data : list Raw.t) (rows : list Frame.row)
    (row : Frame.row) :
  parse_contracts data = Ok rows -> In row rows ->
  exists r, In r (sorted_unique data) /\ Raw.id r = Frame.id row.
Proof.
  unfold parse_contracts. intros Hrows Hin.
  destruct (concat_mapM_In _ _ _ _ Hrows Hin) as [r [ys [Hr [Hys Hy]]]].
  destruct (record_rows_In r ys row Hys Hy) as [_ Hid].
  exists r. split; [exact Hr|now symmetry].
Qed.

Lemma pipeline_row_source (data : list Raw.t) (out : list Features.t)
    (o : Features.t) :
  pipeline data = Ok out -> In o out ->
  exists rows row,
    parse_contracts data = Ok rows /\ In row rows
    /\ Frame.id row = Features.id o.
Proof.
  unfold pipeline. intros Hrun Ho.
  destruct (parse_contracts data) as [df|e]; simpl in Hrun; [|discriminate].
  destruct (convert_data_types df false) as [df'|e] eqn:Hconv; simpl in Hrun;
    [|discriminate].
  destruct (typed df') as [rows'|] eqn:Htyped; [|discriminate].
  destruct (features_df_ids _ _ _ Hrun Ho) as [r [Hr Hid]].
  assert (Hin : In (Features.id o) (map Frame.id df)).
  { rewrite <- (convert_data_types_ids _ _ _ Hconv), <- (typed_ids _ _ Htyped).
    rewrite <- Hid. now apply in_map. }
  apply in_map_iff in Hin. destruct Hin as [row [Hrow Hin]].
  exists df, row. auto.
Qed.

(** X1. A payload that decodes to a list of objects gives one row per
    object, in the order of the list, each carrying the id and the
    application_date text of its record and the seven attributes read
    with [.get] (an absent or null member is None, never an error); a
    payload that is a single object gives the row of the one-element
    list. *)
Theorem record_rows_one_row_per_contract :
  forall (r : Raw.t) (s : string),
    Raw.contracts r = Some s -> s <> EmptyString ->
    (forall ds, json_loads s = Some (JArray (map JObject ds)) ->
       record_rows r = Ok (map (row_of r) ds)
       /\ List.length (map (row_of r) ds) = List.length ds)
    /\ (forall d, json_loads s = Some (JObject d) ->
          record_rows r = Ok [row_of r d]).
Proof.
  intros r s Hc Hne. apply String.eqb_neq in Hne. split.
  - intros ds Hj. split; [|apply length_map].
    unfold record_rows. rewrite Hc, Hne, Hj. cbn [contracts_items bind].
    apply mapM_contract_row_objects.
  - intros d Hj. unfold record_rows. rewrite Hc, Hne, Hj. reflexivity.
Qed.

(** X2. The first line of parse_contracts is idempotent: sorting and
    dropping duplicates once more changes nothing, so parse_contracts run
    on the records it kept returns what it returned on the whole input. *)
Theorem sort_drop_duplicates_idempotent :
  forall data : list Raw.t,
    sorted_unique (sorted_unique data) = sorted_unique data
    /\ parse_contracts (sorted_unique data) = parse_contracts data.
Proof.
  intros data. split; [apply sorted_unique_idem|].
  unfold parse_contracts. fold (sorted_unique (sorted_unique data)).
  now rewrite sorted_unique_idem.
Qed.

(** X3. After the first line of parse_contracts no two records hold the
    same contracts value (two empty cells count as the same), every
    contracts value of the input is still held by a record, and no record
    is invented. *)
Theorem drop_duplicates_one_record_per_contracts :
  forall data : list Raw.t,
    NoDup (map Raw.contracts (sorted_unique data))
    /\ (forall c, In c (map Raw.contracts data) <->
                  In c (map Raw.contracts (sorted_unique data)))
    /\ (forall r, In r (sorted_unique data) -> In r data).
Proof.
  intros data. unfold sorted_unique. split; [apply drop_duplicates_nodup|].
  split.
  - intros c. rewrite <- drop_duplicates_contracts. split; intros H.
    + apply (Permutation_in _ (Permutation_map _ (sort_values_perm data)) H).
    + apply (Permutation_in _
               (Permutation_sym (Permutation_map _ (sort_values_perm data))) H).
  - intros r Hr. apply drop_duplicates_incl in Hr.
    now apply (Permutation_in _ (Permutation_sym (sort_values_perm data))).
Qed.

(** X4. Duplicates are dropped across applications: when every record of
    application [i] has the contracts text of a record with a larger id,
    parse_contracts emits no row for [i] and the final output has no row
    for it. *)
Theorem application_with_repeated_contracts_dropped :
  forall (data : list Raw.t) (i : Z),
    (forall r, In r data -> Raw.id r = i ->
       exists r', In r' data /\ Raw.contracts r' = Raw.contracts r
                  /\ i < Raw.id r') ->
    (forall rows, parse_contracts data = Ok rows ->
       forall row, In row rows -> Frame.id row <> i)
    /\ (forall out, pipeline data = Ok out ->
          forall o, In o out -> Features.id o <> i).
Proof.
  intros data i Hdup.
  assert (Hrows : forall rows, parse_contracts data = Ok rows ->
            forall row, In row rows -> Frame.id row <> i).
  { intros rows Hparse row Hrow Hi.
    destruct (parse_contracts_survivor _ _ _ Hparse Hrow) as [r [Hr Hid]].
    assert (Hdata : In r data).
    { apply drop_duplicates_incl in Hr.
      now apply (Permutation_in _ (Permutation_sym (sort_values_perm data))). }
    destruct (Hdup r Hdata) as [r' [Hr' [Hc Hlt]]]; [congruence|].
    assert (Hle : key_le r' r).
    { apply (drop_duplicates_greatest data r r' Hr Hr').
      apply same_contracts_eq. now symmetry. }
    apply key_le_lex in Hle. destruct Hle as [H|[H _]]; lia. }
  split; [exact Hrows|].
  intros out Hrun o Ho Hi.
  destruct (pipeline_row_source _ _ _ Hrun Ho) as [rows [row [Hp [Hrow Hid]]]].
  apply (Hrows rows Hp row Hrow). congruence.
Qed.

(** X5. The order of the rows of the input table is irrelevant: two
    tables with the same rows in another order are sorted to the same
    table, and parse_contracts and the whole pipeline return the same
    result on them. *)
Theorem parse_contracts_row_order_irrelevant :
  forall data data' : list Raw.t,
    Permutation data data' ->
    sort_values data = sort_values data'
    /\ parse_contracts data = parse_contracts data'
    /\ pipeline data = pipeline data'.
Proof.
  intros data data' Hp.
  assert (Hs := sort_values_perm_eq data data' Hp).
  assert (Hparse : parse_contracts data = parse_contracts data')
    by (unfold parse_contracts; now rewrite Hs).
  split; [exact Hs|]. split; [exact Hparse|].
  unfold pipeline. now rewrite Hparse.
Qed.

End NormalizerFacts.

Lemma record_rows_one_row_per_contract_witness :
  record_rows (lib := Scenario.lib)
    (Scenario.record 1 "2024-03-01" (Some Scenario.payload_A))
  = Ok [row_of (Scenario.record 1 "2024-03-01" (Some Scenario.payload_A))
          [("bank", Some "ALPHA"); ("loan_summa", Some "1000");
           ("contract_date", Some "01.01.2024");
           ("claim_date", Some "01.01.2024")]%string].
Proof.
  destruct (record_rows_one_row_per_contract (lib := Scenario.lib)
              (Scenario.record 1 "2024-03-01" (Some Scenario.payload_A))
              Scenario.payload_A eq_refl) as [H _]; [discriminate|].
  exact (proj1 (H [[("bank", Some "ALPHA"); ("loan_summa", Some "1000");
                    ("contract_date", Some "01.01.2024");
                    ("claim_date", Some "01.01.2024")]%string] eq_refl)).
Defined.

Lemma application_with_repeated_contracts_dropped_witness :
  let data :=
    [Scenario.record 1 "2024-03-05" (Some Scenario.payload_A);
     Scenario.record 2 "2024-03-01" (Some Scenario.payload_A)] in
  pipeline (lib := Scenario.lib) data
  = Ok [{| Features.id := 2;
           Features.application_date := Some (Timestamp 2024 3 1);
           Features.tot_claim_cnt_l180d := VInt 1;
           Features.disb_bank_loan_wo_tbc := VInt 1000;
           Features.day_sinlastloan := VInt (-1) |}]
  /\ (forall out, pipeline (lib := Scenario.lib) data = Ok out ->
        forall o, In o out -> Features.id o <> 1).
Proof.
  intros data. split; [vm_compute; reflexivity|].
  apply (application_with_repeated_contracts_dropped (lib := Scenario.lib) data 1).
  intros r [<-|[<-|[]]]; [|discriminate].
  intros _. exists (Scenario.record 2 "2024-03-01" (Some Scenario.payload_A)).
  split; [right; left; reflexivity|]. split; [reflexivity|reflexivity].
Defined.

Lemma parse_contracts_row_order_irrelevant_witness :
  let a := Scenario.record 1 "2024-03-01" (Some Scenario.payload_A) in
  let b := Scenario.record 5 "2024-02-01" (Some Scenario.payload_E) in
  pipeline (lib := Scenario.lib) [a; b] = pipeline (lib := Scenario.lib) [b; a].
Proof.
  intros a b.
  exact (proj2 (proj2 (parse_contracts_row_order_irrelevant
                         (lib := Scenario.lib) [a; b] [b; a] (perm_swap b a [])))).
Defined.

(** ** The feature functions: ranges and edge cases *)

Lemma window_count_NaT (rows : list Row.t) : window_count None rows = 0.
Proof. induction rows as [|r rows IH]; simpl; [reflexivity|exact IH]. Qed.

Lemma sum_loans_wo_tbc_range (sub_df : list Row.t) :
  sum_loans_wo_tbc sub_df = VInt (-1)
  \/ sum_loans_wo_tbc sub_df = VInt (-3)
  \/ num_gt0 (sum_loans_wo_tbc sub_df) = true.
Proof.
  rewrite sum_loans_wo_tbc_eq. cbv zeta.
  destruct (filter eligible_loan sub_df) as [|r rs]; [auto|].
  destruct (num_gt0 (series_sum _)) eqn:Hgt; auto.
Qed.

(** *** The sum of a column of zeros *)

Lemma zeros_split (n : nat) (a : list float) :
  Forall (eq fzero) a ->
  Forall (eq fzero) (firstn n a) /\ Forall (eq fzero) (skipn n a).
Proof.
  intros H. rewrite <- (firstn_skipn n a) in H. now apply Forall_app in H.
Qed.

Lemma fold_fadd_zeros (a : list float) :
  Forall (eq fzero) a -> fold_left fadd a fzero = fzero.
Proof.
  induction 1 as [|x a Hx _ IH]; [reflexivity|]. subst x. simpl. exact IH.
Qed.

Lemma add8_zeros (r chunk : list float) :
  Forall (eq fzero) r -> Forall (eq fzero) chunk ->
  Forall (eq fzero) (add8 r chunk).
Proof.
  intros Hr. revert chunk. unfold add8.
  induction Hr as [|x r Hx _ IH]; intros chunk Hc; [constructor|].
  destruct Hc as [|y chunk Hy Hc]; [constructor|]. subst x y.
  cbn [combine map fst snd]. constructor; [reflexivity|now apply IH].
Qed.

Lemma unrolled_zeros (blocks : nat) (r a : list float) :
  Forall (eq fzero) r -> Forall (eq fzero) a ->
  Forall (eq fzero) (fst (unrolled blocks r a))
  /\ Forall (eq fzero) (snd (unrolled blocks r a)).
Proof.
  revert r a. induction blocks as [|blocks IH]; intros r a Hr Ha; [now split|].
  cbn [unrolled]. destruct (zeros_split 8 a Ha) as [H1 H2].
  apply IH; [now apply add8_zeros|exact H2].
Qed.

Lemma nth_zeros (i : nat) (r : list float) :
  Forall (eq fzero) r -> nth i r fzero = fzero.
Proof.
  intros Hr. destruct (nth_in_or_default i r fzero) as [Hin | ->]; [|reflexivity].
  rewrite Forall_forall in Hr. symmetry. now apply Hr.
Qed.

Lemma block_sum_zeros (a : list float) :
  Forall (eq fzero) a -> block_sum a = fzero.
Proof.
  intros Ha. unfold block_sum. destruct (zeros_split 8 a Ha) as [H1 H2].
  destruct (unrolled_zeros (List.length a / 8 - 1) _ _ H1 H2) as [Hr Hrest].
  destruct (unrolled _ _ _) as [r rest]. cbn [fst snd] in *.
  rewrite !(nth_zeros _ r Hr). now apply fold_fadd_zeros.
Qed.

Lemma pairwise_sum_zeros (fuel : nat) (a : list float) :
  Forall (eq fzero) a -> pairwise_sum fuel a = fzero.
Proof.
  revert a. induction fuel as [|fuel IH]; intros a Ha; cbn [pairwise_sum];
    destruct (List.length a <? 8)%nat; try (now apply fold_fadd_zeros);
    destruct (List.length a <=? 128)%nat; try (now apply block_sum_zeros);
    [reflexivity|].
  destruct (zeros_split (List.length a / 2 - (List.length a / 2) mod 8) a Ha)
    as [H1 H2].
  rewrite (IH _ H1), (IH _ H2). reflexivity.
Qed.

(** The bound on the depth of the splitting is never reached: any fuel
    that is at least the length of the array gives the same sum. *)
Lemma pairwise_sum_fuel (fuel fuel' : nat) (a : list float) :
  (List.length a <= fuel)%nat -> (List.length a <= fuel')%nat ->
  pairwise_sum fuel a = pairwise_sum fuel' a.
Proof.
  revert fuel' a. induction fuel as [|fuel IH]; intros fuel' a H H'.
  - destruct a; [|simpl in H; lia]. destruct fuel'; reflexivity.
  - destruct fuel' as [|fuel'].
    + destruct a; [reflexivity|simpl in H'; lia].
    + cbn [pairwise_sum].
      destruct (List.length a <? 8)%nat eqn:H8; [reflexivity|].
      destruct (List.length a <=? 128)%nat eqn:H128; [reflexivity|].
      apply Nat.leb_gt in H128.
      set (n := List.length a) in *.
      set (n2 := (n / 2 - (n / 2) mod 8)%nat).
      assert (Hhalf : (64 <= n / 2 < n)%nat).
      { split; [apply Nat.div_le_lower_bound; lia|].
        apply Nat.Div0.div_lt_upper_bound; lia. }
      assert (Hmod : ((n / 2) mod 8 < 8)%nat) by (apply Nat.mod_upper_bound; lia).
      assert (Hn2 : (1 <= n2 < n)%nat) by (unfold n2; lia).
      f_equal; apply IH; rewrite ?length_firstn, ?length_skipn; fold n; lia.
Qed.

Lemma series_sum_all_missing (col : list num) :
  col <> [] -> (forall n, In n col -> num_notna n = false) ->
  series_sum col = VFloat fzero.
Proof.
  intros Hne Hna. unfold series_sum.
  assert (Hints : forallb is_int col = false).
  { destruct col as [|n col]; [congruence|].
    specialize (Hna n (or_introl eq_refl)). destruct n; [discriminate|reflexivity]. }
  rewrite Hints. f_equal. unfold float_sum. apply pairwise_sum_zeros.
  apply Forall_forall. intros f Hf. apply in_map_iff in Hf.
  destruct Hf as [g [<- Hg]]. apply in_map_iff in Hg. destruct Hg as [n [<- Hn]].
  specialize (Hna n Hn). destruct n as [z|f]; [discriminate|].
  simpl in *. unfold nan_to_zero. now destruct (is_nan f).
Qed.

(** X6. What the three per-group functions can return. sum_loans_wo_tbc
    gives -1, -3 or a sum > 0. Whenever days_since_last_loan returns,
    the value is the integer -1, -3 or a day count between 1 and 106751
    (the whole days of the largest Timedelta); on an empty frame it
    returns -1. Whenever claims_in_last_180_days returns, the value is
    -3 or a count between 1 and the number of rows of the group; on an
    empty frame [.iloc[0]] raises IndexError. *)
Theorem feature_values_sentinel_or_positive :
  (forall sub_df : list Row.t,
      sum_loans_wo_tbc sub_df = VInt (-1)
      \/ sum_loans_wo_tbc sub_df = VInt (-3)
      \/ num_gt0 (sum_loans_wo_tbc sub_df) = true)
  /\ (forall (sub_df : list Row.t) (v : num),
        days_since_last_loan sub_df = Ok v ->
        exists z, v = VInt z /\ (z = -1 \/ z = -3 \/ 1 <= z <= 106751))
  /\ days_since_last_loan [] = Ok (VInt (-1))
  /\ (forall (sub_df : list Row.t) (v : num),
        claims_in_last_180_days sub_df = Ok v ->
        exists z, v = VInt z /\ (z = -3 \/ 1 <= z <= len sub_df))
  /\ claims_in_last_180_days [] = Raise IndexError.
Proof.
  split; [exact sum_loans_wo_tbc_range|].
  split; [exact days_since_last_loan_range|]. split; [reflexivity|].
  split; [exact claims_in_last_180_days_range|reflexivity].
Qed.

(** X7. Eligible loans whose amounts are all missing: when some row
    passes the filter of sum_loans_wo_tbc but no surviving row has a
    loan_summa, the sum of nothing is 0.0 and the output is -3, not -1. *)
Theorem disb_bank_loan_wo_tbc_missing_amounts :
  forall sub_df : list Row.t,
    filter eligible_loan sub_df <> [] ->
    (forall r, In r (filter eligible_loan sub_df) ->
       num_notna (Row.loan_summa r) = false) ->
    sum_loans_wo_tbc sub_df = VInt (-3).
Proof.
  intros sub_df Hne Hna. rewrite sum_loans_wo_tbc_eq. cbv zeta.
  destruct (filter eligible_loan sub_df) as [|r rs] eqn:Hs; [congruence|].
  rewrite series_sum_all_missing; [reflexivity|discriminate|].
  intros n Hn. apply in_map_iff in Hn. destruct Hn as [x [<- Hx]].
  now apply Hna.
Qed.

Lemma disb_bank_loan_wo_tbc_missing_amounts_witness :
  sum_loans_wo_tbc
    [{| Row.id := 1; Row.application_date := Some (Timestamp 2024 3 1);
        Row.contract_id := None; Row.bank := Some "ALPHA"%string;
        Row.summa := VFloat nan; Row.loan_summa := VFloat nan;
        Row.claim_date := None; Row.claim_id := None;
        Row.contract_date := Some (Timestamp 2024 1 1) |}] = VInt (-3).
Proof.
  apply disb_bank_loan_wo_tbc_missing_amounts.
  - discriminate.
  - intros r [<-|[]]. reflexivity.
Defined.

(** X8. A group whose application date is NaT (the text could not be
    read as a date) never gets a count or a day difference:
    claims_in_last_180_days gives -3, and days_since_last_loan gives -1
    when no row has a positive summa and -3 otherwise. *)
Theorem features_of_missing_application_date :
  forall (first : Row.t) (rest : list Row.t),
    Row.application_date first = None ->
    claims_in_last_180_days (first :: rest) = Ok (VInt (-3))
    /\ (filter positive_summa (first :: rest) = [] ->
        days_since_last_loan (first :: rest) = Ok (VInt (-1)))
    /\ (filter positive_summa (first :: rest) <> [] ->
        days_since_last_loan (first :: rest) = Ok (VInt (-3))).
Proof.
  intros first rest Hnat. split; [|split].
  - rewrite claims_in_last_180_days_eq by now rewrite Hnat.
    rewrite Hnat, window_count_NaT. reflexivity.
  - intros Hnil. rewrite days_since_last_loan_eq, Hnil. reflexivity.
  - intros Hne. rewrite days_since_last_loan_eq.
    destruct (filter positive_summa (first :: rest)); [congruence|].
    cbn [map iloc0 bind]. rewrite Hnat. reflexivity.
Qed.

Lemma features_of_missing_application_date_witness :
  let claim :=
    {| Row.id := 1; Row.application_date := None;
       Row.contract_id := None; Row.bank := None;
       Row.summa := VInt 750; Row.loan_summa := VFloat nan;
       Row.claim_date := Some (Timestamp 2024 1 1); Row.claim_id := None;
       Row.contract_date := Some (Timestamp 2024 1 1) |} in
  claims_in_last_180_days [claim] = Ok (VInt (-3))
  /\ days_since_last_loan [claim] = Ok (VInt (-3)).
Proof.
  intros claim.
  destruct (features_of_missing_application_date claim [] eq_refl)
    as [Hc [_ Hd]].
  split; [exact Hc|]. apply Hd. discriminate.
Defined.

(** ** features_df: one row per application date of every id *)

Lemma insert_key_hd (k y : Z) (keys : list Z) :
  y < k -> HdRel Z.lt y keys -> HdRel Z.lt y (insert_key k keys).
Proof.
  intros Hyk Hhd. destruct keys as [|x keys]; simpl; [now constructor|].
  destruct (k <? x); [now constructor|].
  destruct (k =? x); [exact Hhd|]. constructor. now inversion Hhd.
Qed.

Lemma insert_key_sorted (k : Z) (keys : list Z) :
  Sorted Z.lt keys -> Sorted Z.lt (insert_key k keys).
Proof.
  induction keys as [|x keys IH]; intros Hs; simpl.
  - repeat constructor.
  - destruct (k <? x) eqn:Hlt.
    + apply Z.ltb_lt in Hlt. constructor; [exact Hs|now constructor].
    + destruct (k =? x) eqn:Heq; [exact Hs|].
      apply Z.ltb_ge in Hlt. apply Z.eqb_neq in Heq.
      inversion Hs as [|? ? Hl Hhd]; subst. constructor.
      * now apply IH.
      * apply insert_key_hd; [lia|exact Hhd].
Qed.

Lemma group_keys_sorted (df : list Row.t) : StronglySorted Z.lt (group_keys df).
Proof.
  apply Sorted_StronglySorted; [intros a b c; apply Z.lt_trans|].
  unfold group_keys. induction df as [|r df IH]; simpl; [constructor|].
  now apply insert_key_sorted.
Qed.

Lemma strictly_sorted_nodup (keys : list Z) :
  StronglySorted Z.lt keys -> NoDup keys.
Proof.
  induction 1 as [|k keys Hs IH Hall]; constructor; [|exact IH].
  intros Hin. rewrite Forall_forall in Hall. specialize (Hall k Hin). lia.
Qed.

Lemma group_keys_nodup (df : list Row.t) : NoDup (group_keys df).
Proof. apply strictly_sorted_nodup, group_keys_sorted. Qed.

Lemma pair_eqb_eq (p q : Z * option Z) : pair_eqb p q = true <-> p = q.
Proof.
  destruct p as [i a], q as [j b]. unfold pair_eqb. cbn [fst snd]. split.
  - intros H. apply andb_true_iff in H. destruct H as [Hi Ha].
    apply Z.eqb_eq in Hi. subst j.
    destruct a as [x|], b as [y|]; try discriminate; [|reflexivity].
    apply Z.eqb_eq in Ha. now subst.
  - intros [= -> ->]. rewrite Z.eqb_refl.
    destruct b; [apply Z.eqb_refl|reflexivity].
Qed.

Lemma drop_duplicate_pairs_In (seen l : list (Z * option Z)) (p : Z * option Z) :
  In p (drop_duplicate_pairs seen l) <-> In p l /\ ~ In p seen.
Proof.
  revert seen. induction l as [|q l IH]; intros seen; simpl; [tauto|].
  destruct (existsb (pair_eqb q) seen) eqn:Hseen.
  - rewrite IH. apply existsb_exists in Hseen.
    destruct Hseen as [x [Hx Hq]]. apply pair_eqb_eq in Hq. subst x.
    split; [tauto|]. intros [[<-|H] Hn]; [contradiction|auto].
  - assert (Hq : ~ In q seen).
    { intros Hin. rewrite existsb_false in Hseen.
      specialize (Hseen q Hin). rewrite (proj2 (pair_eqb_eq q q) eq_refl) in Hseen.
      discriminate. }
    simpl. rewrite IH. simpl. split.
    + intros [<-|[H Hn]]; [auto|]. split; [auto|]. intros Hs. apply Hn. auto.
    + intros [[<-|H] Hn]; [auto|].
      destruct (pair_eqb q p) eqn:E.
      * apply pair_eqb_eq in E. auto.
      * right. split; [exact H|]. intros [->|Hs]; [|contradiction].
        rewrite (proj2 (pair_eqb_eq p p) eq_refl) in E. discriminate.
Qed.

Lemma drop_duplicate_pairs_nodup (seen l : list (Z * option Z)) :
  NoDup (drop_duplicate_pairs seen l).
Proof.
  revert seen. induction l as [|q l IH]; intros seen; simpl; [constructor|].
  destruct (existsb (pair_eqb q) seen); [apply IH|].
  constructor; [|apply IH].
  intros Hin. apply drop_duplicate_pairs_In in Hin. destruct Hin as [_ Hn].
  apply Hn. left. reflexivity.
Qed.

Lemma application_dates_In (data : list Row.t) (p : Z * option Z) :
  In p (application_dates data) <->
  exists r, In r data /\ (Row.id r, Row.application_date r) = p.
Proof.
  unfold application_dates. rewrite drop_duplicate_pairs_In, in_map_iff.
  split.
  - intros [[r [Hr Hin]] _]. exists r. auto.
  - intros [r [Hin Hr]]. split; [exists r; auto|intros []].
Qed.

Lemma flat_map_singletons {A B : Type} (f : A -> list B) (h : A -> B)
    (l : list A) :
  (forall x, In x l -> f x = [h x]) -> flat_map f l = map h l.
Proof.
  induction l as [|x l IH]; intros H; simpl; [reflexivity|].
  rewrite (H x (or_introl eq_refl)). simpl. f_equal.
  apply IH. intros y Hy. apply H. right. exact Hy.
Qed.

Lemma map_flat_map {A B C : Type} (g : B -> C) (f : A -> list B) (l : list A) :
  map g (flat_map f l) = flat_map (fun x => map g (f x)) l.
Proof.
  induction l as [|x l IH]; simpl; [reflexivity|]. now rewrite map_app, IH.
Qed.

Lemma filter_keyed {B : Type} (g : Z -> B) (keys : list Z) (k : Z) :
  NoDup keys -> In k keys ->
  filter (fun r : Z * B => fst r =? k) (map (fun k' => (k', g k')) keys)
  = [(k, g k)].
Proof.
  induction keys as [|x keys IH]; intros Hnd Hin; [destruct Hin|].
  inversion Hnd as [|? ? Hx Hnd']; subst. cbn [map filter fst].
  destruct (x =? k) eqn:E.
  - apply Z.eqb_eq in E. subst x. f_equal. apply filter_none.
    intros r Hr. apply in_map_iff in Hr. destruct Hr as [k' [<- Hk']].
    cbn [fst]. apply Z.eqb_neq. intros ->. contradiction.
  - apply Z.eqb_neq in E. destruct Hin as [->|Hin]; [congruence|].
    now apply IH.
Qed.

Lemma merge_keyed {A B : Type} (f : Z -> A) (g : Z -> B) (keys : list Z) :
  NoDup keys ->
  merge (map (fun k => (k, f k)) keys) (map (fun k => (k, g k)) keys)
  = map (fun k => (k, (f k, g k))) keys.
Proof.
  intros Hnd. unfold merge. rewrite flat_map_concat_map, map_map.
  rewrite <- flat_map_concat_map.
  apply flat_map_singletons. intros k Hk. cbn [fst snd].
  rewrite filter_keyed by assumption. reflexivity.
Qed.

Lemma column_value_int (f : list Row.t -> result num) (data : list Row.t) :
  (forall sub_df v, f sub_df = Ok v -> is_int v = true) ->
  (forall k, In k (group_keys data) ->
     f (get_group data k) = Ok (value_of f data k)) ->
  forall k, column_value f data k = value_of f data k.
Proof.
  intros Hint Hall k. unfold column_value. apply upcast_ints.
  apply forallb_forall. intros v Hv. apply in_map_iff in Hv.
  destruct Hv as [k' [<- Hk']]. exact (Hint _ _ (Hall k' Hk')).
Qed.

Lemma claims_in_last_180_days_int (sub_df : list Row.t) (v : num) :
  claims_in_last_180_days sub_df = Ok v -> is_int v = true.
Proof.
  intros H. destruct (claims_in_last_180_days_range _ _ H) as [z [-> _]].
  reflexivity.
Qed.

Lemma days_since_last_loan_int (sub_df : list Row.t) (v : num) :
  days_since_last_loan sub_df = Ok v -> is_int v = true.
Proof.
  intros H. destruct (days_since_last_loan_range _ _ H) as [z [-> _]].
  reflexivity.
Qed.

(** The table features_df builds from three columns over the same keys. *)
Lemma features_df_columns (data : list Row.t) :
  let column := fun f => map (fun k => (k, column_value f data k)) (group_keys data) in
  map (fun x =>
         match x with
         | (i, (((tot, disb), day), app)) =>
             {| Features.id := i;
                Features.application_date := app;
                Features.tot_claim_cnt_l180d := tot;
                Features.disb_bank_loan_wo_tbc := disb;
                Features.day_sinlastloan := day |}
         end)
      (merge (merge (merge (column claims_in_last_180_days)
                           (column (fun sub_df => Ok (sum_loans_wo_tbc sub_df))))
                    (column days_since_last_loan))
             (application_dates data))
  = feature_rows data.
Proof.
  intros column. unfold column.
  rewrite !merge_keyed by apply group_keys_nodup.
  unfold merge, feature_rows.
  rewrite map_flat_map, flat_map_concat_map, map_map, <- flat_map_concat_map.
  apply flat_map_ext. intros k. cbn [fst snd]. rewrite map_map. reflexivity.
Qed.

(** What features_df returned, read back. *)
Lemma features_df_inv (data : list Row.t) (out : list Features.t) :
  features_df data = Ok out ->
  data <> []
  /\ (forall k, In k (group_keys data) ->
        claims_in_last_180_days (get_group data k)
        = Ok (value_of claims_in_last_180_days data k))
  /\ (forall k, In k (group_keys data) ->
        days_since_last_loan (get_group data k)
        = Ok (value_of days_since_last_loan data k))
  /\ out = feature_rows data.
Proof.
  unfold features_df, calculate_tot_claim_cnt_l180d,
    calculate_disb_bank_loan_wo_tbc, calculate_day_sinlastloan.
  destruct (groupby_apply claims_in_last_180_days data) as [tot|e] eqn:Htot;
    cbn [bind]; [|discriminate].
  destruct (groupby_apply (fun sub_df => Ok (sum_loans_wo_tbc sub_df)) data)
    as [disb|e] eqn:Hdisb; cbn [bind]; [|discriminate].
  destruct (groupby_apply days_since_last_loan data) as [day|e] eqn:Hday;
    cbn [bind]; [|discriminate].
  destruct (groupby_apply_inv _ _ _ Htot) as [Hne [Hc ->]].
  destruct (groupby_apply_inv _ _ _ Hdisb) as [_ [_ ->]].
  destruct (groupby_apply_inv _ _ _ Hday) as [_ [Hd ->]].
  intros [= <-]. split; [exact Hne|]. split; [exact Hc|]. split; [exact Hd|].
  fold (application_dates data). apply features_df_columns.
Qed.

(** features_df returns on a table that has rows as soon as the two
    functions that subtract dates return on every group. *)
Lemma features_df_returns (data : list Row.t) :
  data <> [] ->
  (forall k, In k (group_keys data) ->
     exists v, claims_in_last_180_days (get_group data k) = Ok v) ->
  (forall k, In k (group_keys data) ->
     exists v, days_since_last_loan (get_group data k) = Ok v) ->
  features_df data = Ok (feature_rows data).
Proof.
  intros Hne Hc Hd.
  assert (Hval : forall f, (forall k, In k (group_keys data) ->
                              exists v, f (get_group data k) = Ok v) ->
            groupby_apply f data
            = Ok (map (fun k => (k, column_value f data k)) (group_keys data))).
  { intros f Hf. apply (groupby_apply_ok _ (value_of f data)); [exact Hne|].
    intros k Hk. unfold value_of. destruct (Hf k Hk) as [v ->]. reflexivity. }
  unfold features_df, calculate_tot_claim_cnt_l180d,
    calculate_disb_bank_loan_wo_tbc, calculate_day_sinlastloan.
  rewrite (Hval _ Hc), (Hval _ Hd), (Hval (fun sub_df => Ok (sum_loans_wo_tbc sub_df)))
    by (intros k _; eauto).
  cbn [bind]. f_equal. fold (application_dates data). apply features_df_columns.
Qed.

Lemma filter_split_perm {A : Type} (p : A -> bool) (l : list A) :
  Permutation (filter p l ++ filter (fun x => negb (p x)) l) l.
Proof.
  induction l as [|x l IH]; simpl; [constructor|].
  destruct (p x); simpl.
  - now constructor.
  - rewrite <- Permutation_middle. now constructor.
Qed.

Lemma flat_map_ext_on {A B : Type} (f g : A -> list B) (l : list A) :
  (forall x, In x l -> f x = g x) -> flat_map f l = flat_map g l.
Proof.
  induction l as [|x l IH]; intros H; simpl; [reflexivity|].
  rewrite (H x (or_introl eq_refl)). f_equal.
  apply IH. intros y Hy. apply H. right. exact Hy.
Qed.

Lemma pairs_by_key_perm (keys : list Z) (l : list (Z * option Z)) :
  NoDup keys -> (forall p, In p l -> In (fst p) keys) ->
  Permutation (flat_map (fun k => filter (fun p => fst p =? k) l) keys) l.
Proof.
  revert l. induction keys as [|k keys IH]; intros l Hnd Hall; simpl.
  - destruct l as [|p l]; [constructor|]. destruct (Hall p (or_introl eq_refl)).
  - inversion Hnd as [|? ? Hk Hnd']; subst.
    rewrite <- (filter_split_perm (fun p => fst p =? k) l) at 2.
    apply Permutation_app_head.
    rewrite <- (IH (filter (fun p => negb (fst p =? k)) l) Hnd').
    + replace (flat_map (fun k0 => filter (fun p => fst p =? k0)
                                     (filter (fun p => negb (fst p =? k)) l)) keys)
        with (flat_map (fun k0 => filter (fun p => fst p =? k0) l) keys);
        [reflexivity|].
      apply flat_map_ext_on. intros k0 Hk0.
      induction l as [|q l IHl]; [reflexivity|]. cbn [filter].
      assert (Hl : forall p, In p l -> In (fst p) (k :: keys))
        by (intros p Hp; apply Hall; right; exact Hp).
      destruct (fst q =? k) eqn:E; cbn [negb filter].
      * apply Z.eqb_eq in E.
        replace (fst q =? k0) with false; [now apply IHl|].
        symmetry. apply Z.eqb_neq. intros E'. congruence.
      * destruct (fst q =? k0); [f_equal|]; now apply IHl.
    + intros p Hp. apply filter_In in Hp. destruct Hp as [Hp Hne].
      destruct (Hall p Hp) as [E|Hin]; [|exact Hin].
      rewrite E, Z.eqb_refl in Hne. discriminate.
Qed.

Lemma filter_key_pairs (k : Z) (l : list (Z * option Z)) :
  map (fun p => (k, snd p)) (filter (fun p => fst p =? k) l)
  = filter (fun p => fst p =? k) l.
Proof.
  induction l as [|[i a] l IH]; [reflexivity|]. cbn [filter fst].
  destruct (i =? k) eqn:E; [|exact IH].
  apply Z.eqb_eq in E. subst i. cbn [map snd]. now rewrite IH.
Qed.

Lemma feature_rows_pairs (data : list Row.t) :
  map (fun o => (Features.id o, Features.application_date o)) (feature_rows data)
  = flat_map (fun k => filter (fun p => fst p =? k) (application_dates data))
             (group_keys data).
Proof.
  unfold feature_rows. rewrite map_flat_map. apply flat_map_ext. intros k.
  rewrite map_map. cbn [Features.id Features.application_date].
  apply filter_key_pairs.
Qed.

Lemma feature_rows_perm (data : list Row.t) :
  Permutation
    (map (fun o => (Features.id o, Features.application_date o)) (feature_rows data))
    (application_dates data).
Proof.
  rewrite feature_rows_pairs. apply pairs_by_key_perm; [apply group_keys_nodup|].
  intros p Hp. apply application_dates_In in Hp. destruct Hp as [r [Hr <-]].
  apply group_keys_In. exists r. auto.
Qed.

Lemma sorted_blocks {X : Type} (n : Z -> list X) (keys : list Z) :
  StronglySorted Z.lt keys ->
  StronglySorted Z.le (flat_map (fun k => map (fun _ => k) (n k)) keys).
Proof.
  induction 1 as [|k keys Hs IH Hall]; simpl; [constructor|].
  assert (Hrest : Forall (Z.le k)
                    (flat_map (fun k0 => map (fun _ => k0) (n k0)) keys)).
  { apply Forall_forall. intros x Hx. apply in_flat_map in Hx.
    destruct Hx as [k0 [Hk0 Hx]]. apply in_map_iff in Hx.
    destruct Hx as [_ [<- _]]. rewrite Forall_forall in Hall.
    specialize (Hall k0 Hk0). lia. }
  induction (n k) as [|x xs IHx]; simpl; [exact IH|].
  constructor; [exact IHx|]. apply Forall_app. split; [|exact Hrest].
  apply Forall_forall. intros y Hy. apply in_map_iff in Hy.
  destruct Hy as [_ [<- _]]. lia.
Qed.

Lemma feature_rows_sorted (data : list Row.t) :
  StronglySorted Z.le (map Features.id (feature_rows data)).
Proof.
  unfold feature_rows. rewrite map_flat_map.
  rewrite (flat_map_ext _
             (fun k => map (fun _ => k)
                           (filter (fun p => fst p =? k) (application_dates data))))
    by (intros k; now rewrite map_map).
  apply sorted_blocks, group_keys_sorted.
Qed.

Lemma feature_rows_In (data : list Row.t) (o : Features.t) :
  In o (feature_rows data) ->
  In (Features.id o) (group_keys data)
  /\ In (Features.id o, Features.application_date o) (application_dates data)
  /\ Features.tot_claim_cnt_l180d o
     = column_value claims_in_last_180_days data (Features.id o)
  /\ Features.disb_bank_loan_wo_tbc o = disb_value data (Features.id o)
  /\ Features.day_sinlastloan o
     = column_value days_since_last_loan data (Features.id o).
Proof.
  unfold feature_rows. intros Hin. apply in_flat_map in Hin.
  destruct Hin as [k [Hk Hin]]. apply in_map_iff in Hin.
  destruct Hin as [[i a] [<- Hp]]. apply filter_In in Hp.
  destruct Hp as [Hp Hi]. cbn [fst snd] in *. apply Z.eqb_eq in Hi. subst i.
  cbn. auto.
Qed.

Lemma feature_rows_cons (r : Row.t) (data : list Row.t) :
  exists o out, feature_rows (r :: data) = o :: out.
Proof.
  assert (Hlen := Permutation_length (feature_rows_perm (r :: data))).
  rewrite length_map in Hlen. unfold application_dates in Hlen.
  cbn [map drop_duplicate_pairs existsb List.length] in Hlen.
  destruct (feature_rows (r :: data)) as [|o out]; [discriminate|eauto].
Qed.

(** X9. Whenever features_df returns, the table it was given has rows
    and the table it returns has exactly one row for every distinct
    (id, application_date) pair of that table: an id that occurs with
    two application dates gets two rows. The rows come in ascending
    order of id. It returns on every table that has rows and on whose
    groups claims_in_last_180_days and days_since_last_loan return; on a
    table without rows it raises TypeError. *)
Theorem features_df_one_row_per_application_date :
  (forall (data : list Row.t) (out : list Features.t),
      features_df data = Ok out ->
      data <> []
      /\ out <> []
      /\ Permutation
           (map (fun o => (Features.id o, Features.application_date o)) out)
           (application_dates data)
      /\ NoDup (map (fun o => (Features.id o, Features.application_date o)) out)
      /\ (forall p, In p (application_dates data) <->
            exists r, In r data /\ (Row.id r, Row.application_date r) = p)
      /\ StronglySorted Z.le (map Features.id out)
      /\ List.length out = List.length (application_dates data))
  /\ (forall data : list Row.t,
        data <> [] ->
        (forall k, In k (group_keys data) ->
           exists v, claims_in_last_180_days (get_group data k) = Ok v) ->
        (forall k, In k (group_keys data) ->
           exists v, days_since_last_loan (get_group data k) = Ok v) ->
        exists out, features_df data = Ok out)
  /\ features_df [] = Raise TypeError.
Proof.
  split; [|split].
  - intros data out Hout.
    destruct (features_df_inv _ _ Hout) as [Hne [_ [_ ->]]].
    split; [exact Hne|]. split.
    { destruct data as [|r data]; [congruence|].
      destruct (feature_rows_cons r data) as [o [rest ->]]. discriminate. }
    split; [apply feature_rows_perm|]. split.
    + apply (Permutation_NoDup (Permutation_sym (feature_rows_perm data))).
      apply drop_duplicate_pairs_nodup.
    + split; [apply application_dates_In|]. split; [apply feature_rows_sorted|].
      rewrite <- (Permutation_length (feature_rows_perm data)).
      now rewrite length_map.
  - intros data Hne Hc Hd. eexists. now apply features_df_returns.
  - reflexivity.
Qed.

(** X10. Every row of features_df carries the values of the group of its
    id: the outputs of claims_in_last_180_days and days_since_last_loan
    on that group, the output of sum_loans_wo_tbc on it (as it is, or
    stored as a float), and an application date some row of the group
    has; so two rows of one id differ in the application date only. *)
Theorem features_df_rows_carry_group_values :
  forall (data : list Row.t) (out : list Features.t),
    features_df data = Ok out ->
    (forall o, In o out ->
       let sub_df := get_group data (Features.id o) in
       (exists r, In r sub_df
                  /\ Row.application_date r = Features.application_date o)
       /\ claims_in_last_180_days sub_df = Ok (Features.tot_claim_cnt_l180d o)
       /\ days_since_last_loan sub_df = Ok (Features.day_sinlastloan o)
       /\ (Features.disb_bank_loan_wo_tbc o = sum_loans_wo_tbc sub_df
           \/ Features.disb_bank_loan_wo_tbc o
              = VFloat (to_float (sum_loans_wo_tbc sub_df))))
    /\ (forall o1 o2, In o1 out -> In o2 out ->
          Features.id o1 = Features.id o2 ->
          Features.tot_claim_cnt_l180d o1 = Features.tot_claim_cnt_l180d o2
          /\ Features.disb_bank_loan_wo_tbc o1 = Features.disb_bank_loan_wo_tbc o2
          /\ Features.day_sinlastloan o1 = Features.day_sinlastloan o2).
Proof.
  intros data out Hout.
  destruct (features_df_inv _ _ Hout) as [_ [Hc [Hd ->]]].
  assert (Htot := column_value_int _ data claims_in_last_180_days_int Hc).
  assert (Hday := column_value_int _ data days_since_last_loan_int Hd).
  split.
  - intros o Ho sub_df.
    destruct (feature_rows_In data o Ho) as [Hk [Hp [Ht [Hd' Hy]]]].
    split; [|split; [|split]].
    + apply application_dates_In in Hp. destruct Hp as [r [Hr [= Hi Ha]]].
      exists r. split; [|exact Ha]. unfold sub_df, get_group.
      apply filter_In. split; [exact Hr|]. now apply Z.eqb_eq.
    + rewrite Ht, Htot. now apply Hc.
    + rewrite Hy, Hday. now apply Hd.
    + rewrite Hd'. unfold disb_value, upcast, sub_df.
      destruct (forallb is_int _); auto.
  - intros o1 o2 H1 H2 Hid.
    destruct (feature_rows_In data o1 H1) as [_ [_ [Ht1 [Hd1 Hy1]]]].
    destruct (feature_rows_In data o2 H2) as [_ [_ [Ht2 [Hd2 Hy2]]]].
    rewrite Ht1, Hd1, Hy1, Ht2, Hd2, Hy2, Hid. auto.
Qed.

Lemma features_df_rows_carry_group_values_witness :
  let loan date :=
    {| Row.id := 5; Row.application_date := Some date;
       Row.contract_id := None; Row.bank := Some "ALPHA"%string;
       Row.summa := VInt 750; Row.loan_summa := VInt 1000;
       Row.claim_date := Some (Timestamp 2024 1 1); Row.claim_id := None;
       Row.contract_date := Some (Timestamp 2024 1 1) |} in
  let data := [loan (Timestamp 2024 2 1); loan (Timestamp 2024 3 1)] in
  let row date :=
    {| Features.id := 5; Features.application_date := Some date;
       Features.tot_claim_cnt_l180d := VInt 2;
       Features.disb_bank_loan_wo_tbc := VInt 2000;
       Features.day_sinlastloan := VInt 31 |} in
  features_df data = Ok [row (Timestamp 2024 2 1); row (Timestamp 2024 3 1)]
  /\ days_since_last_loan (get_group data 5) = Ok (VInt 31).
Proof.
  intros loan data row.
  assert (H : features_df data
              = Ok [row (Timestamp 2024 2 1); row (Timestamp 2024 3 1)])
    by (vm_compute; reflexivity).
  split; [exact H|].
  destruct (features_df_rows_carry_group_values data _ H) as [Hv _].
  destruct (Hv (row (Timestamp 2024 3 1)) (or_intror (or_introl eq_refl)))
    as [_ [_ [Hd _]]].
  exact Hd.
Defined.

(** ** The pipeline: when it returns and what it raises *)

Lemma mapM_raise {A B : Type} (f : A -> result B) (l : list A) (e : exn) :
  mapM f l = Raise e -> exists x, In x l /\ f x = Raise e.
Proof.
  induction l as [|x l IH]; simpl; [discriminate|].
  destruct (f x) as [y|e'] eqn:Hfx; simpl.
  - destruct (mapM f l) as [ys|e']; simpl; [discriminate|].
    intros [= ->]. destruct (IH eq_refl) as [x' [Hx' H]]. exists x'. auto.
  - intros [= ->]. exists x. auto.
Qed.

Lemma concat_mapM_raise {A B : Type} (f : A -> result (list B)) (l : list A)
    (e : exn) :
  concat_mapM f l = Raise e -> exists x, In x l /\ f x = Raise e.
Proof.
  induction l as [|x l IH]; simpl; [discriminate|].
  destruct (f x) as [y|e'] eqn:Hfx; simpl.
  - destruct (concat_mapM f l) as [ys|e']; simpl; [discriminate|].
    intros [= ->]. destruct (IH eq_refl) as [x' [Hx' H]]. exists x'. auto.
  - intros [= ->]. exists x. auto.
Qed.

Lemma forallb_negb_existsb {A : Type} (p : A -> bool) (l : list A) :
  forallb p l = negb (existsb (fun x => negb (p x)) l).
Proof.
  induction l as [|x l IH]; simpl; [reflexivity|].
  rewrite IH. now destruct (p x).
Qed.

Lemma existsb_map {A B : Type} (p : B -> bool) (f : A -> B) (l : list A) :
  existsb p (map f l) = existsb (fun x => p (f x)) l.
Proof. induction l as [|x l IH]; simpl; [reflexivity|]. now rewrite IH. Qed.

Lemma groupby_apply_raise (f : list Row.t -> result num) (df : list Row.t)
    (e : exn) :
  groupby_apply f df = Raise e ->
  (df = [] /\ e = TypeError)
  \/ exists k, In k (group_keys df) /\ f (get_group df k) = Raise e.
Proof.
  unfold groupby_apply. destruct df as [|r df]; [intros [= <-]; auto|].
  cbv zeta.
  destruct (mapM _ (group_keys (r :: df))) as [values|e'] eqn:Hm;
    cbn [bind]; [discriminate|].
  intros [= ->]. right. now apply mapM_raise in Hm.
Qed.

Lemma claims_in_last_180_days_raise (first : Row.t) (rest : list Row.t)
    (e : exn) :
  claims_in_last_180_days (first :: rest) = Raise e -> e = OutOfBoundsDatetime.
Proof.
  unfold claims_in_last_180_days. cbn [map iloc0 bind].
  unfold ts_sub_timedelta. destruct (Row.application_date first) as [a|];
    [|discriminate]. cbv zeta.
  destruct ((a - timedelta_days 180 <? int64_min)
            || (int64_max <? a - timedelta_days 180));
    [intros [= <-]; reflexivity|].
  destruct (a - timedelta_days 180 =? int64_min); discriminate.
Qed.

(** features_df raises TypeError on a table without rows, and otherwise
    only what a date subtraction raises. *)
Lemma features_df_raise (data : list Row.t) (e : exn) :
  features_df data = Raise e ->
  (data = [] /\ e = TypeError)
  \/ e = OutOfBoundsDatetime \/ e = AssertionError.
Proof.
  unfold features_df, calculate_tot_claim_cnt_l180d,
    calculate_disb_bank_loan_wo_tbc, calculate_day_sinlastloan.
  destruct (groupby_apply claims_in_last_180_days data) as [tot|e1] eqn:Htot;
    cbn [bind].
  - destruct (groupby_apply (fun sub_df => Ok (sum_loans_wo_tbc sub_df)) data)
      as [disb|e2] eqn:Hdisb; cbn [bind].
    + destruct (groupby_apply days_since_last_loan data) as [day|e3] eqn:Hday;
        cbn [bind]; [discriminate|].
      intros [= ->]. apply groupby_apply_raise in Hday.
      destruct Hday as [H|[k [_ Hk]]]; [auto|].
      right. now apply days_since_last_loan_raise in Hk.
    + intros [= ->]. apply groupby_apply_raise in Hdisb.
      destruct Hdisb as [H|[k [_ Hk]]]; [auto|discriminate].
  - intros [= ->]. apply groupby_apply_raise in Htot.
    destruct Htot as [H|[k [Hin Hk]]]; [auto|].
    destruct (get_group_cons data k Hin) as [first [rest Hg]].
    rewrite Hg in Hk. right. left.
    now apply claims_in_last_180_days_raise in Hk.
Qed.

Lemma typed_cons (r : Frame.row) (df : list Frame.row) (rows : list Row.t) :
  typed (r :: df) = Some rows -> exists r' rows', rows = r' :: rows'.
Proof.
  simpl. destruct (typed_row r); [|discriminate].
  destruct (typed df); [|discriminate]. intros [= <-]. eauto.
Qed.

Section Outcome.

Context {lib : PyLib}.

Lemma record_rows_raise (r : Raw.t) (e : exn) :
  record_rows r = Raise e -> e = TypeError \/ e = AttributeError.
Proof.
  unfold record_rows. destruct (Raw.contracts r) as [s|]; [|discriminate].
  destruct (String.eqb s ""); [discriminate|].
  destruct (json_loads s) as [j|]; [|discriminate].
  destruct (contracts_items j) as [items|e'] eqn:Hitems; simpl.
  - intros H. apply mapM_raise in H. destruct H as [x [_ Hx]].
    destruct x; simpl in Hx; try discriminate; injection Hx as <-; auto.
  - intros [= <-]. destruct j; simpl in Hitems; try discriminate;
      injection Hitems as <-; auto.
Qed.

Lemma record_rows_date (r : Raw.t) (rows : list Frame.row) (row : Frame.row) :
  record_rows r = Ok rows -> In row rows ->
  Frame.application_date row = DObj (Raw.application_date r).
Proof.
  unfold record_rows. intros Hrows Hin.
  destruct (Raw.contracts r) as [s|];
    [|injection Hrows as <-; destruct Hin].
  destruct (String.eqb s ""); [injection Hrows as <-; destruct Hin|].
  destruct (json_loads s) as [j|]; [|injection Hrows as <-; destruct Hin].
  destruct (contracts_items j) as [items|e]; simpl in Hrows; [|discriminate].
  destruct (mapM_In _ _ _ _ Hrows Hin) as [x [_ Hx]].
  destruct x; simpl in Hx; try discriminate. injection Hx as <-. reflexivity.
Qed.

Lemma parse_contracts_dates (data : list Raw.t) (rows : list Frame.row) :
  parse_contracts data = Ok rows ->
  forallb (fun row => negb (is_datetime (Frame.application_date row))) rows
  = true.
Proof.
  unfold parse_contracts. intros Hrows. apply forallb_forall. intros row Hin.
  destruct (concat_mapM_In _ _ _ _ Hrows Hin) as [r [ys [_ [Hys Hy]]]].
  now rewrite (record_rows_date r ys row Hys Hy).
Qed.

Lemma parse_contracts_all_unparseable (data : list Raw.t) :
  (forall r, In r data -> unparseable r = true) -> parse_contracts data = Ok [].
Proof.
  intros Hall. unfold parse_contracts.
  rewrite (concat_mapM_skip _ unparseable) by exact record_rows_unparseable.
  rewrite filter_none; [reflexivity|]. intros r Hr.
  apply drop_duplicates_incl in Hr.
  apply (Permutation_in _ (Permutation_sym (sort_values_perm data))) in Hr.
  now rewrite (Hall r Hr).
Qed.

Lemma str_accessor_parsed (data : list Raw.t) (row : Frame.row)
    (rows : list Frame.row) :
  parse_contracts data = Ok (row :: rows) ->
  str_accessor (map Frame.application_date (row :: rows))
  = if has_application_date (row :: rows) then Ok tt else Raise AttributeError.
Proof.
  intros Hparse. unfold str_accessor.
  assert (Hd := parse_contracts_dates _ _ Hparse).
  replace (forallb is_datetime (map Frame.application_date (row :: rows)))
    with false.
  - rewrite forallb_negb_existsb, existsb_map.
    fold (has_application_date (row :: rows)).
    now destruct (has_application_date (row :: rows)).
  - symmetry. cbn [map forallb]. cbn [forallb] in Hd.
    apply andb_true_iff in Hd. destruct Hd as [Hd _].
    destruct (is_datetime (Frame.application_date row)); [discriminate|reflexivity].
Qed.

Lemma pipeline_of_rows (data : list Raw.t) (row : Frame.row)
    (rows : list Frame.row) :
  parse_contracts data = Ok (row :: rows) ->
  pipeline data =
    if has_application_date (row :: rows)
    then match typed (coerce_columns (coerce_application_date (row :: rows))) with
         | Some data' => features_df data'
         | None => Raise TypeError
         end
    else Raise AttributeError.
Proof.
  intros Hparse. unfold pipeline. rewrite Hparse. cbn [bind].
  rewrite convert_data_types_eq, (str_accessor_parsed _ _ _ Hparse).
  destruct (has_application_date (row :: rows)); cbn [bind]; reflexivity.
Qed.

(** X11. What the pipeline does with the table parse_contracts returns.
    An exception of parse_contracts is passed on. A table without rows,
    which is what every input made of null, empty or non-JSON payloads
    gives, ends in KeyError. A table with rows but without any
    application date ends in AttributeError. Every other table gives an
    output with at least one row, unless a date subtraction of the
    feature functions leaves the int64 range of nanoseconds and raises.
    The pipeline never raises IndexError: no group is empty. *)
Theorem pipeline_outcome :
  forall data : list Raw.t,
    (forall e, parse_contracts data = Raise e -> pipeline data = Raise e)
    /\ (parse_contracts data = Ok [] -> pipeline data = Raise KeyError)
    /\ ((forall r, In r data -> unparseable r = true) ->
        pipeline data = Raise KeyError)
    /\ (forall row rows,
          parse_contracts data = Ok (row :: rows) ->
          (has_application_date (row :: rows) = false ->
           pipeline data = Raise AttributeError)
          /\ (has_application_date (row :: rows) = true ->
              (exists o out, pipeline data = Ok (o :: out))
              \/ pipeline data = Raise OutOfBoundsDatetime
              \/ pipeline data = Raise AssertionError))
    /\ pipeline data <> Raise IndexError.
Proof.
  intros data.
  assert (Hraise : forall e, parse_contracts data = Raise e ->
            pipeline data = Raise e)
    by (intros e H; unfold pipeline; now rewrite H).
  assert (Hempty : parse_contracts data = Ok [] -> pipeline data = Raise KeyError)
    by (intros H; unfold pipeline; now rewrite H).
  assert (Hrows : forall row rows,
            parse_contracts data = Ok (row :: rows) ->
            (has_application_date (row :: rows) = false ->
             pipeline data = Raise AttributeError)
            /\ (has_application_date (row :: rows) = true ->
                (exists o out, pipeline data = Ok (o :: out))
                \/ pipeline data = Raise OutOfBoundsDatetime
                \/ pipeline data = Raise AssertionError)).
  { intros row rows Hparse. rewrite (pipeline_of_rows _ _ _ Hparse).
    split; intros H; rewrite H; [reflexivity|].
    assert (Hconv : convert_data_types (row :: rows) false
                    = Ok (coerce_columns (coerce_application_date (row :: rows)))).
    { rewrite convert_data_types_eq, (str_accessor_parsed _ _ _ Hparse), H.
      reflexivity. }
    destruct (typed_after_convert _ _ Hconv) as [data' Htyped].
    rewrite Htyped.
    destruct (coerce_application_date_cons row rows) as [r1 [rest1 E1]].
    rewrite E1 in Htyped.
    destruct (coerce_columns_cons r1 rest1) as [r2 [rest2 E2]].
    rewrite E2 in Htyped.
    destruct (typed_cons _ _ _ Htyped) as [r' [rows' ->]].
    destruct (features_df (r' :: rows')) as [out|e] eqn:Hout.
    - destruct (features_df_inv _ _ Hout) as [_ [_ [_ ->]]].
      destruct (feature_rows_cons r' rows') as [o [out ->]]. eauto.
    - apply features_df_raise in Hout.
      destruct Hout as [[Hnil _]|[He|He]]; [discriminate|subst e; auto|subst e; auto]. }
  split; [exact Hraise|]. split; [exact Hempty|]. split.
  - intros Hall. apply Hempty. now apply parse_contracts_all_unparseable.
  - split; [exact Hrows|]. intros He.
    destruct (parse_contracts data) as [[|row rows]|e'] eqn:Hparse.
    + rewrite (Hempty eq_refl) in He. discriminate.
    + destruct (Hrows row rows eq_refl) as [Hf Ht].
      destruct (has_application_date (row :: rows)).
      * destruct (Ht eq_refl) as [[o [out Hok]]|[H|H]]; congruence.
      * rewrite (Hf eq_refl) in He. discriminate.
    + rewrite (Hraise e' eq_refl) in He. injection He as ->.
      unfold parse_contracts in Hparse. apply concat_mapM_raise in Hparse.
      destruct Hparse as [r [_ Hr]]. apply record_rows_raise in Hr.
      destruct Hr; discriminate.
Qed.

End Outcome.

Lemma pipeline_outcome_witness :
  pipeline (lib := Scenario.lib)
    [Scenario.record 3 "2024-03-01" None;
     Scenario.record 6 "2024-03-01" (Some "{not json"%string)] = Raise KeyError
  /\ pipeline (lib := Scenario.lib)
       [{| Raw.id := 1; Raw.application_date := None;
           Raw.contracts := Some Scenario.payload_A |}] = Raise AttributeError.
Proof.
  split.
  - apply (pipeline_outcome (lib := Scenario.lib)).
    intros r [<-|[<-|[]]]; reflexivity.
  - set (r := {| Raw.id := 1; Raw.application_date := None;
                 Raw.contracts := Some Scenario.payload_A |}).
    destruct (pipeline_outcome (lib := Scenario.lib) [r]) as [_ [_ [_ [H _]]]].
    destruct (H (row_of r [("bank", Some "ALPHA"); ("loan_summa", Some "1000");
                           ("contract_date", Some "01.01.2024");
                           ("claim_date", Some "01.01.2024")]%string)
                [] eq_refl) as [Hf _].
    apply Hf. reflexivity.
Defined.

(** ** convert_data_types: what it keeps and what it retypes *)

Lemma starts_with_iff (p s : string) :
  starts_with p s = true <-> exists rest, s = (p ++ rest)%string.
Proof.
  revert s. induction p as [|a p IH]; intros s; simpl.
  - split; [intros _; exists s; reflexivity|reflexivity].
  - destruct s as [|b s]; [split; [discriminate|intros [rest H]; discriminate]|].
    destruct (Ascii.eqb_spec a b) as [<-|Hab]; cbn [andb].
    + rewrite IH. split; intros [rest H]; exists rest; congruence.
    + split; [discriminate|]. intros [rest [= H _]]. congruence.
Qed.

(** A whitespace character found at the start of [t ++ u] lies within
    [t], or [t] holds only its first bytes and [u] begins with the
    others. *)
Lemma starts_with_app (p t u : string) :
  starts_with p (t ++ u) = true ->
  starts_with p t = true
  \/ exists v, p = (t ++ v)%string /\ starts_with v u = true.
Proof.
  revert t. induction p as [|a p IH]; intros t; [left; reflexivity|].
  destruct t as [|b t]; [intros H; right; exists (String a p); auto|].
  simpl. destruct (Ascii.eqb_spec a b) as [<-|Hab]; cbn [andb]; [|discriminate].
  intros H. destruct (IH t H) as [Hp|[v [-> Hv]]]; [left; exact Hp|].
  right. exists v. auto.
Qed.

Lemma append_empty_r (s : string) : (s ++ "")%string = s.
Proof. induction s as [|c s IH]; simpl; [reflexivity|now rewrite IH]. Qed.

Lemma utf8_cons (cp : Z) : exists c rest, utf8 cp = String c rest.
Proof.
  unfold utf8. destruct (cp <? 128); [eauto|].
  destruct (cp <? 2048); [eauto|]. destruct (cp <? 65536); eauto.
Qed.

Lemma space_width_zero (s : string) :
  space_width s = O <->
  forall cp, In cp whitespace -> starts_with (utf8 cp) s = false.
Proof.
  unfold space_width.
  destruct (find (fun cp => starts_with (utf8 cp) s) whitespace) as [cp|] eqn:Hfind.
  - apply find_some in Hfind. destruct Hfind as [Hin Hp].
    destruct (utf8_cons cp) as [c [rest Hc]]. rewrite Hc. split; [discriminate|].
    intros H. rewrite (H cp Hin) in Hp. discriminate.
  - split; [|reflexivity]. intros _ cp Hin.
    exact (find_none _ _ Hfind cp Hin).
Qed.

Lemma space_width_prefix (s u : string) :
  space_width (s ++ u) = O -> space_width s = O.
Proof.
  rewrite !space_width_zero. intros H cp Hin.
  destruct (starts_with (utf8 cp) s) eqn:Hp; [|reflexivity].
  apply starts_with_iff in Hp. destruct Hp as [rest ->].
  rewrite <- (H cp Hin). symmetry. apply starts_with_iff.
  exists (rest ++ u)%string. clear. induction (utf8 cp) as [|c w IH];
    simpl; [reflexivity|now rewrite IH].
Qed.

(** No whitespace character has, after its first byte, the first byte
    of a whitespace character. *)
Lemma whitespace_no_overlap :
  forallb (fun ws =>
     forallb (fun w =>
        negb (existsb (fun c =>
                match lead_byte (utf8 w) with
                | Some d => Ascii.eqb c d
                | None => false
                end) (inner_bytes (utf8 ws)))) whitespace) whitespace = true.
Proof. vm_compute. reflexivity. Qed.

Lemma inner_bytes_In (t v : string) (c : ascii) :
  t <> EmptyString -> In c (inner_bytes (t ++ String c v)).
Proof.
  destruct t as [|b t]; [congruence|]. intros _. simpl.
  induction t as [|x t IH]; simpl; auto.
Qed.

(** A token that holds no whitespace holds none when a whitespace
    character follows it: no character is made of the last bytes of the
    token and the first bytes of what follows. *)
Lemma space_width_span (t rest : string) (cp : Z) :
  t <> EmptyString -> In cp whitespace ->
  space_width t = O -> space_width (t ++ utf8 cp ++ rest) = O.
Proof.
  intros Hne Hcp H0. apply space_width_zero. intros ws Hws.
  destruct (starts_with (utf8 ws) (t ++ utf8 cp ++ rest)) eqn:Hp; [|reflexivity].
  exfalso. apply starts_with_app in Hp.
  assert (Ht := proj1 (space_width_zero t) H0 ws Hws).
  destruct Hp as [Hp|[v [Hv Hpv]]]; [congruence|].
  destruct v as [|c v].
  - rewrite append_empty_r in Hv. rewrite Hv in Ht.
    assert (Hrefl : starts_with t t = true)
      by (apply starts_with_iff; exists EmptyString; now rewrite append_empty_r).
    congruence.
  - destruct (utf8_cons cp) as [d [w Hd]]. rewrite Hd in Hpv. simpl in Hpv.
    destruct (Ascii.eqb_spec c d) as [<-|Hcd]; [|discriminate].
    assert (Hin : In c (inner_bytes (utf8 ws)))
      by (rewrite Hv; now apply inner_bytes_In).
    assert (H := whitespace_no_overlap).
    rewrite forallb_forall in H. specialize (H ws Hws).
    rewrite forallb_forall in H. specialize (H cp Hcp).
    apply negb_true_iff in H.
    assert (Hex : existsb (fun c0 =>
                     match lead_byte (utf8 cp) with
                     | Some d => Ascii.eqb c0 d
                     | None => false
                     end) (inner_bytes (utf8 ws)) = true).
    { apply existsb_exists. exists c. split; [exact Hin|].
      rewrite Hd. simpl. apply Ascii.eqb_refl. }
    congruence.
Qed.

Lemma space_width_found (cp : Z) (rest : string) :
  In cp whitespace -> space_width (utf8 cp ++ rest) <> O.
Proof.
  intros Hin H. rewrite space_width_zero in H. specialize (H cp Hin).
  assert (Hp : starts_with (utf8 cp) (utf8 cp ++ rest) = true)
    by (apply starts_with_iff; now exists rest).
  congruence.
Qed.

Lemma take_token_whitespace (cp : Z) (rest : string) :
  In cp whitespace -> take_token (utf8 cp ++ rest) = EmptyString.
Proof.
  intros Hin. assert (H := space_width_found cp rest Hin).
  destruct (utf8_cons cp) as [c [w Hc]]. rewrite Hc in *. simpl in *.
  destruct (space_width (String c (w ++ rest))); [congruence|reflexivity].
Qed.

Lemma take_token_prefix (tok rest : string) (cp : Z) :
  In cp whitespace -> no_space tok = true ->
  take_token (tok ++ utf8 cp ++ rest) = tok.
Proof.
  intros Hcp Hns. induction tok as [|x tok IH].
  - now apply take_token_whitespace.
  - cbn [no_space] in Hns. apply andb_true_iff in Hns. destruct Hns as [Hx Hns].
    apply Nat.eqb_eq in Hx.
    assert (H := space_width_span (String x tok) rest cp
                   ltac:(discriminate) Hcp Hx).
    cbn [append take_token] in *. rewrite H. f_equal. now apply IH.
Qed.

Lemma take_token_whole (tok : string) : no_space tok = true -> take_token tok = tok.
Proof.
  induction tok as [|x tok IH]; intros Hns; [reflexivity|].
  cbn [no_space] in Hns. apply andb_true_iff in Hns. destruct Hns as [Hx Hns].
  apply Nat.eqb_eq in Hx. cbn [take_token]. rewrite Hx. f_equal. now apply IH.
Qed.

Lemma take_token_split (s : string) :
  exists rest, s = (take_token s ++ rest)%string.
Proof.
  induction s as [|c s [rest IH]]; [exists EmptyString; reflexivity|].
  cbn [take_token]. destruct (space_width (String c s)).
  - exists rest. simpl. now rewrite <- IH.
  - exists (String c s). reflexivity.
Qed.

Lemma take_token_no_space (s : string) : no_space (take_token s) = true.
Proof.
  induction s as [|c s IH]; [reflexivity|]. cbn [take_token].
  destruct (space_width (String c s)) eqn:E; [|reflexivity].
  cbn [no_space]. rewrite IH, andb_true_r. apply Nat.eqb_eq.
  destruct (take_token_split s) as [rest Hrest].
  apply (space_width_prefix _ rest). simpl. now rewrite <- Hrest.
Qed.

Lemma skip_spaces_head (inside : nat) (s : string) :
  skip_spaces_from inside s = EmptyString
  \/ exists c t, skip_spaces_from inside s = String c t
                 /\ space_width (String c t) = O.
Proof.
  revert inside. induction s as [|c s IH]; intros inside; [left; reflexivity|].
  cbn [skip_spaces_from]. destruct inside as [|k]; [|apply IH].
  destruct (space_width (String c s)) eqn:E; [right; eauto|apply IH].
Qed.

Lemma skip_spaces_token (s : string) :
  space_width s = O -> skip_spaces s = s.
Proof.
  intros H. unfold skip_spaces. destruct s as [|c s]; [reflexivity|].
  cbn [skip_spaces_from]. now rewrite H.
Qed.

(** No whitespace character begins with another one. *)
Lemma whitespace_prefix_free :
  forallb (fun a =>
     forallb (fun b =>
        implb (starts_with (utf8 a) (utf8 b))
              (String.length (utf8 a) =? String.length (utf8 b))%nat)
       whitespace) whitespace = true.
Proof. vm_compute. reflexivity. Qed.

Lemma space_width_whitespace (cp : Z) (s : string) :
  In cp whitespace -> space_width (utf8 cp ++ s) = String.length (utf8 cp).
Proof.
  intros Hin. unfold space_width.
  destruct (find (fun cp' => starts_with (utf8 cp') (utf8 cp ++ s)) whitespace)
    as [cp'|] eqn:Hfind.
  - apply find_some in Hfind. destruct Hfind as [Hin' Hp].
    assert (Hfree := whitespace_prefix_free). rewrite forallb_forall in Hfree.
    assert (Hlen : forall a b, In a whitespace -> In b whitespace ->
              starts_with (utf8 a) (utf8 b) = true ->
              String.length (utf8 a) = String.length (utf8 b)).
    { intros a b Ha Hb Hab. specialize (Hfree a Ha).
      rewrite forallb_forall in Hfree. specialize (Hfree b Hb).
      rewrite Hab in Hfree. now apply Nat.eqb_eq. }
    apply starts_with_app in Hp. destruct Hp as [Hp|[v [Hv _]]].
    + now apply Hlen.
    + symmetry. apply Hlen; [assumption..|].
      apply starts_with_iff. now exists v.
  - exfalso. apply (space_width_found cp s Hin). unfold space_width.
    now rewrite Hfind.
Qed.

Lemma skip_spaces_inside (w s : string) :
  skip_spaces_from (String.length w) (w ++ s) = skip_spaces_from 0 s.
Proof.
  induction w as [|c w IH]; [reflexivity|]. exact IH.
Qed.

Lemma skip_spaces_whitespace (cp : Z) (s : string) :
  In cp whitespace -> skip_spaces (utf8 cp ++ s) = skip_spaces s.
Proof.
  intros Hin. unfold skip_spaces.
  assert (Hw := space_width_whitespace cp s Hin).
  destruct (utf8_cons cp) as [c [w Hc]]. rewrite Hc in *.
  cbn [append skip_spaces_from] in *. rewrite Hw. cbn [String.length].
  apply skip_spaces_inside.
Qed.

(** X12. The token [.str.split().str[0]] keeps of an application date.
    The characters that split are the 29 code points for which
    [str.isspace] holds, the no-break space U+00A0 and the other Unicode
    spaces among them, in their UTF-8 encoding, and no other. A text
    made of a non-empty token without whitespace followed by one of them
    and anything else (a time of day) is cut down to the token; a text
    without whitespace is kept whole; leading whitespace is skipped; the
    token kept is never empty and holds no whitespace; the empty text
    has no token (NaN, then NaT). *)
Theorem first_token_is_leading_token :
  (forall s : string,
      space_width s <> O <->
      exists cp rest,
        In cp [9; 10; 11; 12; 13; 28; 29; 30; 31; 32; 133; 160; 5760;
               8192; 8193; 8194; 8195; 8196; 8197; 8198; 8199; 8200; 8201;
               8202; 8232; 8233; 8239; 8287; 12288]
        /\ s = (utf8 cp ++ rest)%string)
  /\ (forall (tok rest : string) (cp : Z),
        In cp whitespace -> tok <> EmptyString -> no_space tok = true ->
        first_token (tok ++ utf8 cp ++ rest) = Some tok)
  /\ (forall tok : string,
        tok <> EmptyString -> no_space tok = true -> first_token tok = Some tok)
  /\ (forall (cp : Z) (s : string),
        In cp whitespace -> first_token (utf8 cp ++ s) = first_token s)
  /\ (forall s tok : string,
        first_token s = Some tok -> tok <> EmptyString /\ no_space tok = true)
  /\ first_token EmptyString = None.
Proof.
  split; [|split; [|split; [|split; [|split]]]].
  - intros s. split.
    + intros H. unfold space_width in H.
      destruct (find (fun cp => starts_with (utf8 cp) s) whitespace) as [cp|] eqn:Hfind;
        [|congruence].
      apply find_some in Hfind. destruct Hfind as [Hin Hp].
      apply starts_with_iff in Hp. destruct Hp as [rest ->]. exists cp, rest.
      split; [exact Hin|reflexivity].
    + intros [cp [rest [Hin ->]]]. now apply space_width_found.
  - intros tok rest cp Hcp Hne Hns. unfold first_token.
    destruct tok as [|x tok]; [congruence|].
    assert (Hx : space_width (String x tok) = O).
    { cbn [no_space] in Hns. apply andb_true_iff in Hns.
      now apply Nat.eqb_eq. }
    rewrite skip_spaces_token
      by (apply (space_width_span (String x tok)); [discriminate|assumption..]).
    cbn [append]. f_equal.
    exact (take_token_prefix (String x tok) rest cp Hcp Hns).
  - intros tok Hne Hns. unfold first_token.
    destruct tok as [|x tok]; [congruence|].
    assert (Hx : space_width (String x tok) = O).
    { cbn [no_space] in Hns. apply andb_true_iff in Hns.
      now apply Nat.eqb_eq. }
    rewrite (skip_spaces_token _ Hx). f_equal. now apply take_token_whole.
  - intros cp s Hin. unfold first_token. now rewrite skip_spaces_whitespace.
  - intros s tok. unfold first_token, skip_spaces.
    destruct (skip_spaces_head 0 s) as [->|[c [t [-> Hc]]]]; [discriminate|].
    intros [= <-]. split; [|exact (take_token_no_space (String c t))].
    cbn [take_token]. rewrite Hc. discriminate.
  - reflexivity.
Qed.

Lemma first_token_is_leading_token_witness :
  first_token "2024-03-01 10:15:00" = Some "2024-03-01"%string
  /\ utf8 160 = String (ascii_of_nat 194) (String (ascii_of_nat 160) EmptyString)
  /\ first_token ("2024-03-01" ++ utf8 160 ++ "10:15:00") = Some "2024-03-01"%string.
Proof.
  destruct first_token_is_leading_token as [_ [H _]].
  split; [|split; [reflexivity|]].
  - exact (H "2024-03-01"%string "10:15:00"%string 32
             ltac:(vm_compute; tauto) ltac:(discriminate) eq_refl).
  - exact (H "2024-03-01"%string "10:15:00"%string 160
             ltac:(vm_compute; tauto) ltac:(discriminate) eq_refl).
Defined.

Section CoercerKeeps.

Context {lib : PyLib}.

Lemma coerce_columns_single_dtype (df : list Frame.row) :
  let summa := map (fun r => to_numeric_value (Frame.summa r)) (coerce_columns df) in
  let loan := map (fun r => to_numeric_value (Frame.loan_summa r)) (coerce_columns df) in
  (forallb is_int summa = true \/ forallb is_float summa = true)
  /\ (forallb is_int loan = true \/ forallb is_float loan = true).
Proof.
  assert (H : forall col : list num,
            forallb is_int (map (to_numeric_cast col) col) = true
            \/ forallb is_float (map (to_numeric_cast col) col) = true).
  { intros col. destruct (integer_dtype col) eqn:Hd.
    - left. rewrite (map_ext _ (fun n => n))
        by (intros n; now apply to_numeric_cast_ints).
      rewrite map_id. unfold integer_dtype in Hd. apply orb_true_iff in Hd.
      apply forallb_forall. intros n Hn.
      destruct Hd as [Hd|Hd]; rewrite forallb_forall in Hd;
        [apply in_int64_is_int|apply in_uint64_is_int]; now apply Hd.
    - right. apply forallb_forall. intros v Hv. apply in_map_iff in Hv.
      destruct Hv as [n [<- _]]. unfold to_numeric_cast. now rewrite Hd. }
  cbv zeta. unfold coerce_columns. rewrite !map_map.
  cbn [Frame.summa Frame.loan_summa to_numeric to_numeric_value].
  split.
  - rewrite <- (map_map (fun r => to_numeric_value (Frame.summa r))
                  (to_numeric_cast (map to_numeric_value (map Frame.summa df)))).
    rewrite <- (map_map Frame.summa to_numeric_value). apply H.
  - rewrite <- (map_map (fun r => to_numeric_value (Frame.loan_summa r))
                  (to_numeric_cast (map to_numeric_value (map Frame.loan_summa df)))).
    rewrite <- (map_map Frame.loan_summa to_numeric_value). apply H.
Qed.

(** X13. convert_data_types keeps the rows, their order and their id,
    contract_id, bank and claim_id. In the table it returns claim_date
    and contract_date are datetimes (NaT where the text was missing or
    not day.month.year), summa and loan_summa are numbers (NaN likewise)
    and each of these two columns has one dtype, all integers or all
    floats; with by_explode=False application_date is a datetime too.
    No content of a field makes it raise: with by_explode=True it
    returns on every table that has a row. *)
Theorem convert_data_types_keeps_rows :
  (forall (df df' : list Frame.row) (by_explode : bool),
      convert_data_types df by_explode = Ok df' ->
      List.length df' = List.length df
      /\ map Frame.id df' = map Frame.id df
      /\ map Frame.contract_id df' = map Frame.contract_id df
      /\ map Frame.bank df' = map Frame.bank df
      /\ map Frame.claim_id df' = map Frame.claim_id df
      /\ (forall r, In r df' ->
            is_datetime (Frame.claim_date r) = true
            /\ is_datetime (Frame.contract_date r) = true
            /\ (exists n, Frame.summa r = NVal n)
            /\ (exists n, Frame.loan_summa r = NVal n)
            /\ (by_explode = false ->
                is_datetime (Frame.application_date r) = true))
      /\ (let summa := map (fun r => to_numeric_value (Frame.summa r)) df' in
          forallb is_int summa = true \/ forallb is_float summa = true)
      /\ (let loan := map (fun r => to_numeric_value (Frame.loan_summa r)) df' in
          forallb is_int loan = true \/ forallb is_float loan = true))
  /\ (forall (r : Frame.row) (df : list Frame.row),
        exists df', convert_data_types (r :: df) true = Ok df').
Proof.
  split.
  - intros df df' by_explode H. rewrite convert_data_types_eq in H.
    destruct df as [|r0 df0]; [discriminate|].
    assert (Hcols : forall d : list Frame.row,
      List.length (coerce_columns d) = List.length d
      /\ map Frame.id (coerce_columns d) = map Frame.id d
      /\ map Frame.contract_id (coerce_columns d) = map Frame.contract_id d
      /\ map Frame.bank (coerce_columns d) = map Frame.bank d
      /\ map Frame.claim_id (coerce_columns d) = map Frame.claim_id d
      /\ (forall r, In r (coerce_columns d) ->
            is_datetime (Frame.claim_date r) = true
            /\ is_datetime (Frame.contract_date r) = true
            /\ (exists n, Frame.summa r = NVal n)
            /\ (exists n, Frame.loan_summa r = NVal n)
            /\ exists x, In x d /\ Frame.application_date r = Frame.application_date x)).
    { intros d. unfold coerce_columns. rewrite length_map, !map_map.
      cbn [Frame.id Frame.contract_id Frame.bank Frame.claim_id].
      split; [reflexivity|]. split; [reflexivity|]. split; [reflexivity|].
      split; [reflexivity|]. split; [reflexivity|].
      intros r Hr. apply in_map_iff in Hr. destruct Hr as [x [<- Hx]]. cbn.
      split; [destruct (Frame.claim_date x) as [[?|]|?]; reflexivity|].
      split; [destruct (Frame.contract_date x) as [[?|]|?]; reflexivity|].
      unfold to_numeric. split; [eauto|]. split; [eauto|]. eauto. }
    assert (Happ : forall d : list Frame.row,
      List.length (coerce_application_date d) = List.length d
      /\ map Frame.id (coerce_application_date d) = map Frame.id d
      /\ map Frame.contract_id (coerce_application_date d) = map Frame.contract_id d
      /\ map Frame.bank (coerce_application_date d) = map Frame.bank d
      /\ map Frame.claim_id (coerce_application_date d) = map Frame.claim_id d).
    { intros d. unfold coerce_application_date. rewrite length_map, !map_map.
      cbn. auto. }
    destruct by_explode.
    + injection H as <-.
      destruct (Hcols (r0 :: df0)) as [H1 [H2 [H3 [H4 [H5 H6]]]]].
      destruct (coerce_columns_single_dtype (r0 :: df0)) as [H7 H8].
      repeat (split; [assumption|]). split; [|split; assumption].
      intros r Hr. destruct (H6 r Hr) as [A [B [C [D _]]]].
      repeat (split; [assumption|]). discriminate.
    + destruct (str_accessor _); cbn [bind] in H; [|discriminate].
      injection H as <-.
      destruct (Hcols (coerce_application_date (r0 :: df0)))
        as [H1 [H2 [H3 [H4 [H5 H6]]]]].
      destruct (Happ (r0 :: df0)) as [G1 [G2 [G3 [G4 G5]]]].
      destruct (coerce_columns_single_dtype (coerce_application_date (r0 :: df0)))
        as [H7 H8].
      split; [congruence|]. split; [congruence|]. split; [congruence|].
      split; [congruence|]. split; [congruence|].
      split; [|split; assumption].
      intros r Hr. destruct (H6 r Hr) as [A [B [C [D [x [Hx E]]]]]].
      repeat (split; [assumption|]). intros _. rewrite E.
      assert (Hall := coerce_application_date_datetime (r0 :: df0)).
      rewrite forallb_forall in Hall. apply Hall. now apply in_map.
  - intros r df. rewrite convert_data_types_eq. eauto.
Qed.

End CoercerKeeps.

Lemma convert_data_types_keeps_rows_witness :
  let df :=
    [{| Frame.id := 1;
        Frame.application_date := DObj (Some "2024-03-01 10:15:00"%string);
        Frame.contract_id := Some "c-1"%string; Frame.bank := Some "ALPHA"%string;
        Frame.summa := NObj (Some "n/a"%string);
        Frame.loan_summa := NObj (Some "1000"%string);
        Frame.claim_date := DObj (Some "2024-01-01"%string);
        Frame.claim_id := None;
        Frame.contract_date := DObj (Some "01.01.2024"%string) |}] in
  let df' :=
    [{| Frame.id := 1;
        Frame.application_date := DTime (Some (Timestamp 2024 3 1));
        Frame.contract_id := Some "c-1"%string; Frame.bank := Some "ALPHA"%string;
        Frame.summa := NVal (VFloat nan); Frame.loan_summa := NVal (VInt 1000);
        Frame.claim_date := DTime None;
        Frame.claim_id := None;
        Frame.contract_date := DTime (Some (Timestamp 2024 1 1)) |}] in
  convert_data_types (lib := Scenario.lib) df false = Ok df'
  /\ map Frame.bank df' = map Frame.bank df.
Proof.
  intros df df'.
  assert (H : convert_data_types (lib := Scenario.lib) df false = Ok df')
    by (vm_compute; reflexivity).
  split; [exact H|].
  destruct (proj1 (convert_data_types_keeps_rows (lib := Scenario.lib))
              df df' false H) as [_ [_ [_ [Hb _]]]].
  exact Hb.
Defined.

(** ** parse_contracts_by_explode: a payload that is not JSON *)

Lemma dated_insert_In (r x : Dated.t) (l : list Dated.t) :
  In x (dated_insert r l) <-> x = r \/ In x l.
Proof.
  induction l as [|y l IH]; simpl; [intuition|].
  destruct (dated_leb r y); simpl; [intuition|]. rewrite IH. intuition.
Qed.

Lemma dated_sort_values_In (x : Dated.t) (l : list Dated.t) :
  In x (dated_sort_values l) <-> In x l.
Proof.
  induction l as [|y l IH]; simpl; [tauto|].
  rewrite dated_insert_In, IH. intuition.
Qed.

Lemma existsb_dated_same_contracts (r : Dated.t) (l : list Dated.t) :
  existsb (dated_same_contracts r) l = true <->
  In (Dated.contracts r) (map Dated.contracts l).
Proof.
  assert (Heq : forall x, dated_same_contracts r x = true <->
                          Dated.contracts x = Dated.contracts r).
  { intros x. unfold dated_same_contracts.
    destruct (Dated.contracts r) as [a|], (Dated.contracts x) as [b|];
      try (split; discriminate); [|tauto].
    rewrite String.eqb_eq. split; [intros ->|intros [= ->]]; reflexivity. }
  rewrite existsb_exists, in_map_iff. split.
  - intros [x [Hx Hs]]. exists x. split; [now apply Heq|exact Hx].
  - intros [x [Hc Hx]]. exists x. split; [exact Hx|now apply Heq].
Qed.

Lemma dated_drop_duplicates_contracts (l : list Dated.t) (c : option string) :
  In c (map Dated.contracts l) <->
  In c (map Dated.contracts (dated_drop_duplicates l)).
Proof.
  induction l as [|x l IH]; simpl; [tauto|].
  destruct (existsb (dated_same_contracts x) l) eqn:Hdup.
  - rewrite <- IH. apply existsb_dated_same_contracts in Hdup.
    split; [intros [<-|H]; auto|auto].
  - simpl. rewrite IH. tauto.
Qed.

Section ByExplodeFacts.

Context {lib : PyLib}.

Variable to_datetime_utc : list (option string) -> string -> option Z.

Lemma loads_or_empty_failed (x : option string) (e : explode_exn) :
  loads_or_empty x = Failed e <-> not_json x = true /\ e = JSONDecodeError.
Proof.
  unfold loads_or_empty, not_json. destruct x as [s|].
  - destruct (String.eqb s "").
    + split; [discriminate|intros [H _]; discriminate].
    + destruct (json_loads s).
      * split; [discriminate|intros [H _]; discriminate].
      * split; [intros [= <-]; auto|intros [_ ->]; reflexivity].
  - split; [discriminate|intros [H _]; discriminate].
Qed.

Lemma apply_loads_failed (l : list Dated.t) :
  apply_loads l = Failed JSONDecodeError <->
  exists c, In c (map Dated.contracts l) /\ not_json c = true.
Proof.
  induction l as [|r l IH]; simpl.
  - split; [discriminate|intros [c [[] _]]].
  - destruct (loads_or_empty (Dated.contracts r)) as [j|e] eqn:Hr.
    + assert (Hnot : not_json (Dated.contracts r) = false).
      { destruct (not_json (Dated.contracts r)) eqn:E; [|reflexivity].
        rewrite (proj2 (loads_or_empty_failed _ JSONDecodeError) (conj E eq_refl))
          in Hr. discriminate. }
      destruct (apply_loads l) as [out|e].
      * split; [discriminate|]. intros [c [[<-|Hc] Hn]]; [congruence|].
        assert (H := proj2 IH (ex_intro _ c (conj Hc Hn))). discriminate H.
      * split.
        -- intros [= ->]. destruct (proj1 IH eq_refl) as [c [Hc Hn]]. eauto.
        -- intros [c [[<-|Hc] Hn]]; [congruence|].
           f_equal. assert (H := proj2 IH (ex_intro _ c (conj Hc Hn))).
           congruence.
    + apply loads_or_empty_failed in Hr. destruct Hr as [Hn ->].
      split; [|reflexivity]. intros _. exists (Dated.contracts r). auto.
Qed.

(** X14. The second normalization path does not skip a payload that is
    not JSON: on a table with at least one application date,
    parse_contracts_by_explode raises JSONDecodeError from its
    [json.loads] line exactly when some record holds a contracts text
    that is present, not empty and not JSON; parse_contracts appends no
    row for such a record and raises nothing. *)
Theorem parse_contracts_by_explode_raises_on_malformed_json :
  forall data : list Raw.t,
    (exists r, In r data /\ Raw.application_date r <> None) ->
    (parse_contracts_by_explode_loads to_datetime_utc data
       = Failed JSONDecodeError
     <-> exists r, In r data /\ not_json (Raw.contracts r) = true)
    /\ (forall r, not_json (Raw.contracts r) = true -> record_rows r = Ok []).
Proof.
  intros data [r0 [Hr0 Hdate]]. split.
  - unfold parse_contracts_by_explode_loads.
    destruct data as [|x data]; [destruct Hr0|].
    set (col := map (fun r => DObj (Raw.application_date r)) (x :: data)).
    assert (Hstr : str_accessor col = Ok tt).
    { unfold str_accessor.
      replace (forallb is_datetime col) with false by reflexivity.
      replace (forallb is_missing_obj col) with false; [reflexivity|].
      symmetry. apply not_true_is_false. intros Hall.
      rewrite forallb_forall in Hall.
      specialize (Hall (DObj (Raw.application_date r0))
                       (in_map _ _ _ Hr0)).
      simpl in Hall. destruct (Raw.application_date r0); congruence. }
    rewrite Hstr. cbv zeta. rewrite apply_loads_failed.
    split.
    + intros [c [Hc Hn]].
      apply (proj2 (dated_drop_duplicates_contracts _ _)) in Hc.
      apply in_map_iff in Hc. destruct Hc as [d [<- Hd]].
      apply (proj1 (dated_sort_values_In _ _)) in Hd. apply in_map_iff in Hd.
      destruct Hd as [r [<- Hr]]. exists r. auto.
    + intros [r [Hr Hn]]. exists (Raw.contracts r). split; [|exact Hn].
      apply (proj1 (dated_drop_duplicates_contracts _ _)). apply in_map_iff.
      eexists. split; [|apply (proj2 (dated_sort_values_In _ _)), in_map_iff;
                        exists r; split; [reflexivity|exact Hr]].
      reflexivity.
  - intros r Hn. apply record_rows_unparseable.
    unfold not_json in Hn. unfold unparseable.
    destruct (Raw.contracts r) as [s|]; [|reflexivity].
    destruct (String.eqb s ""); [reflexivity|].
    destruct (json_loads s); [discriminate|reflexivity].
Qed.

End ByExplodeFacts.

Lemma parse_contracts_by_explode_raises_on_malformed_json_witness :
  let data :=
    [Scenario.record 1 "2024-03-01" (Some Scenario.payload_A);
     Scenario.record 6 "2024-03-02" (Some "{not json"%string)] in
  parse_contracts_by_explode_loads (lib := Scenario.lib)
    (fun _ s => Scenario.parse_ymd s) data = Failed JSONDecodeError
  /\ parse_contracts (lib := Scenario.lib) data
     = parse_contracts (lib := Scenario.lib)
         [Scenario.record 1 "2024-03-01" (Some Scenario.payload_A)].
Proof.
  intros data. split; [|reflexivity].
  apply (parse_contracts_by_explode_raises_on_malformed_json
           (lib := Scenario.lib)).
  - exists (Scenario.record 1 "2024-03-01" (Some Scenario.payload_A)).
    split; [left; reflexivity|discriminate].
  - exists (Scenario.record 6 "2024-03-02" (Some "{not json"%string)).
    split; [right; left; reflexivity|reflexivity].
Defined.

(** ** parse_contracts: when it returns; the ids of the output *)

Lemma concat_mapM_ok_iff {A B : Type} (f : A -> result (list B)) (l : list A) :
  (exists out, concat_mapM f l = Ok out) <->
  forall x, In x l -> exists ys, f x = Ok ys.
Proof.
  induction l as [|x l IH]; simpl.
  - split; [intros _ y []|eauto].
  - split.
    + intros [out H]. destruct (f x) as [ys|e] eqn:Hfx; simpl in H;
        [|discriminate].
      destruct (concat_mapM f l) as [zs|e]; simpl in H; [|discriminate].
      intros y [<-|Hy]; [eauto|]. apply (proj1 IH); eauto.
    + intros H. destruct (H x (or_introl eq_refl)) as [ys ->]. simpl.
      destruct (proj2 IH (fun y Hy => H y (or_intror Hy))) as [zs ->].
      simpl. eauto.
Qed.

Lemma mapM_contract_row_ok (i : Z) (d : option string) (items : list json) :
  (exists rows, mapM (contract_row i d) items = Ok rows) <->
  forallb is_object items = true.
Proof.
  induction items as [|x items IH]; simpl; [split; eauto|].
  destruct x; simpl;
    try (split; [intros [rows H]; discriminate|discriminate]).
  rewrite <- IH. split.
  - intros [rows H].
    destruct (mapM (contract_row i d) items) as [ys|e]; [eauto|discriminate].
  - intros [ys ->]. simpl. eauto.
Qed.

Lemma feature_rows_ids (data : list Row.t) (i : Z) :
  In i (map Features.id (feature_rows data)) <-> In i (map Row.id data).
Proof.
  split.
  - intros Hin. apply in_map_iff in Hin. destruct Hin as [o [<- Ho]].
    destruct (feature_rows_In data o Ho) as [Hk _].
    apply group_keys_In in Hk. destruct Hk as [r [Hr <-]]. now apply in_map.
  - intros Hin. apply in_map_iff in Hin. destruct Hin as [r [<- Hr]].
    assert (Hp : In (Row.id r, Row.application_date r) (application_dates data))
      by (apply application_dates_In; eauto).
    apply (Permutation_in _ (Permutation_sym (feature_rows_perm data))) in Hp.
    apply in_map_iff in Hp. destruct Hp as [o [[= Hid _] Ho]].
    rewrite <- Hid. now apply in_map.
Qed.

Section Completeness.

Context {lib : PyLib}.

Lemma record_rows_ok_iff (r : Raw.t) :
  (exists rows, record_rows r = Ok rows) <-> well_shaped (Raw.contracts r) = true.
Proof.
  unfold record_rows, well_shaped. destruct (Raw.contracts r) as [s|];
    [|split; eauto].
  destruct (String.eqb s ""); [split; eauto|].
  destruct (json_loads s) as [j|]; [|split; eauto].
  destruct j as [| b | n | t | items | d]; cbn [contracts_items bind].
  all: try (split; [intros [rows H]; discriminate H|intros H; discriminate H]).
  all: try apply mapM_contract_row_ok.
  all: try (destruct t as [|c t]; simpl;
            [split; eauto
            |split; [intros [rows H]; discriminate H|intros H; discriminate H]]).
  all: try (simpl; split; eauto).
Qed.

(** X15. parse_contracts returns a table exactly when every contracts
    cell of the input is null, empty, not JSON, or JSON that is an
    object, a list of objects or an empty string; one cell of another
    shape (a number, true, a list holding a number, ...) makes the whole
    call raise, also when its record is a duplicate that is dropped in
    favour of a later record with the same text. *)
Theorem parse_contracts_returns_iff_well_shaped :
  forall data : list Raw.t,
    (exists rows, parse_contracts data = Ok rows) <->
    (forall r, In r data -> well_shaped (Raw.contracts r) = true).
Proof.
  intros data. unfold parse_contracts. rewrite concat_mapM_ok_iff. split.
  - intros H r Hr.
    assert (Hc : In (Raw.contracts r)
                    (map Raw.contracts (drop_duplicates (sort_values data)))).
    { apply (proj1 (drop_duplicates_contracts _ _)).
      apply (Permutation_in _ (Permutation_map _ (sort_values_perm data))).
      now apply in_map. }
    apply in_map_iff in Hc. destruct Hc as [r' [<- Hr']].
    apply record_rows_ok_iff. now apply H.
  - intros H r Hr. apply record_rows_ok_iff. apply H.
    apply drop_duplicates_incl in Hr.
    now apply (Permutation_in _ (Permutation_sym (sort_values_perm data))).
Qed.

(** X16. When the pipeline returns, the ids of its output are exactly
    the ids of the rows parse_contracts returned: every application that
    has a contract row gets at least one output row, and no other id
    does. *)
Theorem pipeline_ids_are_the_normalized_ids :
  forall (data : list Raw.t) (rows : list Frame.row) (out : list Features.t),
    parse_contracts data = Ok rows ->
    pipeline data = Ok out ->
    forall i, In i (map Features.id out) <-> In i (map Frame.id rows).
Proof.
  intros data rows out Hparse Hrun i. unfold pipeline in Hrun.
  rewrite Hparse in Hrun. cbn [bind] in Hrun.
  destruct (convert_data_types rows false) as [df'|e] eqn:Hconv;
    cbn [bind] in Hrun; [|discriminate].
  destruct (typed df') as [data'|] eqn:Htyped; [|discriminate].
  destruct (features_df_inv _ _ Hrun) as [_ [_ [_ ->]]].
  rewrite feature_rows_ids, (typed_ids _ _ Htyped),
    (convert_data_types_ids _ _ _ Hconv). reflexivity.
Qed.

End Completeness.

Lemma parse_contracts_returns_iff_well_shaped_witness :
  exists rows,
    parse_contracts (lib := Scenario.lib)
      [Scenario.record 1 "2024-03-01" (Some Scenario.payload_A);
       Scenario.record 3 "2024-03-01" None;
       Scenario.record 6 "2024-03-01" (Some "{not json"%string)] = Ok rows.
Proof.
  apply (proj2 (parse_contracts_returns_iff_well_shaped (lib := Scenario.lib) _)).
  intros r [<-|[<-|[<-|[]]]]; reflexivity.
Defined.

Lemma pipeline_ids_are_the_normalized_ids_witness :
  let data :=
    [Scenario.record 1 "2024-03-01" (Some Scenario.payload_A);
     Scenario.record 5 "2024-02-01" (Some Scenario.payload_E);
     Scenario.record 3 "2024-03-01" None] in
  exists rows out,
    parse_contracts (lib := Scenario.lib) data = Ok rows
    /\ pipeline (lib := Scenario.lib) data = Ok out
    /\ map Frame.id rows = [1; 5]
    /\ (In 5 (map Features.id out) <-> In 5 (map Frame.id rows)).
Proof.
  intros data. eexists. eexists.
  split; [vm_compute; reflexivity|]. split; [vm_compute; reflexivity|].
  split; [reflexivity|].
  refine (pipeline_ids_are_the_normalized_ids (lib := Scenario.lib)
            data _ _ _ _ 5); vm_compute; reflexivity.
Defined.
